(** * Takeoff performance calculator of the A380-842: model and verification

    The calculator (class [A380482xTakeoffPerformanceCalculator]) computes,
    from runway, atmosphere and aircraft state, the maximum takeoff weight,
    the flex temperature and the speeds V1, VR and V2.  This development
    embeds the calculator as Rocq functions, one per method of the class and
    with the same names, and proves properties of them.

    Numbers.  A JavaScript [number] is modelled as an exact rational or
    [NaN].  The code produces [NaN] on purpose (the temperature and wind
    corrections beyond Tflexmax) and relies on comparisons with it being
    false, so [NaN] is part of the model; rounding errors, infinities and
    the sign of zero are not.  The fields of the input record are finite
    numbers, hence of type [Q]. *)

From Stdlib Require Import String.
From Stdlib Require Import QArith Qround Qabs Qminmax Lqa ZArith Lia List Bool.
Import ListNotations.
Open Scope Q_scope.

(** ** Numbers *)

Inductive num : Type :=
| NaN
| Fin (q : Q).

Coercion Fin : Q >-> num.

Declare Scope num_scope.
Delimit Scope num_scope with num.
Bind Scope num_scope with num.

Module Num.

Definition lift1 (f : Q -> Q) (a : num) : num :=
  match a with
  | Fin x => Fin (f x)
  | NaN => NaN
  end.

Definition lift2 (f : Q -> Q -> Q) (a b : num) : num :=
  match a, b with
  | Fin x, Fin y => Fin (f x y)
  | _, _ => NaN
  end.

Definition add : num -> num -> num := lift2 Qplus.
Definition sub : num -> num -> num := lift2 Qminus.
Definition mul : num -> num -> num := lift2 Qmult.

(** Every division of the calculator is by a non-zero constant; a zero
    divisor, which gives an infinity or NaN in JavaScript, gives [NaN]. *)
Definition div (a b : num) : num :=
  match a, b with
  | Fin x, Fin y => if Qeq_bool y 0 then NaN else Fin (x / y)
  | _, _ => NaN
  end.

(** Comparisons: false as soon as one side is [NaN]. *)
Definition cmp (test : Q -> Q -> bool) (a b : num) : bool :=
  match a, b with
  | Fin x, Fin y => test x y
  | _, _ => false
  end.

Definition Qlt_bool (x y : Q) : bool := negb (Qle_bool y x).

Definition leb : num -> num -> bool := cmp Qle_bool.
Definition ltb : num -> num -> bool := cmp Qlt_bool.
Definition geb (a b : num) : bool := leb b a.
Definition gtb (a b : num) : bool := ltb b a.
(** [===] on two numbers. *)
Definition eqb : num -> num -> bool := cmp Qeq_bool.

(** [===] on two optional numbers ([undefined === undefined] holds). *)
Definition opt_eqb (a b : option num) : bool :=
  match a, b with
  | None, None => true
  | Some x, Some y => eqb x y
  | _, _ => false
  end.

(** [a ?? d] *)
Definition orElse (a : option num) (d : num) : num :=
  match a with
  | Some x => x
  | None => d
  end.

Definition finite (a : num) : Prop :=
  match a with
  | Fin _ => True
  | NaN => False
  end.

Definition isFinite (a : num) : bool :=
  match a with
  | Fin _ => true
  | NaN => false
  end.

(** [a] is an integer. *)
Definition integer (a : num) : Prop := exists z : Z, a = Fin (inject_Z z).

End Num.

Infix "+" := Num.add : num_scope.
Infix "-" := Num.sub : num_scope.
Infix "*" := Num.mul : num_scope.
Infix "/" := Num.div : num_scope.
Infix "<=?" := Num.leb (at level 70, no associativity) : num_scope.
Infix "<?" := Num.ltb (at level 70, no associativity) : num_scope.
Infix ">=?" := Num.geb (at level 70, no associativity) : num_scope.
Infix ">?" := Num.gtb (at level 70, no associativity) : num_scope.
Infix "===" := Num.eqb (at level 70, no associativity) : num_scope.

(** The functions of the JavaScript [Math] object that the calculator uses.
    [Math.pow] is not rational; the calculator takes it as a parameter. *)
Module Math.

Definition min : num -> num -> num := Num.lift2 Qmin.
Definition max : num -> num -> num := Num.lift2 Qmax.
Definition min3 (a b c : num) : num := min (min a b) c.
Definition max3 (a b c : num) : num := max (max a b) c.

Definition abs : num -> num := Num.lift1 Qabs.

(** Half-way cases go up. *)
Definition round : num -> num :=
  Num.lift1 (fun x => inject_Z (Qfloor (x + 0.5))).

Definition ceil : num -> num := Num.lift1 (fun x => inject_Z (Qceiling x)).

Definition trunc : num -> num :=
  Num.lift1 (fun x => inject_Z (if Qle_bool 0 x then Qfloor x else Qceiling x)).

Definition sign : num -> num :=
  Num.lift1 (fun x => if Num.Qlt_bool x 0 then -1 else if Qeq_bool x 0 then 0 else 1).

End Math.

(** [MathUtils] of the simulator SDK, on finite numbers. *)
Module MathUtils.

Definition clamp01 (clampStart clampEnd : bool) (f : Q) : Q :=
  let f := if clampStart then Qmax f 0 else f in
  if clampEnd then Qmin f 1 else f.

Definition lerp (x x0 x1 y0 y1 : Q) (clampStart clampEnd : bool) : Q :=
  if negb (Qeq_bool x0 x1) && negb (Qeq_bool y0 y1) then
    clamp01 clampStart clampEnd ((x - x0) / (x1 - x0)) * (y1 - y0) + y0
  else y0.

Definition round (value precision : Q) : Q :=
  inject_Z (Qfloor (value / precision + 0.5)) * precision.

End MathUtils.

(** ** Exceptions *)

Inductive outcome (A : Type) : Type :=
| Ok (a : A)
| Throw (message : string).
Arguments Ok {A} a.
Arguments Throw {A} message.

Definition bind {A B : Type} (m : outcome A) (k : A -> outcome B) : outcome B :=
  match m with
  | Ok a => k a
  | Throw s => Throw s
  end.

Notation "x <- m ;; k" := (bind m (fun x => k))
  (at level 61, m at next level, right associativity).

(** ** Lookup tables *)

(** Modelled from the spec: the classes [LerpLookupTable] and
    [LerpVectorLookupTable] come from the simulator SDK and are not part of
    the sources.  A table is a list of samples sorted by key, each written
    as in the source, value first; [get] interpolates linearly between the
    two samples around the key and returns the first or the last sample
    outside of them.  With two keys the first key is the outer one. *)
Definition LerpLookupTable : Type := list (Q * Q).
Definition LerpLookupTable2 : Type := list (Q * Q * Q).
Definition LerpVectorLookupTable : Type := list (list Q * Q).

(** Modelled from the spec: [VecNMath] comes from the simulator SDK too.
    The first argument of [VecNMath.create(length, ...components)] is the
    number of components of the vector, as in the declaration of
    [vec4Cache] below; the vector holds that many of the components given,
    and zero where none is given.  The number of components is the integer
    part of [length]; a [length] of -1 or less is a [RangeError], which no
    call of the sources runs into. *)
Module VecNMath.

Definition create (length : Q) (components : list Q) : list Q :=
  let n := Z.to_nat (Qfloor length) in
  firstn n (components ++ repeat 0 n).

End VecNMath.

Module Lerp.

Fixpoint from (v0 k0 : Q) (rest : LerpLookupTable) (x : Q) : Q :=
  match rest with
  | [] => v0
  | (v1, k1) :: rest' =>
      if Qle_bool x k0 then v0
      else if Qle_bool k1 x then from v1 k1 rest' x
      else v0 + (x - k0) / (k1 - k0) * (v1 - v0)
  end.

Definition get (t : LerpLookupTable) (key : num) : num :=
  match key, t with
  | Fin x, (v0, k0) :: rest => Fin (from v0 k0 rest x)
  | _, _ => NaN
  end.

Definition mix (w : Q) (a b : list Q) : list Q :=
  map (fun p => fst p + w * (snd p - fst p)) (combine a b).

Fixpoint vfrom (v0 : list Q) (k0 : Q) (rest : LerpVectorLookupTable) (x : Q) : list Q :=
  match rest with
  | [] => v0
  | (v1, k1) :: rest' =>
      if Qle_bool x k0 then v0
      else if Qle_bool k1 x then vfrom v1 k1 rest' x
      else mix ((x - k0) / (k1 - k0)) v0 v1
  end.

(** [get(out, key)]: the vector written to [out]. *)
Definition getVector (t : LerpVectorLookupTable) (key : num) : list num :=
  match key, t with
  | Fin x, (v0, k0) :: rest => map Fin (vfrom v0 k0 rest x)
  | _, _ => []
  end.

(** [get(out, key)] on a buffer that the vector may not fill: the
    components of the vector are written at the start of [out], what
    [out] holds beyond them stays, and [out] is returned. *)
Definition getInto (out : list num) (t : LerpVectorLookupTable) (key : num) : list num :=
  let v := getVector t key in
  v ++ skipn (length v) out.

(** Reading a component; a missing one is [undefined], [NaN] in arithmetic. *)
Definition at_ (v : list num) (i : nat) : num := nth i v NaN.

(** The rows of a two-key table, grouped by runs of equal first key. *)
Fixpoint groups (rows : LerpLookupTable2) : list (Q * LerpLookupTable) :=
  match rows with
  | [] => []
  | (v, k1, k2) :: rest =>
      match groups rest with
      | (k1', inner) :: gs =>
          if Qeq_bool k1 k1' then (k1, (v, k2) :: inner) :: gs
          else (k1, [(v, k2)]) :: (k1', inner) :: gs
      | [] => [(k1, [(v, k2)])]
      end
  end.

Definition inner (y : Q) (g : Q * LerpLookupTable) : Q * Q :=
  match snd g with
  | (v0, k0) :: rest => (from v0 k0 rest y, fst g)
  | [] => (0, fst g)
  end.

Definition get2 (t : LerpLookupTable2) (key1 key2 : num) : num :=
  match key2 with
  | Fin y => get (map (inner y) (groups t)) key1
  | NaN => NaN
  end.

End Lerp.

(** ** The data model *)

Inductive LineupAngle : Type := Lineup0 | Lineup90 | Lineup180.

(** The three flap configurations, once [checkInputs] has accepted the
    number [conf]; the coefficient tables are indexed by them. *)
Inductive Conf : Type := Conf1 | Conf2 | Conf3.

Definition confOf (conf : Z) : option Conf :=
  if (conf =? 1)%Z then Some Conf1
  else if (conf =? 2)%Z then Some Conf2
  else if (conf =? 3)%Z then Some Conf3
  else None.

Module TakeoffAntiIceSetting.
Inductive t : Type := Off | Engine | EngineWing.
Definition eqb (a b : t) : bool :=
  match a, b with
  | Off, Off | Engine, Engine | EngineWing, EngineWing => true
  | _, _ => false
  end.
End TakeoffAntiIceSetting.

Module RunwayCondition.
Inductive t : Type :=
| Dry
| Wet
| Contaminated6mmWater
| Contaminated13mmWater
| Contaminated6mmSlush
| Contaminated13mmSlush
| ContaminatedCompactedSnow
| Contaminated5mmWetSnow
| Contaminated15mmWetSnow
| Contaminated30mmWetSnow
| Contaminated10mmDrySnow
| Contaminated100mmDrySnow.
End RunwayCondition.

Module LimitingFactor.
Inductive t : Type := Runway | SecondSegment | BrakeEnergy | Vmcg.

(** Modelled from the spec: the enumeration is declared outside of the
    sources; [Object.values(LimitingFactor)] lists it Runway first, in the
    order in which the calculator fills [result.limits]. *)
Definition values : list t := [Runway; SecondSegment; BrakeEnergy; Vmcg].

(** The rank of a factor in [values]. *)
Definition index (f : t) : nat :=
  match f with
  | Runway => 0
  | SecondSegment => 1
  | BrakeEnergy => 2
  | Vmcg => 3
  end.
End LimitingFactor.

Module TakeoffPerfomanceError.
Inductive t : Type :=
| None
| InvalidData
| StructuralMtow
| MaximumPressureAlt
| MaximumTemperature
| OperatingEmptyWeight
| CgOutOfLimits
| MaximumTailwind
| MaximumRunwaySlope
| TooLight
| TooHeavy
| VmcgVmcaLimits
| MaximumTireSpeed.

Definition eqb (a b : t) : bool :=
  match a, b with
  | None, None | InvalidData, InvalidData | StructuralMtow, StructuralMtow
  | MaximumPressureAlt, MaximumPressureAlt | MaximumTemperature, MaximumTemperature
  | OperatingEmptyWeight, OperatingEmptyWeight | CgOutOfLimits, CgOutOfLimits
  | MaximumTailwind, MaximumTailwind | MaximumRunwaySlope, MaximumRunwaySlope
  | TooLight, TooLight | TooHeavy, TooHeavy | VmcgVmcaLimits, VmcgVmcaLimits
  | MaximumTireSpeed, MaximumTireSpeed => true
  | _, _ => false
  end.
End TakeoffPerfomanceError.

Record TakeoffPerformanceInputs : Type := {
  tow : Q;
  forwardCg : bool;
  cg : option Q;
  conf : Z;
  tora : Q;
  slope : Q;
  lineupAngle : LineupAngle;
  wind : Q;
  elevation : Q;
  qnh : Q;
  oat : Q;
  antiIce : TakeoffAntiIceSetting.t;
  packs : bool;
  forceToga : bool;
  runwayCondition : RunwayCondition.t
}.

Record TakeoffPerformanceParameters : Type := {
  adjustedTora : num;
  pressureAlt : num;
  isaTemp : num;
  tRef : num;
  tMax : num;
  tFlexMax : num;
  headwind : num;
  flexLimitingFactor : option LimitingFactor.t
}.

Record LimitWeight : Type := {
  baseLimit : num;
  deltaSlope : num;
  slopeLimit : num;
  deltaAlt : num;
  altLimit : num;
  oatDeltaTemp : num;
  oatDeltaWind : num;
  oatLimitNoBleed : num;
  oatLimit : num;
  tRefDeltaTemp : num;
  tRefDeltaWind : num;
  tRefLimitNoBleed : num;
  tRefLimit : num;
  tMaxDeltaTemp : num;
  tMaxDeltaWind : num;
  tMaxLimitNoBleed : num;
  tMaxLimit : num;
  tFlexMaxDeltaTemp : num;
  tFlexMaxDeltaWind : num;
  tFlexMaxLimitNoBleed : num;
  tFlexMaxLimit : num
}.

(** [result.limits], one [LimitWeight] per limiting factor. *)
Record Limits : Type := {
  limitRunway : LimitWeight;
  limitSecondSegment : LimitWeight;
  limitBrakeEnergy : LimitWeight;
  limitVmcg : LimitWeight
}.

Definition limitOf (l : Limits) (f : LimitingFactor.t) : LimitWeight :=
  match f with
  | LimitingFactor.Runway => limitRunway l
  | LimitingFactor.SecondSegment => limitSecondSegment l
  | LimitingFactor.BrakeEnergy => limitBrakeEnergy l
  | LimitingFactor.Vmcg => limitVmcg l
  end.

(** The speeds kept in [result.intermediateSpeeds].  The record of the
    source also keeps the terms of the regressions, which nothing reads. *)
Record TakeoffPerformanceSpeeds : Type := {
  dryV1 : num;
  dryVR : num;
  dryV2 : num
}.

(** [Partial<TakeoffPerformanceResult>]: a field that the code may leave
    unset is optional. *)
Record TakeoffPerformanceResult : Type := {
  inputs : TakeoffPerformanceInputs;
  params : TakeoffPerformanceParameters;
  error : TakeoffPerfomanceError.t;
  limits : option Limits;
  oatLimitingFactor : option LimitingFactor.t;
  tRefLimitingFactor : option LimitingFactor.t;
  tMaxLimitingFactor : option LimitingFactor.t;
  tFlexMaxLimitingFactor : option LimitingFactor.t;
  tvmcg : option num;
  mtow : option num;
  flex : option num;
  v1 : option num;
  vR : option num;
  v2 : option num;
  intermediateSpeeds : option TakeoffPerformanceSpeeds;
  stabTrim : option num
}.

(** Assignments to the fields of [result]. *)
Definition setError (e : TakeoffPerfomanceError.t) (r : TakeoffPerformanceResult) :=
  {| inputs := inputs r; params := params r; error := e; limits := limits r;
     oatLimitingFactor := oatLimitingFactor r; tRefLimitingFactor := tRefLimitingFactor r;
     tMaxLimitingFactor := tMaxLimitingFactor r;
     tFlexMaxLimitingFactor := tFlexMaxLimitingFactor r; tvmcg := tvmcg r; mtow := mtow r;
     flex := flex r; v1 := v1 r; vR := vR r; v2 := v2 r;
     intermediateSpeeds := intermediateSpeeds r; stabTrim := stabTrim r |}.

Definition setLimits (l : Limits) (r : TakeoffPerformanceResult) :=
  {| inputs := inputs r; params := params r; error := error r; limits := Some l;
     oatLimitingFactor := oatLimitingFactor r; tRefLimitingFactor := tRefLimitingFactor r;
     tMaxLimitingFactor := tMaxLimitingFactor r;
     tFlexMaxLimitingFactor := tFlexMaxLimitingFactor r; tvmcg := tvmcg r; mtow := mtow r;
     flex := flex r; v1 := v1 r; vR := vR r; v2 := v2 r;
     intermediateSpeeds := intermediateSpeeds r; stabTrim := stabTrim r |}.

Definition setLimitingFactors (o tr tm tf : LimitingFactor.t) (r : TakeoffPerformanceResult) :=
  {| inputs := inputs r; params := params r; error := error r; limits := limits r;
     oatLimitingFactor := Some o; tRefLimitingFactor := Some tr;
     tMaxLimitingFactor := Some tm; tFlexMaxLimitingFactor := Some tf;
     tvmcg := tvmcg r; mtow := mtow r;
     flex := flex r; v1 := v1 r; vR := vR r; v2 := v2 r;
     intermediateSpeeds := intermediateSpeeds r; stabTrim := stabTrim r |}.

Definition setTvmcg (t : num) (r : TakeoffPerformanceResult) :=
  {| inputs := inputs r; params := params r; error := error r; limits := limits r;
     oatLimitingFactor := oatLimitingFactor r; tRefLimitingFactor := tRefLimitingFactor r;
     tMaxLimitingFactor := tMaxLimitingFactor r;
     tFlexMaxLimitingFactor := tFlexMaxLimitingFactor r; tvmcg := Some t; mtow := mtow r;
     flex := flex r; v1 := v1 r; vR := vR r; v2 := v2 r;
     intermediateSpeeds := intermediateSpeeds r; stabTrim := stabTrim r |}.

Definition setMtow (m : num) (r : TakeoffPerformanceResult) :=
  {| inputs := inputs r; params := params r; error := error r; limits := limits r;
     oatLimitingFactor := oatLimitingFactor r; tRefLimitingFactor := tRefLimitingFactor r;
     tMaxLimitingFactor := tMaxLimitingFactor r;
     tFlexMaxLimitingFactor := tFlexMaxLimitingFactor r; tvmcg := tvmcg r; mtow := Some m;
     flex := flex r; v1 := v1 r; vR := vR r; v2 := v2 r;
     intermediateSpeeds := intermediateSpeeds r; stabTrim := stabTrim r |}.

(** [[result.flex, result.params.flexLimitingFactor] = ...] *)
Definition setFlex (f : option num) (lf : option LimitingFactor.t)
    (r : TakeoffPerformanceResult) :=
  {| inputs := inputs r;
     params :=
       {| adjustedTora := adjustedTora (params r); pressureAlt := pressureAlt (params r);
          isaTemp := isaTemp (params r); tRef := tRef (params r); tMax := tMax (params r);
          tFlexMax := tFlexMax (params r); headwind := headwind (params r);
          flexLimitingFactor := lf |};
     error := error r; limits := limits r;
     oatLimitingFactor := oatLimitingFactor r; tRefLimitingFactor := tRefLimitingFactor r;
     tMaxLimitingFactor := tMaxLimitingFactor r;
     tFlexMaxLimitingFactor := tFlexMaxLimitingFactor r; tvmcg := tvmcg r; mtow := mtow r;
     flex := f; v1 := v1 r; vR := vR r; v2 := v2 r;
     intermediateSpeeds := intermediateSpeeds r; stabTrim := stabTrim r |}.

Definition setSpeeds (a b c : option num) (r : TakeoffPerformanceResult) :=
  {| inputs := inputs r; params := params r; error := error r; limits := limits r;
     oatLimitingFactor := oatLimitingFactor r; tRefLimitingFactor := tRefLimitingFactor r;
     tMaxLimitingFactor := tMaxLimitingFactor r;
     tFlexMaxLimitingFactor := tFlexMaxLimitingFactor r; tvmcg := tvmcg r; mtow := mtow r;
     flex := flex r; v1 := a; vR := b; v2 := c;
     intermediateSpeeds := intermediateSpeeds r; stabTrim := stabTrim r |}.

Definition setIntermediateSpeeds (s : option TakeoffPerformanceSpeeds)
    (r : TakeoffPerformanceResult) :=
  {| inputs := inputs r; params := params r; error := error r; limits := limits r;
     oatLimitingFactor := oatLimitingFactor r; tRefLimitingFactor := tRefLimitingFactor r;
     tMaxLimitingFactor := tMaxLimitingFactor r;
     tFlexMaxLimitingFactor := tFlexMaxLimitingFactor r; tvmcg := tvmcg r; mtow := mtow r;
     flex := flex r; v1 := v1 r; vR := vR r; v2 := v2 r;
     intermediateSpeeds := s; stabTrim := stabTrim r |}.

Definition setStabTrim (s : option num) (r : TakeoffPerformanceResult) :=
  {| inputs := inputs r; params := params r; error := error r; limits := limits r;
     oatLimitingFactor := oatLimitingFactor r; tRefLimitingFactor := tRefLimitingFactor r;
     tMaxLimitingFactor := tMaxLimitingFactor r;
     tFlexMaxLimitingFactor := tFlexMaxLimitingFactor r; tvmcg := tvmcg r; mtow := mtow r;
     flex := flex r; v1 := v1 r; vR := vR r; v2 := v2 r;
     intermediateSpeeds := intermediateSpeeds r; stabTrim := s |}.

(** ** The coefficient tables of the class *)

Definition lineUpDistances (a : LineupAngle) : Q :=
  match a with
  | Lineup0 => 0
  | Lineup90 => 20.5
  | Lineup180 => 41
  end.

Definition tRefTable : LerpLookupTable :=
  [(48, (-2000)); (44, 0); (43, 500); (42, 1000); (40, 2000); (36.4, 3000); (35, 3479);
   (16.4, 8348); (13.5, 9200)].

Definition tMaxTable : LerpLookupTable :=
  [(55, (-2000)); (55, 0); (38, 9200)].

Definition runwayPerfLimitConf1 : LerpLookupTable :=
  [(349975, 1000); (384324, 1219); (445246, 1604); (490613, 1959); (512000, 2134);
   (522370, 2239); (542461, 2459); (550886, 2559); (558663, 2709); (562876, 2918);
   (576810, 3000); (587828, 3180); (659119, 3800); (699949, 5000)].

Definition runwayPerfLimitConf2 : LerpLookupTable :=
  [(353215, 1000); (392101, 1219); (460152, 1604); (508111, 1959); (526906, 2134);
   (537276, 2239); (554127, 2459); (565792, 2709); (570329, 2879); (571107, 2987);
   (619585, 3600); (629954, 3800); (634491, 3900); (686987, 5000)].

Definition runwayPerfLimitConf3 : LerpLookupTable :=
  [(344142, 1000); (390157, 1219); (470522, 1604); (517833, 1959); (539220, 2134);
   (541165, 2239); (551534, 2459); (569033, 2709); (575514, 2839); (594309, 3180);
   (632547, 3800); (680506, 5000)].

Definition runwaySlopeFactor (c : Conf) : Q :=
  match c with
  | Conf1 => 0.00084
  | Conf2 => 0.00096
  | Conf3 => 0.0011
  end.

Definition runwayPressureAltFactor (c : Conf) : Q * Q :=
  match c with
  | Conf1 => (3.43e-8, 0.001192)
  | Conf2 => (1.15e-8, 0.001216)
  | Conf3 => ((-4.6e-9), 0.001245)
  end.

Definition runwayTemperatureFactor (c : Conf) : Q * Q * Q * Q * Q * Q :=
  match c with
  | Conf1 => (0.00001, 0.095175, 0.000207, 0.040242, 0.00024, 0.066189)
  | Conf2 => ((-0.00001), 0.131948, 0.000155, 0.162938, 0.000225, 0.150363)
  | Conf3 => ((-0.0000438), 0.198845, 0.000188, 0.14547, 0.0002, 0.232529)
  end.

Definition runwayHeadWindFactor (c : Conf) : Q * Q * Q * Q :=
  match c with
  | Conf1 => (0.000029, (-0.233075), 0.00242, 0.003772)
  | Conf2 => (0.000051, (-0.277863), 0.0018, 0.003366)
  | Conf3 => (0.000115, (-0.3951), 0.002357, 0.002125)
  end.

Definition runwayTailWindFactor (c : Conf) : Q * Q * Q * Q :=
  match c with
  | Conf1 => (0.000065, (-0.684701), 0.00498, 0.0808)
  | Conf2 => (0.000198, (-1.017), 0.00711, 0.009)
  | Conf3 => (0.000271, (-1.11506), 0.0078, 0.00875)
  end.

Definition secondSegmentBaseFactor (c : Conf) : Q * Q :=
  match c with
  | Conf1 => (0.00391, 75.366)
  | Conf2 => (0.005465, 72.227)
  | Conf3 => (0.00495, 72.256)
  end.

Definition secondSegmentSlopeFactor (c : Conf) : Q :=
  match c with
  | Conf1 => 0.000419
  | Conf2 => 0.000641
  | Conf3 => 0.000459
  end.

Definition secondSegmentPressureAltFactor (c : Conf) : Q * Q :=
  match c with
  | Conf1 => ((-6.5e-8), 0.001769)
  | Conf2 => (1.05e-7, 0.00055)
  | Conf3 => (7.48e-8, 0.000506)
  end.

Definition secondSegmentTemperatureFactor (c : Conf) : Q * Q * Q * Q * Q * Q :=
  match c with
  | Conf1 => (0.000025, 0.001, 0.000155, 0.211445, 0.000071, 0.556741)
  | Conf2 => (0.0000121, 0.042153, 0.0001256, 0.325925, 0.000082, 0.546259)
  | Conf3 => ((-0.0000294), 0.13903, 0.0000693, 0.480536, 0.000133, 0.480536)
  end.

Definition secondSegmentHeadWindFactor (c : Conf) : Q * Q * Q * Q :=
  match c with
  | Conf1 => (0.000019, (-0.13052), 0.000813636, 0.000145238)
  | Conf2 => (0.0000454, (-0.20585), 0.000416667, 0.001778293)
  | Conf3 => (0.000085, (-0.30209), 0.001189394, 0.0038996)
  end.

Definition secondSegmentTailWindFactor (c : Conf) : Q * Q * Q * Q :=
  match c with
  | Conf1 => (0.000104, (-0.705693), 0.009, 0.00648)
  | Conf2 => (0.000154, (-0.8052), 0.009, 0.002444)
  | Conf3 => (0.000054, (-0.462), 0.00875, 0.006606505)
  end.

Definition brakeEnergyBaseFactor (c : Conf) : Q * Q :=
  match c with
  | Conf1 => (0.00503, 72.524)
  | Conf2 => (0.00672, 68.28)
  | Conf3 => (0.00128, 83.951)
  end.

Definition brakeEnergySlopeFactor (c : Conf) : Q :=
  match c with
  | Conf1 => 0.000045
  | Conf2 => 0.000068
  | Conf3 => 0.000045
  end.

Definition brakeEnergyPressureAltFactor (c : Conf) : Q * Q :=
  match c with
  | Conf1 => (5.5e-8, 0.000968)
  | Conf2 => (1.17e-7, 0.000595)
  | Conf3 => (4.65e-8, 0.000658)
  end.

Definition brakeEnergyTemperatureFactor (c : Conf) : Q * Q :=
  match c with
  | Conf1 => (0.06, 0.54)
  | Conf2 => (0.058, 0.545)
  | Conf3 => (0.04642, 0.6)
  end.

Definition brakeEnergyHeadWindFactor (c : Conf) : Q * Q * Q * Q :=
  match c with
  | Conf1 => (0.0000311, (-0.1769), 0.001125, 0)
  | Conf2 => (0.0000316, (-0.1799), 0.001182, 0)
  | Conf3 => (0.0000147, (-0.0928), 0.001111, 0)
  end.

Definition brakeEnergyTailWindFactor (c : Conf) : Q * Q * Q * Q :=
  match c with
  | Conf1 => (0.000117, (-0.8024), 0.0117879, 0.006667)
  | Conf2 => (0.000157, (-0.849), 0.0066818, 0.006667)
  | Conf3 => (0.00013, (-0.6946), 0.0068333, 0.006667)
  end.

Definition vmcgBaseFactor (c : Conf) : Q * Q :=
  match c with
  | Conf1 => (0.0644, (-19.526))
  | Conf2 => (0.082005, (-39.27))
  | Conf3 => (0.0704, (-25.6868))
  end.

Definition vmcgSlopeFactor (c : Conf) : Q :=
  match c with
  | Conf1 => 0.00084
  | Conf2 => 0.001054
  | Conf3 => 0.001068
  end.

Definition vmcgPressureAltFactor (c : Conf) : Q * Q :=
  match c with
  | Conf1 => ((-8.35e-7), 0.00589)
  | Conf2 => ((-7.58e-7), 0.00703)
  | Conf3 => (1.95e-7, 0.00266)
  end.

Definition vmcgTemperatureFactor (c : Conf) : Q * Q * Q * Q * Q * Q :=
  match c with
  | Conf1 => ((-0.00133), 2.104, 0.000699, (-0.128144), (-0.000718), 1.8103)
  | Conf2 => ((-0.00097), 1.613, 0.000242, 0.462005, (-0.000547), 1.603)
  | Conf3 => ((-0.000923), 1.6087, 0.00061, 0.002239, (-0.000335), 1.2716)
  end.

Definition vmcgHeadWindFactor (c : Conf) : Q * Q * Q * Q * Q * Q * Q * Q :=
  match c with
  | Conf1 => (0.001198, (-1.80539), 0.000097, (-0.15121), (-0.000255), 0.337391, 0.000066, (-0.079718))
  | Conf2 => (0.000697, (-1.17473), 0.000031, (-0.057504), (-0.000184), 0.246185, 0.000012, 0.0216)
  | Conf3 => (0.0023, (-3.468), (-0.000037), 0.033946, (-0.000156), 0.213953, (-0.000757), 1.094)
  end.

Definition vmcgTailWindFactor (c : Conf) : Q * Q * Q * Q * Q * Q :=
  match c with
  | Conf1 => (0.00218, (-5.489), (-0.000106), 0.145473, 0.031431, (-0.0356))
  | Conf2 => (0.001892, (-5.646), (-0.000059), 0.079539, 0.009948, (-0.010763))
  | Conf3 => (0.000613, (-3.165), (-0.000022), 0.020622, 0.049286, (-0.0396))
  end.

Definition takeoffCgLimits : LerpVectorLookupTable :=
  [([15; 32.5], 262481); ([15; 37], 324051);
   ([15; (MathUtils.lerp 343494 324051 435524 37 40 false false)], 343494);
   ([17; (MathUtils.lerp 408304 324051 435524 37 40 false false)], 408304); ([17; 40], 435524);
   ([17; 40], 466633); ([(MathUtils.lerp 474410 466633 499038 17 24 false false); 40], 474410);
   ([24; 37.2], 499038)].

Definition cgFactors (c : Conf) : Q * Q :=
  match c with
  | Conf1 => ((-0.041448), 3.357)
  | Conf2 => ((-0.03277), 2.686)
  | Conf3 => ((-0.0249), 2.086)
  end.

Definition minimumV1Vmc : LerpLookupTable :=
  [(122, (-2000)); (121, 0); (121, 2000); (120, 3000); (120, 4000); (118, 6000); (116, 8000);
   (115, 9200); (107, 14000); (106, 15000)].

Definition minimumVrVmc : LerpLookupTable :=
  [(123, (-2000)); (122, 0); (122, 3000); (121, 4000); (120, 6000); (117, 8000); (116, 9200);
   (107, 14000); (106, 15000)].

Definition minimumV2Vmc (c : Conf) : LerpLookupTable :=
  match c with
  | Conf1 =>
      [(127, (-2000)); (126, 0); (126, 1000); (125, 2000); (125, 3000); (124, 4000); (123, 6000);
       (120, 8000); (118, 9200); (109, 14000); (107, 15000)]
  | Conf2 =>
      [(127, (-2000)); (126, 0); (126, 1000); (125, 2000); (125, 3000); (124, 4000); (123, 6000);
       (120, 8000); (118, 9200); (109, 14000); (107, 15000)]
  | Conf3 =>
      [(126, (-2000)); (125, 0); (125, 1000); (124, 2000); (124, 3000); (123, 4000); (122, 6000);
       (119, 8000); (117, 9200); (108, 14000); (106, 15000)]
  end.

Definition minimumV2Vmu (c : Conf) : LerpLookupTable2 :=
  match c with
  | Conf1 =>
      [(127, (-2000), 291646); (127, (-2000), 324051); (127, (-2000), 356456);
       (132, (-2000), 388861); (137, (-2000), 421266); (142, (-2000), 453671);
       (146, (-2000), 486076); (151, (-2000), 518481); (126, (-1000), 291646);
       (126, (-1000), 324051); (127, (-1000), 356456); (132, (-1000), 388861);
       (137, (-1000), 421266); (142, (-1000), 453671); (147, (-1000), 486076);
       (151, (-1000), 518481); (126, 0, 291646); (126, 0, 324051); (127, 0, 356456);
       (132, 0, 388861); (137, 0, 421266); (142, 0, 453671); (147, 0, 486076); (151, 0, 518481);
       (126, 1000, 291646); (126, 1000, 324051); (127, 1000, 356456); (132, 1000, 388861);
       (137, 1000, 421266); (142, 1000, 453671); (147, 1000, 486076); (151, 1000, 518481);
       (125, 2000, 291646); (125, 2000, 324051); (127, 2000, 356456); (132, 2000, 388861);
       (137, 2000, 421266); (142, 2000, 453671); (147, 2000, 486076); (151, 2000, 518481);
       (125, 3000, 291646); (125, 3000, 324051); (127, 3000, 356456); (132, 3000, 388861);
       (137, 3000, 421266); (142, 3000, 453671); (147, 3000, 486076); (151, 3000, 518481);
       (124, 4000, 291646); (124, 4000, 324051); (127, 4000, 356456); (132, 4000, 388861);
       (137, 4000, 421266); (142, 4000, 453671); (147, 4000, 486076); (152, 4000, 518481);
       (124, 5000, 291646); (124, 5000, 324051); (127, 5000, 356456); (132, 5000, 388861);
       (137, 5000, 421266); (142, 5000, 453671); (147, 5000, 486076); (152, 5000, 518481);
       (123, 6000, 291646); (123, 6000, 324051); (127, 6000, 356456); (132, 6000, 388861);
       (137, 6000, 421266); (142, 6000, 453671); (147, 6000, 486076); (152, 6000, 518481);
       (122, 7000, 291646); (122, 7000, 324051); (127, 7000, 356456); (132, 7000, 388861);
       (137, 7000, 421266); (142, 7000, 453671); (147, 7000, 486076); (152, 7000, 518481);
       (120, 8000, 291646); (121, 8000, 324051); (127, 8000, 356456); (132, 8000, 388861);
       (137, 8000, 421266); (143, 8000, 453671); (148, 8000, 486076); (152, 8000, 518481);
       (119, 9000, 291646); (121, 9000, 324051); (127, 9000, 356456); (132, 9000, 388861);
       (137, 9000, 421266); (143, 9000, 453671); (148, 9000, 486076); (153, 9000, 518481);
       (117, 10000, 291646); (121, 10000, 324051); (127, 10000, 356456); (132, 10000, 388861);
       (137, 10000, 421266); (143, 10000, 453671); (148, 10000, 486076); (153, 10000, 518481);
       (115, 11000, 291646); (121, 11000, 324051); (127, 11000, 356456); (132, 11000, 388861);
       (138, 11000, 421266); (143, 11000, 453671); (149, 11000, 486076); (154, 11000, 518481);
       (115, 12000, 291646); (121, 12000, 324051); (127, 12000, 356456); (132, 12000, 388861);
       (138, 12000, 421266); (143, 12000, 453671); (149, 12000, 486076); (154, 12000, 518481);
       (115, 13000, 291646); (121, 13000, 324051); (127, 13000, 356456); (132, 13000, 388861);
       (138, 13000, 421266); (144, 13000, 453671); (149, 13000, 486076); (154, 13000, 518481);
       (115, 14100, 291646); (121, 14100, 324051); (127, 14100, 356456); (132, 14100, 388861);
       (138, 14100, 421266); (144, 14100, 453671); (150, 14100, 486076); (155, 14100, 518481);
       (115, 15100, 291646); (121, 15100, 324051); (127, 15100, 356456); (133, 15100, 388861);
       (139, 15100, 421266); (144, 15100, 453671); (150, 15100, 486076); (155, 15100, 518481)]
  | Conf2 =>
      [(127, (-2000), 291646); (127, (-2000), 324051); (127, (-2000), 356456);
       (127, (-2000), 388861); (132, (-2000), 421266); (136, (-2000), 453671);
       (141, (-2000), 486076); (145, (-2000), 518481); (126, (-1000), 291646);
       (126, (-1000), 324051); (126, (-1000), 356456); (127, (-1000), 388861);
       (132, (-1000), 421266); (136, (-1000), 453671); (141, (-1000), 486076);
       (145, (-1000), 518481); (126, 0, 291646); (126, 0, 324051); (126, 0, 356456);
       (127, 0, 388861); (132, 0, 421266); (137, 0, 453671); (141, 0, 486076); (146, 0, 518481);
       (126, 1000, 291646); (126, 1000, 324051); (126, 1000, 356456); (127, 1000, 388861);
       (132, 1000, 421266); (137, 1000, 453671); (141, 1000, 486076); (146, 1000, 518481);
       (125, 2000, 291646); (125, 2000, 324051); (125, 2000, 356456); (127, 2000, 388861);
       (132, 2000, 421266); (137, 2000, 453671); (141, 2000, 486076); (146, 2000, 518481);
       (125, 3000, 291646); (125, 3000, 324051); (125, 3000, 356456); (127, 3000, 388861);
       (132, 3000, 421266); (137, 3000, 453671); (142, 3000, 486076); (146, 3000, 518481);
       (124, 4000, 291646); (124, 4000, 324051); (124, 4000, 356456); (127, 4000, 388861);
       (132, 4000, 421266); (137, 4000, 453671); (142, 4000, 486076); (146, 4000, 518481);
       (124, 5000, 291646); (124, 5000, 324051); (124, 5000, 356456); (127, 5000, 388861);
       (132, 5000, 421266); (137, 5000, 453671); (142, 5000, 486076); (146, 5000, 518481);
       (123, 6000, 291646); (123, 6000, 324051); (123, 6000, 356456); (127, 6000, 388861);
       (132, 6000, 421266); (137, 6000, 453671); (142, 6000, 486076); (146, 6000, 518481);
       (122, 7000, 291646); (122, 7000, 324051); (122, 7000, 356456); (127, 7000, 388861);
       (132, 7000, 421266); (137, 7000, 453671); (142, 7000, 486076); (146, 7000, 518481);
       (120, 8000, 291646); (120, 8000, 324051); (122, 8000, 356456); (127, 8000, 388861);
       (132, 8000, 421266); (137, 8000, 453671); (142, 8000, 486076); (146, 8000, 518481);
       (119, 9000, 291646); (119, 9000, 324051); (122, 9000, 356456); (127, 9000, 388861);
       (132, 9000, 421266); (137, 9000, 453671); (142, 9000, 486076); (147, 9000, 518481);
       (117, 10000, 291646); (117, 10000, 324051); (122, 10000, 356456); (127, 10000, 388861);
       (132, 10000, 421266); (137, 10000, 453671); (142, 10000, 486076); (147, 10000, 518481);
       (115, 11000, 291646); (117, 11000, 324051); (122, 11000, 356456); (127, 11000, 388861);
       (132, 11000, 421266); (137, 11000, 453671); (142, 11000, 486076); (147, 11000, 518481);
       (113, 12000, 291646); (117, 12000, 324051); (122, 12000, 356456); (127, 12000, 388861);
       (132, 12000, 421266); (138, 12000, 453671); (143, 12000, 486076); (147, 12000, 518481);
       (111, 13000, 291646); (116, 13000, 324051); (122, 13000, 356456); (127, 13000, 388861);
       (133, 13000, 421266); (138, 13000, 453671); (143, 13000, 486076); (148, 13000, 518481);
       (111, 14100, 291646); (116, 14100, 324051); (122, 14100, 356456); (127, 14100, 388861);
       (133, 14100, 421266); (138, 14100, 453671); (143, 14100, 486076); (148, 14100, 518481);
       (111, 15100, 291646); (116, 15100, 324051); (122, 15100, 356456); (127, 15100, 388861);
       (133, 15100, 421266); (138, 15100, 453671); (143, 15100, 486076); (148, 15100, 518481)]
  | Conf3 =>
      [(126, (-2000), 291646); (126, (-2000), 324051); (126, (-2000), 356456);
       (126, (-2000), 388861); (128, (-2000), 421266); (132, (-2000), 453671);
       (137, (-2000), 486076); (141, (-2000), 518481); (125, (-1000), 291646);
       (125, (-1000), 324051); (125, (-1000), 356456); (125, (-1000), 388861);
       (128, (-1000), 421266); (132, (-1000), 453671); (137, (-1000), 486076);
       (141, (-1000), 518481); (125, 0, 291646); (125, 0, 324051); (125, 0, 356456);
       (125, 0, 388861); (128, 0, 421266); (132, 0, 453671); (137, 0, 486076); (141, 0, 518481);
       (125, 1000, 291646); (125, 1000, 324051); (125, 1000, 356456); (125, 1000, 388861);
       (128, 1000, 421266); (132, 1000, 453671); (137, 1000, 486076); (141, 1000, 518481);
       (124, 2000, 291646); (124, 2000, 324051); (124, 2000, 356456); (124, 2000, 388861);
       (128, 2000, 421266); (132, 2000, 453671); (137, 2000, 486076); (141, 2000, 518481);
       (124, 3000, 291646); (124, 3000, 324051); (124, 3000, 356456); (124, 3000, 388861);
       (128, 3000, 421266); (133, 3000, 453671); (137, 3000, 486076); (141, 3000, 518481);
       (123, 4000, 291646); (123, 4000, 324051); (123, 4000, 356456); (123, 4000, 388861);
       (128, 4000, 421266); (133, 4000, 453671); (137, 4000, 486076); (141, 4000, 518481);
       (123, 5000, 291646); (123, 5000, 324051); (123, 5000, 356456); (123, 5000, 388861);
       (128, 5000, 421266); (133, 5000, 453671); (137, 5000, 486076); (142, 5000, 518481);
       (122, 6000, 291646); (122, 6000, 324051); (122, 6000, 356456); (123, 6000, 388861);
       (128, 6000, 421266); (133, 6000, 453671); (137, 6000, 486076); (142, 6000, 518481);
       (121, 7000, 291646); (121, 7000, 324051); (121, 7000, 356456); (123, 7000, 388861);
       (128, 7000, 421266); (133, 7000, 453671); (138, 7000, 486076); (142, 7000, 518481);
       (119, 8000, 291646); (119, 8000, 324051); (119, 8000, 356456); (123, 8000, 388861);
       (128, 8000, 421266); (133, 8000, 453671); (138, 8000, 486076); (142, 8000, 518481);
       (118, 9000, 291646); (118, 9000, 324051); (118, 9000, 356456); (123, 9000, 388861);
       (128, 9000, 421266); (133, 9000, 453671); (138, 9000, 486076); (142, 9000, 518481);
       (116, 10000, 291646); (116, 10000, 324051); (118, 10000, 356456); (123, 10000, 388861);
       (128, 10000, 421266); (133, 10000, 453671); (138, 10000, 486076); (142, 10000, 518481);
       (114, 11000, 291646); (114, 11000, 324051); (118, 11000, 356456); (123, 11000, 6000);
       (128, 11000, 421266); (133, 11000, 453671); (138, 11000, 486076); (142, 11000, 518481);
       (112, 12000, 291646); (113, 12000, 324051); (118, 12000, 356456); (123, 12000, 388861);
       (128, 12000, 421266); (133, 12000, 453671); (138, 12000, 486076); (143, 12000, 518481);
       (110, 13000, 291646); (113, 13000, 324051); (118, 13000, 356456); (123, 13000, 388861);
       (128, 13000, 421266); (133, 13000, 453671); (138, 13000, 486076); (143, 13000, 518481);
       (108, 14100, 291646); (113, 14100, 324051); (118, 14100, 356456); (123, 14100, 388861);
       (128, 14100, 421266); (134, 14100, 453671); (139, 14100, 486076); (143, 14100, 518481);
       (107, 15100, 291646); (113, 15100, 324051); (118, 15100, 356456); (123, 15100, 388861);
       (129, 15100, 421266); (134, 15100, 453671); (139, 15100, 486076); (143, 15100, 518481)]
  end.

Definition v2RunwayVmcgBaseFactors (c : Conf) : Q * Q :=
  match c with
  | Conf1 => (0.920413, 77.3469)
  | Conf2 => (0.87805, 75.1346)
  | Conf3 => (0.96131, 65.525)
  end.

Definition v2RunwayVmcgAltFactors (c : Conf) : Q * Q :=
  match c with
  | Conf1 => (0.00002333, (-0.00144))
  | Conf2 => (0.00001713, (-0.001057))
  | Conf3 => (0.00001081, (-0.0006236))
  end.

Definition vRRunwayVmcgBaseFactors (c : Conf) : Q * Q :=
  match c with
  | Conf1 => (0.83076, 81.086)
  | Conf2 => (0.728085, 84.111)
  | Conf3 => (0.742761, 78.721)
  end.

Definition vRRunwayVmcgRunwayFactors (c : Conf) : Q * Q * Q :=
  match c with
  | Conf1 => (2280, 0.0001718, (-0.01585))
  | Conf2 => (2280, 0.0003239, (-0.027272))
  | Conf3 => (1900, 0.00057992, (-0.045646))
  end.

Definition vRRunwayVmcgAltFactors (c : Conf) : Q * Q :=
  match c with
  | Conf1 => (0.000029048, (-0.001958))
  | Conf2 => (0.000035557, (-0.0025644))
  | Conf3 => (1.02964e-5, (-0.000545643))
  end.

Definition vRRunwayVmcgSlopeFactors (c : Conf) : Q :=
  match c with
  | Conf1 => 0.000887
  | Conf2 => 0.000887
  | Conf3 => 0.000887
  end.

Definition vRRunwayVmcgHeadwindFactors (c : Conf) : Q * Q :=
  match c with
  | Conf1 => (0, 0)
  | Conf2 => ((-0.027617), 2.1252)
  | Conf3 => (0.003355, (-0.263036))
  end.

Definition vRRunwayVmcgTailwindFactors (c : Conf) : Q * Q :=
  match c with
  | Conf1 => ((-0.008052), 0.6599)
  | Conf2 => ((-0.010709), 0.90273)
  | Conf3 => ((-0.027796), 2.107178)
  end.

Definition v1RunwayVmcgBaseFactors (c : Conf) : Q * Q :=
  match c with
  | Conf1 => (0.4259042, 106.763)
  | Conf2 => (0.398826, 106.337)
  | Conf3 => (0.469648, 95.776)
  end.

Definition v1RunwayVmcgRunwayFactors (c : Conf) : Q * Q * Q :=
  match c with
  | Conf1 => (2280, 0.0003156, (-0.03189))
  | Conf2 => (2280, 0.0004396, (-0.041238))
  | Conf3 => (1900, 0.00144, (-0.112592))
  end.

Definition v1RunwayVmcgAltFactors (c : Conf) : Q * Q :=
  match c with
  | Conf1 => (0.00003416, (-0.0028035))
  | Conf2 => (0.00004354, (-0.0035876))
  | Conf3 => (0.0000847, (-0.006666))
  end.

Definition v1RunwayVmcgSlopeFactors (c : Conf) : Q :=
  match c with
  | Conf1 => 0.000887
  | Conf2 => 0.000887
  | Conf3 => 0.000887
  end.

Definition v1RunwayVmcgHeadwindFactors (c : Conf) : Q * Q :=
  match c with
  | Conf1 => (0.00526, (-0.2105))
  | Conf2 => (0.00974, (-0.53))
  | Conf3 => (0.002333, (-0.079528))
  end.

Definition v1RunwayVmcgTailwindFactors (c : Conf) : Q * Q :=
  match c with
  | Conf1 => ((-0.009243), 1.108)
  | Conf2 => ((-0.008207), 1.07)
  | Conf3 => ((-0.043516), 3.423)
  end.

Definition v2SecondSegBrakeThresholds (c : Conf) : Q * Q :=
  match c with
  | Conf1 => ((-0.009368), 186.79)
  | Conf2 => (0.02346, 68.33)
  | Conf3 => (0.022112, 83.141)
  end.

Definition v2SecondSegBrakeBaseTable1 (c : Conf) : Q * Q :=
  match c with
  | Conf1 => (0.72637, 101.077)
  | Conf2 => (0.74005, 97.073)
  | Conf3 => (0.3746, 130.078)
  end.

Definition v2SecondSegBrakeBaseTable2 (c : Conf) : Q * Q :=
  match c with
  | Conf1 => (0.63964, 102.127)
  | Conf2 => (0.692636, 92.9863)
  | Conf3 => (0.859926, 82.4377)
  end.

Definition v2SecondSegBrakeRunwayTable1 (c : Conf) : Q * Q :=
  match c with
  | Conf1 => (3180, (-0.015997))
  | Conf2 => (3180, (-0.014862))
  | Conf3 => (3180, (-0.019296))
  end.

Definition v2SecondSegBrakeRunwayTable2 (c : Conf) : Q * Q :=
  match c with
  | Conf1 => (3180, (-0.003612))
  | Conf2 => (3180, (-0.007))
  | Conf3 => (3180, (-0.013))
  end.

Definition v2SecondSegBrakeAltFactors (c : Conf) : Q * Q * Q * Q :=
  match c with
  | Conf1 => ((-0.00000924), (-0.00075879), 0.000546, (-1.075))
  | Conf2 => ((-0.00000387), (-0.0009333), 0.000546, (-1.075))
  | Conf3 => (0.000034, (-0.004043), 0.000468, (-0.778471))
  end.

Definition v2SecondSegBrakeSlopeFactors (c : Conf) : Q * Q :=
  match c with
  | Conf1 => (0.0000571, (-0.008306))
  | Conf2 => (0.0000286, (-0.00415))
  | Conf3 => (0.000001, (-0.000556))
  end.

Definition v2SecondSegBrakeHeadwindFactors (c : Conf) : Q :=
  match c with
  | Conf1 => 0.2
  | Conf2 => 0.2
  | Conf3 => 0.2
  end.

Definition v2SecondSegBrakeTailwindFactors (c : Conf) : Q :=
  match c with
  | Conf1 => 0.65
  | Conf2 => 0.5
  | Conf3 => 0.7
  end.

Definition vRSecondSegBrakeBaseTable1 (c : Conf) : Q * Q :=
  match c with
  | Conf1 => (0.701509, 102.667)
  | Conf2 => (0.696402, 100.226)
  | Conf3 => (0.381534, 129.61)
  end.

Definition vRSecondSegBrakeBaseTable2 (c : Conf) : Q * Q :=
  match c with
  | Conf1 => (0.573107, 105.783)
  | Conf2 => (0.932193, 115.336)
  | Conf3 => (0.572407, 105.428)
  end.

Definition vRSecondSegBrakeRunwayTable1 (c : Conf) : Q * Q * Q :=
  match c with
  | Conf1 => (3180, (-0.000181), (-0.005195))
  | Conf2 => (3180, (-0.000225), (-0.000596))
  | Conf3 => (3180, 0.000054, (-0.024442))
  end.

Definition vRSecondSegBrakeRunwayTable2 (c : Conf) : Q * Q * Q :=
  match c with
  | Conf1 => (3180, 0.004582, (-0.395175))
  | Conf2 => (3180, 0.000351, (-0.03216))
  | Conf3 => (3180, (-0.000263), 0.014135)
  end.

Definition vRSecondSegBrakeAltTable1 (c : Conf) : Q * Q * Q * Q :=
  match c with
  | Conf1 => ((-0.000034), 0.001018, 0.000154, 0.415385)
  | Conf2 => ((-0.00001), (-0.000253), 0.000328, (-0.24493))
  | Conf3 => (0.000017, (-0.003017), 0.000398, (-0.5117))
  end.

Definition vRSecondSegBrakeAltTable2 (c : Conf) : Q * Q * Q * Q :=
  match c with
  | Conf1 => (0.000574, (-0.047508), 0.000154, 0.415385)
  | Conf2 => (0.000253, (-0.019907), 0.000328, (-0.24493))
  | Conf3 => (0.000247, (-0.019502), 0.000398, (-0.5117))
  end.

Definition vRSecondSegBrakeSlopeFactors (c : Conf) : Q * Q :=
  match c with
  | Conf1 => (0.000293, (-0.023877))
  | Conf2 => (0.000309, (-0.025884))
  | Conf3 => (0.000049, (-0.005035))
  end.

Definition vRSecondSegBrakeHeadwindFactors (c : Conf) : Q * Q :=
  match c with
  | Conf1 => (0.00668, (-0.30215))
  | Conf2 => (0.015247, (-0.946949))
  | Conf3 => (0.028496, (-1.808403))
  end.

Definition vRSecondSegBrakeTailwindFactors (c : Conf) : Q * Q :=
  match c with
  | Conf1 => (0.014683, (-0.347428))
  | Conf2 => (0.019024, (-0.725293))
  | Conf3 => ((-0.002393), 0.994507)
  end.

Definition v1SecondSegBrakeBaseTable1 (c : Conf) : Q * Q :=
  match c with
  | Conf1 => (0.580888, 111.076)
  | Conf2 => (0.663598, 102.54)
  | Conf3 => (0.112254, 147.272)
  end.

Definition v1SecondSegBrakeBaseTable2 (c : Conf) : Q * Q :=
  match c with
  | Conf1 => (0.460256, 104.849)
  | Conf2 => (0.583566, 84.342)
  | Conf3 => (0.527615, 95.085)
  end.

Definition v1SecondSegBrakeRunwayTable1 (c : Conf) : Q * Q * Q :=
  match c with
  | Conf1 => (3180, (-0.000218), (-0.003633))
  | Conf2 => (3180, (-0.000473), 0.015987)
  | Conf3 => (3180, 0.000017, (-0.022792))
  end.

Definition v1SecondSegBrakeRunwayTable2 (c : Conf) : Q * Q * Q :=
  match c with
  | Conf1 => (3180, 0.005044, (-0.418865))
  | Conf2 => (3180, 0.00052, (-0.024703))
  | Conf3 => (3180, 0.000688, (-0.048497))
  end.

Definition v1SecondSegBrakeAltTable1 (c : Conf) : Q * Q * Q * Q :=
  match c with
  | Conf1 => ((-0.000084), 0.00393, 0.000231, 0.123077)
  | Conf2 => ((-0.0000086), (-0.000333), 0.000172, 0.347893)
  | Conf3 => (0.000159, (-0.012122), 0.000382, (-0.452242))
  end.

Definition v1SecondSegBrakeAltTable2 (c : Conf) : Q * Q * Q * Q :=
  match c with
  | Conf1 => (0.000957, (-0.077197), 0.000231, 0.123077)
  | Conf2 => (0.000354, (-0.025738), 0.000172, 0.347893)
  | Conf3 => (0.000927, (-0.072365), 0.000382, (-0.452242))
  end.

Definition v1SecondSegBrakeSlopeFactors (c : Conf) : Q * Q :=
  match c with
  | Conf1 => (0.00003, (-0.001069))
  | Conf2 => (0.00003, (-0.001069))
  | Conf3 => (0.0000431, (-0.003239))
  end.

Definition v1SecondSegBrakeHeadwindFactors (c : Conf) : Q * Q :=
  match c with
  | Conf1 => (0.019515, (-1.23885))
  | Conf2 => (0.019515, (-1.23886))
  | Conf3 => (0.065846, (-4.365037))
  end.

Definition v1SecondSegBrakeTailwindFactors (c : Conf) : Q * Q :=
  match c with
  | Conf1 => (0.032069, (-1.44))
  | Conf2 => (0.030147, (-1.4286))
  | Conf3 => ((-0.001744), 1.0938)
  end.

Definition tvmcgFactors (c : Conf) : LerpVectorLookupTable :=
  match c with
  | Conf1 => [([0.06485; (-99.47)], (-15)); ([0.9895; (-116.54)], 0); ([0.13858; (-171.15)], 10)]
  | Conf2 => [([0.06573; (-102.97)], (-15)); ([0.10579; (-132.96)], 0); ([0.06575; (-64.4)], 10)]
  | Conf3 => [([0.07002; (-106.62)], (-15)); ([0.08804; (-108.42)], 0); ([0.07728; (-82.08)], 10)]
  end.

Definition wetTowAdjustmentFactorsAtOrBelowTvmcg (c : Conf) : LerpVectorLookupTable :=
  match c with
  | Conf1 =>
      [(VecNMath.create 0.05498 [(-126.98); 0.00903; (-28.35)], (-15));
       (VecNMath.create 0.02391 [(-48.94); 0.00043; (-1.64)], 0);
       (VecNMath.create 0.01044 [(-21.53); 0.00022; (-1.12)], 10)]
  | Conf2 =>
      [(VecNMath.create 0.03856 [(-94.674); 0.00965; (-30.09)], (-15));
       (VecNMath.create 0.02686 [(-48.63); (-0.00011); (-0.08)], 0);
       (VecNMath.create 0.00057 [(-2.94); (-0.00004); (-0.13)], 10)]
  | Conf3 =>
      [(VecNMath.create 0.01924 [(-57.58); 0; 0], (-15));
       (VecNMath.create 0.02184 [(-44.91); (-0.00019); 0.1], 0);
       (VecNMath.create 0.00057 [(-2.94); 0.00047; (-1.6)], 10)]
  end.

Definition wetTowAdjustmentFactorsAboveTvmcg (c : Conf) : LerpVectorLookupTable :=
  match c with
  | Conf1 =>
      [(VecNMath.create 0.0197 [(-61.23); 0; 0], (-15));
       (VecNMath.create 0.01887 [(-48.47); 0; 0], 0); (VecNMath.create 0.045 [(-86.32); 0; 0], 10)]
  | Conf2 =>
      [(VecNMath.create 0.01941 [(-60.02); 0; 0], (-15));
       (VecNMath.create 0.02797 [(-61.99); 0; 0], 0);
       (VecNMath.create 0.03129 [(-63.61); 0; 0], 10)]
  | Conf3 =>
      [(VecNMath.create 0.01978 [(-61.43); 0; 0], (-15));
       (VecNMath.create 0.02765 [(-61.88); 0; 0], 0);
       (VecNMath.create 0.03662 [(-72.45); 0; 0], 10)]
  end.

Definition wetFlexAdjustmentFactorsAtOrBelowTvmcg (c : Conf) : LerpVectorLookupTable :=
  match c with
  | Conf1 =>
      [(VecNMath.create 0.07933 [(-190.57); 0.02074; (-65.05)], (-15));
       (VecNMath.create 0.04331 [(-90.86); 0.00098; (-3.88)], 0);
       (VecNMath.create 0.0233 [(-48.8); 0.00072; (-3.14)], 10)]
  | Conf2 =>
      [(VecNMath.create 0.029 [(-89.9); 0.0099; (-38.42)], (-15));
       (VecNMath.create 0.03845 [(-80.2); (-1); 0], 0);
       (VecNMath.create 0.00167 [(-7.01); 0.000266; (-1.61)], 10)]
  | Conf3 =>
      [(VecNMath.create 0.03993 [(-94.09); 0; 0], (-15));
       (VecNMath.create 0.03845 [(-80.2); (-1); 0], 0);
       (VecNMath.create 0.00835 [(-18.34); (-1); 0], 10)]
  end.

Definition wetFlexAdjustmentFactorsAboveTvmcg (c : Conf) : LerpVectorLookupTable :=
  match c with
  | Conf1 =>
      [(VecNMath.create (-0.03716) [31.85; 0.08618; (-234.92)], (-15));
       (VecNMath.create (-0.05861) [51.01; 0.04322; (-113.39)], 0);
       (VecNMath.create 0.1012 [(-195.48); 0; 0], 10)]
  | Conf2 =>
      [(VecNMath.create (-0.0285) [19.43; 0.06951; (-193.38)], (-15));
       (VecNMath.create (-0.04698) [37.58; 0.06438; (-139.9)], 0);
       (VecNMath.create 0.06159 [(-126.56); 0; 0], 10)]
  | Conf3 =>
      [(VecNMath.create (-0.0024) [4.25; (-0.02118); 46.2], (-15));
       (VecNMath.create (-0.02645) [9.81; 0.06116; (-131.79)], 0);
       (VecNMath.create 0.04841 [(-104.22); 0; 0], 10)]
  end.

Definition wetV1AdjustmentFactorsAtOrBelowTvmcg (c : Conf) : LerpVectorLookupTable :=
  match c with
  | Conf1 =>
      [(VecNMath.create 0.01428 [(-32.58); 0.00048; (-2.03)], (-15));
       (VecNMath.create (-0.00786) [6.81; 0.00234; (-14.23)], 0);
       (VecNMath.create (-0.00246) [(-3.68); 0.00145; (-11.32)], 10)]
  | Conf2 =>
      [(VecNMath.create (-0.01563) [28.93; (-0.00559); 6.36], (-15));
       (VecNMath.create (-0.00474) [6.98; 0.0024; (-13.2)], 0);
       (VecNMath.create 0.00236 [(-11.92); 0; 0], 10)]
  | Conf3 =>
      [(VecNMath.create (-0.01018) [18.83; 0; 0], (-15));
       (VecNMath.create (-0.00931) [10.01; 0.00017; (-8.5)], 0);
       (VecNMath.create (-0.00005) [(-7.98); 0; 0], 10)]
  end.

Definition wetV1AdjustmentFactorsAboveTvmcg (c : Conf) : LerpVectorLookupTable :=
  match c with
  | Conf1 =>
      [(VecNMath.create (-0.00131) [0.91; (-0.02013); 42.56], (-15));
       (VecNMath.create 0.10383 [(-169.42); (-0.00529); 6.73], 0);
       (VecNMath.create (-0.01594) [21.8; 0; 0], 10)]
  | Conf2 =>
      [(VecNMath.create (-0.00789) [15.29; 0; 0], (-15));
       (VecNMath.create (-0.00971) [14; 0; 0], 0); (VecNMath.create (-0.00684) [8.43; 0; 0], 10)]
  | Conf3 =>
      [(VecNMath.create (-0.0024) [4.25; (-0.02118); 46.2], (-15));
       (VecNMath.create (-0.00727) [10.12; 0; 0], 0);
       (VecNMath.create (-0.00671) [8.65; (-0.0333); 50.84], 10)]
  end.

Definition wetVRAdjustmentFactorsAtOrBelowTvmcg (c : Conf) : LerpVectorLookupTable :=
  match c with
  | Conf1 =>
      [(VecNMath.create 0.01428 [(-32.58); 0.00048; (-2.03)], (-15));
       (VecNMath.create 0.00353 [(-7.19); 0.00022; (-0.64)], 0);
       (VecNMath.create 0.0022 [(-4.14); 0.00053; (-1.54)], 10)]
  | Conf2 =>
      [(VecNMath.create 0.00693 [(-16.96); (-0.00559); 6.36], (-15));
       (VecNMath.create 0.00864 [(-17.08); 0; 0], 0); (VecNMath.create 0 [0; 0; 0], 10)]
  | Conf3 =>
      [(VecNMath.create 0.00151 [(-6.16); 0; 0], (-15));
       (VecNMath.create (-0.00557) [(-11.68); (-0.0004); 0.54], 0);
       (VecNMath.create (-0.0001) [(-0.11); 0; 0], 10)]
  end.

Definition wetV2AdjustmentFactorsAtOrBelowTvmcg (c : Conf) : LerpVectorLookupTable :=
  match c with
  | Conf1 =>
      [(VecNMath.create 0.01936 [(-43.79); 0.000483; (-2.03)], (-15));
       (VecNMath.create 0.00353 [(-7.19); 0.00022; (-0.64)], 0);
       (VecNMath.create 0.0022 [(-4.14); 0.00053; (-1.54)], 10)]
  | Conf2 =>
      [(VecNMath.create 0.01198 [(-28.31); 0; 0], (-15));
       (VecNMath.create 0.00864 [(-17.08); 0; 0], 0); (VecNMath.create 0 [0; 0; 0], 10)]
  | Conf3 =>
      [(VecNMath.create 0.00246 [(-8.65); 0; 0], (-15));
       (VecNMath.create 0.00114 [(-3.52); 0; 0], 0);
       (VecNMath.create (-0.0001) [(-0.11); 0; 0], 10)]
  end.

Definition weightCorrectionContaminated6mmWater (c : Conf) : LerpLookupTable :=
  match c with
  | Conf1 => [(97215, 2500); (93327, 3000); (68051, 3500); (6800, 4000)]
  | Conf2 => [(112770, 2000); (112770, 2500); (100456, 3000)]
  | Conf3 => [(121195, 1750); (121195, 2000); (112770, 2500)]
  end.

Definition minCorrectedTowContaminated6mmWater (c : Conf) : Q :=
  match c with
  | Conf1 => 374603
  | Conf2 => 368122
  | Conf3 => 370714
  end.

Definition mtowContaminated6mmWater (c : Conf) : LerpLookupTable :=
  match c with
  | Conf1 => [(308496, 374603); (343494, 382380); (393397, 393397); (512000, 512000)]
  | Conf2 => [(308496, 368122); (382380, 382380); (512000, 512000)]
  | Conf3 => [(308496, 370714); (362937, 382380); (387565, 387565); (512000, 512000)]
  end.

Definition vSpeedsContaminated6mmWater (c : Conf) : LerpVectorLookupTable :=
  match c with
  | Conf1 =>
      [([122; 125; 127], 308496); ([122; 127; 129], 317570); ([122; 133; 135], 349975);
       ([122; 139; 141], 382380); ([122; 141; 143], 393397); ([126; 145; 147], 414785);
       ([132; 151; 153], 447190); ([137; 156; 158], 479595); ([142; 161; 163], 512000)]
  | Conf2 =>
      [([122; 126; 127], 308496); ([122; 128; 129], 317570); ([122; 134; 135], 349975);
       ([122; 141; 142], 382380); ([127; 146; 147], 414785); ([133; 152; 153], 447190);
       ([139; 158; 159], 479595); ([144; 163; 164], 512000)]
  | Conf3 =>
      [([122; 126; 126], 308496); ([122; 128; 128], 317570); ([122; 134; 134], 349975);
       ([122; 140; 140], 382380); ([122; 141; 141], 387565); ([127; 146; 146], 414785);
       ([133; 152; 152], 447190); ([139; 158; 158], 479595); ([144; 163; 163], 512000)]
  end.

Definition weightCorrectionContaminated13mmWater (c : Conf) : LerpLookupTable :=
  match c with
  | Conf1 => [(121195, 2500); (113418, 3000); (88142, 3500); (9700, 4000)]
  | Conf2 => [(136101, 2000); (134805, 2500); (119899, 3000)]
  | Conf3 => [(141934, 1750); (141934, 2000); (132861, 2500)]
  end.

Definition minCorrectedTowContaminated13mmWater (c : Conf) : Q :=
  match c with
  | Conf1 => 345438
  | Conf2 => 345438
  | Conf3 => 366177
  end.

Definition mtowContaminated13mmWater (c : Conf) : LerpLookupTable :=
  match c with
  | Conf1 => [(308496, 345438); (330532, 349975); (355159, 355159); (512000, 512000)]
  | Conf2 => [(308496, 345438); (330532, 349975); (354511, 354511); (512000, 512000)]
  | Conf3 => [(308496, 366177); (382380, 382380); (512000, 512000)]
  end.

Definition vSpeedsContaminated13mmWater (c : Conf) : LerpVectorLookupTable :=
  match c with
  | Conf1 =>
      [([122; 125; 127], 308496); ([122; 127; 129], 317570); ([122; 133; 135], 349975);
       ([122; 134; 136], 355159); ([127; 139; 141], 382380); ([133; 145; 147], 414785);
       ([132; 151; 153], 447190); ([144; 156; 158], 479595); ([149; 161; 163], 512000)]
  | Conf2 =>
      [([122; 126; 127], 308496); ([122; 128; 129], 317570); ([122; 134; 135], 349975);
       ([122; 135; 136], 354511); ([128; 141; 142], 382380); ([133; 146; 147], 414785);
       ([139; 152; 153], 447190); ([145; 158; 159], 479595); ([150; 163; 164], 512000)]
  | Conf3 =>
      [([122; 126; 126], 308496); ([122; 128; 128], 317570); ([122; 134; 134], 349975);
       ([122; 140; 140], 382380); ([128; 146; 146], 414785); ([134; 152; 152], 447190);
       ([140; 158; 158], 479595); ([145; 163; 163], 512000)]
  end.

Definition weightCorrectionContaminated6mmSlush (c : Conf) : LerpLookupTable :=
  match c with
  | Conf1 => [(99808, 2500); (92030, 3000); (67403, 3500); (6600, 4000)]
  | Conf2 => [(116010, 2000); (115362, 2500); (100456, 3000)]
  | Conf3 => [(124435, 1750); (123139, 2000); (111473, 2500)]
  end.

Definition minCorrectedTowContaminated6mmSlush (c : Conf) : Q :=
  match c with
  | Conf1 => 370714
  | Conf2 => 364233
  | Conf3 => 345438
  end.

Definition mtowContaminated6mmSlush (c : Conf) : LerpLookupTable :=
  match c with
  | Conf1 => [(308496, 370714); (362937, 382380); (387565, 387565); (512000, 512000)]
  | Conf2 => [(308496, 364233); (362937, 382380); (512000, 512000)]
  | Conf3 => [(308496, 345438); (330532, 349975); (355159, 355159); (512000, 512000)]
  end.

Definition vSpeedsContaminated6mmSlush (c : Conf) : LerpVectorLookupTable :=
  match c with
  | Conf1 =>
      [([122; 125; 127], 308496); ([122; 127; 129], 317570); ([122; 133; 135], 349975);
       ([127; 139; 141], 382380); ([127; 140; 142], 387565); ([127; 145; 147], 414785);
       ([133; 151; 153], 447190); ([138; 156; 158], 479595); ([143; 161; 163], 512000)]
  | Conf2 =>
      [([122; 126; 127], 308496); ([122; 128; 129], 317570); ([122; 134; 135], 349975);
       ([122; 140; 141], 377843); ([123; 141; 142], 382380); ([128; 146; 147], 414785);
       ([134; 152; 153], 447190); ([140; 158; 159], 479595); ([145; 163; 164], 512000)]
  | Conf3 =>
      [([122; 126; 126], 308496); ([122; 128; 128], 317570); ([122; 134; 134], 349975);
       ([122; 135; 135], 355159); ([127; 140; 140], 382380); ([133; 146; 146], 414785);
       ([139; 152; 152], 447190); ([145; 158; 158], 479595); ([150; 163; 163], 512000)]
  end.

Definition weightCorrectionContaminated13mmSlush (c : Conf) : LerpLookupTable :=
  match c with
  | Conf1 => [(125732, 2500); (115362, 3000); (88790, 3500); (10000, 4000)]
  | Conf2 => [(142582, 2000); (139990, 2500); (121843, 3000)]
  | Conf3 => [(117954, 1750); (146471, 2000); (135453, 2500)]
  end.

Definition minCorrectedTowContaminated13mmSlush (c : Conf) : Q :=
  match c with
  | Conf1 => 340901
  | Conf2 => 337013
  | Conf3 => 337013
  end.

Definition mtowContaminated13mmSlush (c : Conf) : LerpLookupTable :=
  match c with
  | Conf1 => [(308496, 340901); (349975, 349975); (512000, 512000)]
  | Conf2 => [(308496, 337013); (344790, 344790); (512000, 512000)]
  | Conf3 => [(308496, 337013); (344790, 344790); (512000, 512000)]
  end.

Definition vSpeedsContaminated13mmSlush (c : Conf) : LerpVectorLookupTable :=
  match c with
  | Conf1 =>
      [([122; 126; 127], 308496); ([122; 128; 129], 317570); ([122; 134; 135], 349975);
       ([128; 140; 141], 382380); ([134; 146; 147], 414785); ([140; 152; 153], 447190);
       ([145; 157; 158], 479595); ([150; 162; 163], 512000)]
  | Conf2 =>
      [([122; 126; 127], 308496); ([122; 128; 129], 317570); ([122; 133; 134], 344790);
       ([123; 134; 135], 349975); ([130; 141; 142], 382380); ([135; 146; 147], 414785);
       ([141; 152; 153], 447190); ([147; 158; 159], 479595); ([152; 163; 164], 512000)]
  | Conf3 =>
      [([122; 126; 126], 308496); ([122; 128; 128], 317570); ([122; 133; 133], 344790);
       ([123; 134; 134], 349975); ([129; 140; 140], 382380); ([135; 146; 146], 414785);
       ([141; 152; 152], 447190); ([147; 158; 158], 479595); ([152; 163; 163], 512000)]
  end.

Definition weightCorrectionContaminatedCompactedSnow (c : Conf) : LerpLookupTable :=
  match c with
  | Conf1 => [(66106, 2500); (9000, 3000); (4700, 3500); (3000, 4000)]
  | Conf2 => [(86197, 2000); (82309, 2500); (66754, 3000)]
  | Conf3 => [(97863, 1750); (95919, 2000); (82309, 2500)]
  end.

Definition minCorrectedTowContaminatedCompactedSnow (c : Conf) : Q :=
  match c with
  | Conf1 => 370714
  | Conf2 => 364233
  | Conf3 => 366177
  end.

Definition mtowContaminatedCompactedSnow (c : Conf) : LerpLookupTable :=
  match c with
  | Conf1 => [(308496, 370714); (362937, 382380); (387565, 387565); (512000, 512000)]
  | Conf2 => [(308496, 364233); (377843, 377843); (512000, 512000)]
  | Conf3 => [(308496, 366177); (382380, 382380); (512000, 512000)]
  end.

Definition vSpeedsContaminatedCompactedSnow (c : Conf) : LerpVectorLookupTable :=
  match c with
  | Conf1 =>
      [([122; 126; 127], 308496); ([122; 128; 129], 317570); ([122; 134; 135], 349975);
       ([122; 140; 141], 382380); ([122; 141; 142], 387565); ([127; 146; 147], 414785);
       ([133; 152; 153], 447190); ([138; 157; 158], 479595); ([143; 162; 163], 512000)]
  | Conf2 =>
      [([122; 126; 127], 308496); ([122; 128; 129], 317570); ([122; 134; 135], 349975);
       ([122; 140; 141], 377843); ([123; 141; 142], 382380); ([128; 146; 147], 414785);
       ([134; 152; 153], 447190); ([140; 158; 159], 479595); ([145; 163; 164], 512000)]
  | Conf3 =>
      [([122; 126; 126], 308496); ([122; 128; 128], 317570); ([122; 134; 134], 349975);
       ([122; 140; 140], 382380); ([128; 146; 146], 414785); ([134; 152; 152], 447190);
       ([140; 158; 158], 479595); ([145; 163; 163], 512000)]
  end.

Definition weightCorrectionContaminated5mmWetSnow (c : Conf) : LerpLookupTable :=
  match c with
  | Conf1 => [(73884, 2500); (68051, 3000); (6000, 3500); (3000, 4000)]
  | Conf2 => [(97215, 2000); (92030, 2500); (77124, 3000)]
  | Conf3 => [(113418, 1750); (110825, 2000); (92678, 2500)]
  end.

Definition minCorrectedTowContaminated5mmWetSnow (c : Conf) : Q :=
  match c with
  | Conf1 => 366177
  | Conf2 => 372010
  | Conf3 => 374603
  end.

Definition mtowContaminated5mmWetSnow (c : Conf) : LerpLookupTable :=
  match c with
  | Conf1 => [(308496, 366177); (382380, 382380); (512000, 512000)]
  | Conf2 => [(308496, 372010); (362937, 382380); (388861, 388861); (512000, 512000)]
  | Conf3 => [(308496, 374603); (343494, 382380); (393397, 393397); (512000, 512000)]
  end.

Definition vSpeedsContaminated5mmWetSnow (c : Conf) : LerpVectorLookupTable :=
  match c with
  | Conf1 =>
      [([122; 126; 127], 308496); ([122; 128; 129], 317570); ([122; 134; 135], 349975);
       ([122; 140; 141], 382380); ([128; 146; 147], 414785); ([134; 152; 153], 447190);
       ([139; 157; 158], 479595); ([144; 162; 163], 512000)]
  | Conf2 =>
      [([122; 126; 127], 308496); ([122; 128; 129], 317570); ([122; 134; 135], 349975);
       ([122; 141; 142], 382380); ([122; 142; 143], 388861); ([126; 146; 147], 414785);
       ([132; 152; 153], 447190); ([138; 158; 159], 479595); ([143; 163; 164], 512000)]
  | Conf3 =>
      [([122; 126; 126], 308496); ([122; 128; 128], 317570); ([122; 134; 134], 349975);
       ([122; 140; 140], 382380); ([122; 142; 142], 393397); ([126; 146; 146], 414785);
       ([132; 152; 152], 447190); ([138; 158; 158], 479595); ([143; 163; 163], 512000)]
  end.

Definition weightCorrectionContaminated15mmWetSnow (c : Conf) : LerpLookupTable :=
  match c with
  | Conf1 => [(105641, 2500); (96567, 3000); (70643, 3500); (7100, 4000)]
  | Conf2 => [(123139, 2000); (121195, 2500); (104344, 3000)]
  | Conf3 => [(130916, 1750); (129620, 2000); (117306, 2500)]
  end.

Definition minCorrectedTowContaminated15mmWetSnow (c : Conf) : Q :=
  match c with
  | Conf1 => 349327
  | Conf2 => 345438
  | Conf3 => 345438
  end.

Definition mtowContaminated15mmWetSnow (c : Conf) : LerpLookupTable :=
  match c with
  | Conf1 => [(308496, 349327); (311089, 349975); (360992, 360992); (512000, 512000)]
  | Conf2 => [(308496, 345438); (330532, 349975); (354511, 354511); (512000, 512000)]
  | Conf3 => [(308496, 345438); (330532, 349975); (355159, 355159); (512000, 512000)]
  end.

Definition vSpeedsContaminated15mmWetSnow (c : Conf) : LerpVectorLookupTable :=
  match c with
  | Conf1 =>
      [([122; 126; 127], 308496); ([122; 128; 129], 317570); ([122; 134; 135], 349975);
       ([122; 136; 137], 360992); ([126; 140; 141], 382380); ([132; 146; 147], 414785);
       ([138; 152; 153], 447190); ([143; 157; 158], 479595); ([148; 162; 163], 512000)]
  | Conf2 =>
      [([122; 126; 127], 308496); ([122; 128; 129], 317570); ([122; 134; 135], 349975);
       ([122; 135; 136], 354511); ([128; 141; 142], 382380); ([133; 146; 147], 414785);
       ([139; 152; 153], 447190); ([145; 158; 159], 479595); ([150; 163; 164], 512000)]
  | Conf3 =>
      [([122; 126; 126], 308496); ([122; 128; 128], 317570); ([122; 134; 134], 349975);
       ([122; 135; 135], 355159); ([127; 140; 140], 382380); ([133; 146; 146], 414785);
       ([139; 152; 152], 447190); ([145; 158; 158], 479595); ([150; 163; 163], 512000)]
  end.

Definition weightCorrectionContaminated30mmWetSnow (c : Conf) : LerpLookupTable :=
  match c with
  | Conf1 => [(149063, 2500); (136749, 3000); (124435, 3500); (124435, 4000)]
  | Conf2 => [(160081, 2000); (158137, 2500); (145175, 3000)]
  | Conf3 => [(163322, 1750); (162025, 2000); (153600, 2500)]
  end.

Definition minCorrectedTowContaminated30mmWetSnow (c : Conf) : Q :=
  match c with
  | Conf1 => 311737
  | Conf2 => 308496
  | Conf3 => 308496
  end.

Definition mtowContaminated30mmWetSnow (c : Conf) : LerpLookupTable :=
  match c with
  | Conf1 => [(308496, 311737); (313033, 313033); (512000, 512000)]
  | Conf2 => [(308496, 308496); (512000, 512000)]
  | Conf3 => [(308496, 308496); (512000, 512000)]
  end.

Definition vSpeedsContaminated30mmWetSnow (c : Conf) : LerpVectorLookupTable :=
  match c with
  | Conf1 =>
      [([122; 126; 127], 308496); ([122; 127; 128], 313033); ([123; 128; 129], 317570);
       ([130; 134; 135], 349975); ([137; 141; 142], 382380); ([142; 146; 147], 414785);
       ([148; 152; 153], 447190); ([154; 158; 159], 479595); ([159; 163; 164], 512000)]
  | Conf2 =>
      [([122; 126; 127], 308496); ([124; 128; 129], 317570); ([130; 134; 135], 349975);
       ([137; 141; 142], 382380); ([142; 146; 147], 414785); ([148; 152; 153], 447190);
       ([154; 158; 159], 479595); ([159; 163; 164], 512000)]
  | Conf3 =>
      [([122; 126; 126], 308496); ([124; 128; 128], 317570); ([130; 134; 134], 349975);
       ([136; 140; 140], 382380); ([142; 146; 146], 414785); ([148; 152; 152], 447190);
       ([154; 158; 158], 479595); ([159; 163; 163], 512000)]
  end.

Definition weightCorrectionContaminated10mmDrySnow (c : Conf) : LerpLookupTable :=
  match c with
  | Conf1 => [(73884, 2500); (68051, 3000); (6000, 3500); (3000, 4000)]
  | Conf2 => [(97215, 2000); (92030, 2500); (76476, 3000)]
  | Conf3 => [(113418, 1750); (110825, 2000); (92678, 2500)]
  end.

Definition minCorrectedTowContaminated10mmDrySnow (c : Conf) : Q :=
  match c with
  | Conf1 => 366177
  | Conf2 => 372010
  | Conf3 => 374603
  end.

Definition mtowContaminated10mmDrySnow (c : Conf) : LerpLookupTable :=
  match c with
  | Conf1 => [(308496, 366177); (382380, 382380); (512000, 512000)]
  | Conf2 => [(308496, 372010); (362937, 382380); (388861, 388861); (512000, 512000)]
  | Conf3 => [(308496, 374603); (343494, 382380); (393397, 393397); (512000, 512000)]
  end.

Definition vSpeedsContaminated10mmDrySnow (c : Conf) : LerpVectorLookupTable :=
  match c with
  | Conf1 =>
      [([122; 126; 127], 308496); ([122; 128; 129], 317570); ([122; 134; 135], 349975);
       ([122; 140; 141], 382380); ([128; 146; 147], 414785); ([134; 152; 153], 447190);
       ([139; 157; 158], 479595); ([144; 162; 163], 512000)]
  | Conf2 =>
      [([122; 126; 127], 308496); ([122; 128; 129], 317570); ([122; 134; 135], 349975);
       ([122; 141; 142], 382380); ([122; 142; 143], 388861); ([126; 146; 147], 414785);
       ([132; 152; 153], 447190); ([138; 158; 159], 479595); ([143; 163; 164], 512000)]
  | Conf3 =>
      [([122; 126; 126], 308496); ([122; 128; 128], 317570); ([122; 134; 134], 349975);
       ([122; 140; 140], 382380); ([122; 142; 142], 393397); ([126; 146; 146], 414785);
       ([132; 152; 152], 447190); ([138; 158; 158], 479595); ([143; 163; 163], 512000)]
  end.

Definition weightCorrectionContaminated100mmDrySnow (c : Conf) : LerpLookupTable :=
  match c with
  | Conf1 => [(125084, 2500); (127028, 3000); (113418, 3500); (102400, 4000)]
  | Conf2 => [(136749, 2000); (142582, 2500); (138694, 3000)]
  | Conf3 => [(143230, 1750); (144527, 2000); (141286, 2500)]
  end.

Definition minCorrectedTowContaminated100mmDrySnow (c : Conf) : Q :=
  match c with
  | Conf1 => 315625
  | Conf2 => 313033
  | Conf3 => 315625
  end.

Definition mtowContaminated100mmDrySnow (c : Conf) : LerpLookupTable :=
  match c with
  | Conf1 => [(308496, 315625); (317570, 317570); (512000, 512000)]
  | Conf2 => [(308496, 311737); (313033, 313033); (512000, 512000)]
  | Conf3 => [(308496, 315625); (317570, 317570); (512000, 512000)]
  end.

Definition vSpeedsContaminated100mmDrySnow (c : Conf) : LerpVectorLookupTable :=
  match c with
  | Conf1 =>
      [([122; 126; 127], 308496); ([122; 128; 129], 317570); ([128; 134; 135], 349975);
       ([134; 140; 141], 382380); ([140; 146; 147], 414785); ([146; 152; 153], 447190);
       ([151; 157; 158], 479595); ([156; 162; 163], 512000)]
  | Conf2 =>
      [([122; 126; 127], 308496); ([122; 127; 128], 313033); ([123; 128; 129], 317570);
       ([129; 134; 135], 349975); ([136; 141; 142], 382380); ([141; 146; 147], 414785);
       ([147; 152; 153], 447190); ([153; 158; 159], 479595); ([158; 163; 164], 512000)]
  | Conf3 =>
      [([122; 126; 126], 308496); ([122; 128; 128], 317570); ([128; 134; 134], 349975);
       ([134; 140; 140], 382380); ([140; 146; 146], 414785); ([146; 152; 152], 447190);
       ([152; 158; 158], 479595); ([157; 163; 163], 512000)]
  end.

(** ** The calculator *)

Open Scope num_scope.

Module E := TakeoffPerfomanceError.
Module LF := LimitingFactor.
Module RC := RunwayCondition.

(** Max flex temp as a delta from ISA in degrees C. *)
Definition tMaxFlexDisa : Q := 59.
Definition structuralMtow : Q := 512000.
Definition maxPressureAlt : Q := 9200.
Definition oew : Q := 275443.
Definition maxHeadwind : Q := 45.
Definition maxTailwind : Q := 15.

Definition getCrosswindLimit (runwayCondition : RC.t) (oat : num) : num :=
  match runwayCondition with
  | RC.Dry | RC.Wet => 35
  | RC.ContaminatedCompactedSnow => if oat <=? -15 then 29 else 25
  | RC.Contaminated10mmDrySnow | RC.Contaminated100mmDrySnow
  | RC.Contaminated5mmWetSnow | RC.Contaminated15mmWetSnow
  | RC.Contaminated30mmWetSnow => 25
  | RC.Contaminated6mmWater | RC.Contaminated13mmWater
  | RC.Contaminated6mmSlush | RC.Contaminated13mmSlush => 20
  end.

Definition isCgWithinLimits (cg tow : num) : bool :=
  let cgLimits := Lerp.getVector takeoffCgLimits tow in
  (cg >=? Lerp.at_ cgLimits 0) && (cg <=? Lerp.at_ cgLimits 1).

Definition checkInputs (inputs : TakeoffPerformanceInputs)
    (params : TakeoffPerformanceParameters) : E.t :=
  if negb (conf inputs =? 1)%Z && negb (conf inputs =? 2)%Z && negb (conf inputs =? 3)%Z
  then E.InvalidData
  else if tow inputs >? structuralMtow then E.StructuralMtow
  else if pressureAlt params >? maxPressureAlt then E.MaximumPressureAlt
  else if oat inputs >? tMax params then E.MaximumTemperature
  else if tow inputs <? oew then E.OperatingEmptyWeight
  else if match cg inputs with
          | Some cg => negb (isCgWithinLimits cg (tow inputs))
          | None => false
          end
  then E.CgOutOfLimits
  else if wind inputs <? - maxTailwind then E.MaximumTailwind
  else if Math.abs (slope inputs) >? 2 then E.MaximumRunwaySlope
  else E.None.

Definition isContaminated (runwayCondition : RC.t) : bool :=
  match runwayCondition with
  | RC.Dry | RC.Wet => false
  | _ => true
  end.

(** Get the ISA temperature from elevation. *)
Definition calculateIsaTemp (elevation : num) : num := 15 - elevation * 0.0019812.

Definition calculateTref (elevation : num) : num := Lerp.get tRefTable elevation.

Definition calculateTmax (pressureAlt : num) : num := Lerp.get tMaxTable pressureAlt.

Definition calculateTflexMax (isa : num) : num := isa + tMaxFlexDisa.

Definition calculateTvmcg (c : Conf) (params : TakeoffPerformanceParameters) : num :=
  let factors := Lerp.getVector (tvmcgFactors c) (Math.max (headwind params) (-15)) in
  let factor1 := Lerp.at_ factors 0 in
  let factor2 := Lerp.at_ factors 1 in
  factor1 * (adjustedTora params - pressureAlt params / 10) + factor2.

Definition calculateBaseRunwayPerfLimit (length : num) (c : Conf) : num :=
  match c with
  | Conf1 => Lerp.get runwayPerfLimitConf1 length
  | Conf2 => Lerp.get runwayPerfLimitConf2 length
  | Conf3 => Lerp.get runwayPerfLimitConf3 length
  end.

Definition calculateBaseLimit (length : num) (c : Conf) (factors : Conf -> Q * Q) : num :=
  let '(factor1, factor2) := factors c in
  1000 * (length * factor1 + factor2).

(** *** Temperature corrections, in kg *)

Definition calculateRunwayTempDelta (temp : num) (c : Conf)
    (tRef tMax tFlexMax runwayLength pressureAlt isaTemp : num) : num :=
  if temp >? tFlexMax then NaN
  else
    let '(f0, f1, f2, f3, f4, f5) := runwayTemperatureFactor c in
    let runwayAltFactor := runwayLength - pressureAlt / 12 in
    let weightDelta := 1000 * (runwayAltFactor * f0 + f1) * (Math.min temp tRef - isaTemp) in
    let weightDelta :=
      if temp >? tRef
      then weightDelta + 1000 * (runwayAltFactor * f2 + f3) * (Math.min temp tMax - tRef)
      else weightDelta in
    let weightDelta :=
      if temp >? tMax
      then weightDelta + 1000 * (runwayAltFactor * f4 + f5) * (temp - tMax)
      else weightDelta in
    weightDelta.

Definition calculateSecondSegmentTempDelta (temp : num) (c : Conf)
    (tRef tMax tFlexMax runwayLength pressureAlt isaTemp : num) : num :=
  if temp >? tFlexMax then NaN
  else
    let '(f0, f1, f2, f3, f4, f5) := secondSegmentTemperatureFactor c in
    let weightDelta :=
      1000 * ((runwayLength - pressureAlt / 5) * f0 + f1) * (Math.min temp tRef - isaTemp) in
    let weightDelta :=
      if temp >? tRef
      then weightDelta
           + 1000 * ((runwayLength - pressureAlt / 5) * f2 + f3) * (Math.min temp tMax - tRef)
      else weightDelta in
    let weightDelta :=
      if temp >? tMax
      then weightDelta + 1000 * ((runwayLength - pressureAlt / 5) * f4 + f5) * (temp - tMax)
      else weightDelta in
    weightDelta.

Definition calculateBrakeEnergyTempDelta (temp : num) (c : Conf)
    (tRef tMax tFlexMax runwayLength pressureAlt isaTemp : num) : num :=
  if temp >? tFlexMax then NaN
  else
    let '(f0, f1) := brakeEnergyTemperatureFactor c in
    let weightDelta := 1000 * f0 * (Math.min temp tRef - isaTemp) in
    let weightDelta :=
      if temp >? tRef
      then weightDelta + 1000 * f1 * (Math.min temp tMax - tRef)
      else weightDelta in
    (* no correction above Tmax *)
    weightDelta.

Definition calculateVmcgTempDelta (temp : num) (c : Conf)
    (tRef tMax tFlexMax runwayLength pressureAlt isaTemp : num) : num :=
  if temp >? tFlexMax then NaN
  else
    let '(f0, f1, f2, f3, f4, f5) := vmcgTemperatureFactor c in
    let weightDelta := 1000 * (runwayLength * f0 + f1) * (Math.min temp tRef - isaTemp) in
    let weightDelta :=
      if temp >? tRef
      then weightDelta + 1000 * (runwayLength * f2 + f3) * (Math.min temp tMax - tRef)
      else weightDelta in
    let weightDelta :=
      if temp >? tMax
      then weightDelta + 1000 * (runwayLength * f4 + f5) * (temp - tMax)
      else weightDelta in
    weightDelta.

(** *** Wind corrections, in kg

    A negative correction raises the limit weight (corrections are
    subtracted). *)

(** The last step of each wind correction: a correction of the sign of the
    wind is dropped. *)
Definition dropSameSign (weightDelta wind : num) : num :=
  if Math.sign weightDelta === Math.sign wind then 0 else weightDelta.

Definition windDelta4 (windFactors : Q * Q * Q * Q)
    (temp tRef tMax runwayLength wind : num) : num :=
  let '(w0, w1, w2, w3) := windFactors in
  let weightDelta := 1000 * (runwayLength * w0 + w1) * wind in
  let weightDelta :=
    if temp >? tRef
    then weightDelta + 1000 * w2 * wind * (Math.min temp tMax - tRef)
    else weightDelta in
  let weightDelta :=
    if temp >? tMax
    then weightDelta + 1000 * w3 * wind * (temp - tMax)
    else weightDelta in
  dropSameSign weightDelta wind.

Definition calculateRunwayWindDelta (temp : num) (c : Conf)
    (isaTemp tRef tMax tFlexMax runwayLength wind : num) : num :=
  if temp >? tFlexMax then NaN
  else
    let windFactors := if wind >=? 0 then runwayHeadWindFactor c else runwayTailWindFactor c in
    windDelta4 windFactors temp tRef tMax runwayLength wind.

Definition calculateSecondSegmentWindDelta (temp : num) (c : Conf)
    (isaTemp tRef tMax tFlexMax runwayLength wind : num) : num :=
  if temp >? tFlexMax then NaN
  else
    let windFactors :=
      if wind >=? 0 then secondSegmentHeadWindFactor c else secondSegmentTailWindFactor c in
    windDelta4 windFactors temp tRef tMax runwayLength wind.

Definition calculateBrakeEnergyWindDelta (temp : num) (c : Conf)
    (isaTemp tRef tMax tFlexMax runwayLength wind : num) : num :=
  if temp >? tFlexMax then NaN
  else
    let windFactors :=
      if wind >=? 0 then brakeEnergyHeadWindFactor c else brakeEnergyTailWindFactor c in
    windDelta4 windFactors temp tRef tMax runwayLength wind.

Definition calculateVmcgWindDelta (temp : num) (c : Conf)
    (isaTemp tRef tMax tFlexMax runwayLength wind : num) : num :=
  if temp >? tFlexMax then NaN
  else
    let weightDelta :=
      if wind >=? 0 then
        let '(w0, w1, w2, w3, w4, w5, w6, w7) := vmcgHeadWindFactor c in
        let weightDelta := 1000 * (runwayLength * w0 + w1) * wind in
        let weightDelta :=
          if temp >? isaTemp
          then weightDelta
               + 1000 * (runwayLength * w2 + w3) * wind * (Math.min temp tRef - isaTemp)
          else weightDelta in
        let weightDelta :=
          if temp >? tRef
          then weightDelta
               + 1000 * (runwayLength * w4 + w5) * wind * (Math.min temp tMax - tRef)
          else weightDelta in
        let weightDelta :=
          if temp >=? tMax
          then weightDelta + 1000 * (runwayLength * w6 + w7) * wind * (temp - tMax)
          else weightDelta in
        weightDelta
      else
        let '(w0, w1, w2, w3, w4, w5) := vmcgTailWindFactor c in
        let weightDelta := 1000 * (runwayLength * w0 + w1) * wind in
        let weightDelta :=
          if temp >? isaTemp
          then weightDelta
               + 1000 * (runwayLength * w2 + w3) * wind * (Math.min temp tRef - isaTemp)
          else weightDelta in
        let weightDelta :=
          if temp >? tRef
          then weightDelta + 1000 * w4 * wind * (Math.min temp tMax - tRef)
          else weightDelta in
        let weightDelta :=
          if temp >? tMax
          then weightDelta + 1000 * w5 * wind * (temp - tMax)
          else weightDelta in
        weightDelta in
    dropSameSign weightDelta wind.

(** *** Weight limits *)

(** The functions that the [switch] of [calculateWeightLimits], and that of
    [calculateFlexTow], select for a limiting factor. *)
Definition tempDeltaFunc (limitingFactor : LF.t) :=
  match limitingFactor with
  | LF.Runway => calculateRunwayTempDelta
  | LF.SecondSegment => calculateSecondSegmentTempDelta
  | LF.BrakeEnergy => calculateBrakeEnergyTempDelta
  | LF.Vmcg => calculateVmcgTempDelta
  end.

Definition windDeltaFunc (limitingFactor : LF.t) :=
  match limitingFactor with
  | LF.Runway => calculateRunwayWindDelta
  | LF.SecondSegment => calculateSecondSegmentWindDelta
  | LF.BrakeEnergy => calculateBrakeEnergyWindDelta
  | LF.Vmcg => calculateVmcgWindDelta
  end.

Definition slopeFactors (limitingFactor : LF.t) : Conf -> Q :=
  match limitingFactor with
  | LF.Runway => runwaySlopeFactor
  | LF.SecondSegment => secondSegmentSlopeFactor
  | LF.BrakeEnergy => brakeEnergySlopeFactor
  | LF.Vmcg => vmcgSlopeFactor
  end.

Definition altFactors (limitingFactor : LF.t) : Conf -> Q * Q :=
  match limitingFactor with
  | LF.Runway => runwayPressureAltFactor
  | LF.SecondSegment => secondSegmentPressureAltFactor
  | LF.BrakeEnergy => brakeEnergyPressureAltFactor
  | LF.Vmcg => vmcgPressureAltFactor
  end.

(** The bleed correction of [calculateWeightLimits]. *)
Definition deltaBleed (inputs : TakeoffPerformanceInputs) : num :=
  (if TakeoffAntiIceSetting.eqb (antiIce inputs) TakeoffAntiIceSetting.EngineWing
   then 1600 else 0)
  + (if packs inputs then 1500 else 0).

Definition calculateWeightLimits (limitingFactor : LF.t) (c : Conf)
    (result : TakeoffPerformanceResult) : LimitWeight :=
  let i := inputs result in
  let p := params result in
  (* base weight limits at sea level, isa etc. *)
  let baseLimit :=
    match limitingFactor with
    | LF.Runway => calculateBaseRunwayPerfLimit (adjustedTora p) c
    | LF.SecondSegment => calculateBaseLimit (adjustedTora p) c secondSegmentBaseFactor
    | LF.BrakeEnergy => calculateBaseLimit (adjustedTora p) c brakeEnergyBaseFactor
    | LF.Vmcg => calculateBaseLimit (adjustedTora p) c vmcgBaseFactor
    end in
  (* correction for runway slope; downhill = increased weight limit *)
  let deltaSlope := 1000 * slopeFactors limitingFactor c * adjustedTora p * slope i in
  let slopeLimit := baseLimit - deltaSlope in
  (* correction for pressure altitude *)
  let '(altFactor1, altFactor2) := altFactors limitingFactor c in
  let deltaAlt := 1000 * pressureAlt p * (pressureAlt p * altFactor1 + altFactor2) in
  let altLimit := slopeLimit - deltaAlt in
  (* correction for bleeds *)
  let deltaBleed := deltaBleed i in
  (* correction for air temperature and wind *)
  let deltaTemp temp :=
    tempDeltaFunc limitingFactor temp c (tRef p) (tMax p) (tFlexMax p) (adjustedTora p)
      (pressureAlt p) (isaTemp p) in
  let deltaWind temp :=
    windDeltaFunc limitingFactor temp c (isaTemp p) (tRef p) (tMax p) (tFlexMax p)
      (adjustedTora p) (headwind p) in
  let oatDeltaTemp := deltaTemp (oat i) in
  let oatDeltaWind := deltaWind (oat i) in
  let oatLimitNoBleed := altLimit - oatDeltaTemp - oatDeltaWind in
  let tRefDeltaTemp := deltaTemp (tRef p) in
  let tRefDeltaWind := deltaWind (tRef p) in
  let tRefLimitNoBleed := altLimit - tRefDeltaTemp - tRefDeltaWind in
  let tMaxDeltaTemp := deltaTemp (tMax p) in
  let tMaxDeltaWind := deltaWind (tMax p) in
  let tMaxLimitNoBleed := altLimit - tMaxDeltaTemp - tMaxDeltaWind in
  let tFlexMaxDeltaTemp := deltaTemp (tFlexMax p) in
  let tFlexMaxDeltaWind := deltaWind (tFlexMax p) in
  let tFlexMaxLimitNoBleed := altLimit - tFlexMaxDeltaTemp - tFlexMaxDeltaWind in
  {| baseLimit := baseLimit;
     deltaSlope := deltaSlope;
     slopeLimit := slopeLimit;
     deltaAlt := deltaAlt;
     altLimit := altLimit;
     oatDeltaTemp := oatDeltaTemp;
     oatDeltaWind := oatDeltaWind;
     oatLimitNoBleed := oatLimitNoBleed;
     oatLimit := oatLimitNoBleed - deltaBleed;
     tRefDeltaTemp := tRefDeltaTemp;
     tRefDeltaWind := tRefDeltaWind;
     tRefLimitNoBleed := tRefLimitNoBleed;
     tRefLimit := tRefLimitNoBleed - deltaBleed;
     tMaxDeltaTemp := tMaxDeltaTemp;
     tMaxDeltaWind := tMaxDeltaWind;
     tMaxLimitNoBleed := tMaxLimitNoBleed;
     tMaxLimit := tMaxLimitNoBleed - deltaBleed;
     tFlexMaxDeltaTemp := tFlexMaxDeltaTemp;
     tFlexMaxDeltaWind := tFlexMaxDeltaWind;
     tFlexMaxLimitNoBleed := tFlexMaxLimitNoBleed;
     tFlexMaxLimit := tFlexMaxLimitNoBleed - deltaBleed |}.

(** The value assigned to [result.limits]. *)
Definition allWeightLimits (c : Conf) (result : TakeoffPerformanceResult) : Limits :=
  {| limitRunway := calculateWeightLimits LF.Runway c result;
     limitSecondSegment := calculateWeightLimits LF.SecondSegment c result;
     limitBrakeEnergy := calculateWeightLimits LF.BrakeEnergy c result;
     limitVmcg := calculateWeightLimits LF.Vmcg c result |}.

(** *** The limiting factor *)

(** The argument [temp] of [getLimitingFactor], a key of [LimitWeight]. *)
Inductive LimitKey : Type := KeyOatLimit | KeyTRefLimit | KeyTMaxLimit | KeyTFlexMaxLimit.

Definition weightAt (temp : LimitKey) (w : LimitWeight) : num :=
  match temp with
  | KeyOatLimit => oatLimit w
  | KeyTRefLimit => tRefLimit w
  | KeyTMaxLimit => tMaxLimit w
  | KeyTFlexMaxLimit => tFlexMaxLimit w
  end.

(** The same ceiling before the bleed correction. *)
Definition weightNoBleedAt (temp : LimitKey) (w : LimitWeight) : num :=
  match temp with
  | KeyOatLimit => oatLimitNoBleed w
  | KeyTRefLimit => tRefLimitNoBleed w
  | KeyTMaxLimit => tMaxLimitNoBleed w
  | KeyTFlexMaxLimit => tFlexMaxLimitNoBleed w
  end.

(** [w < limitingWeight], where [limitingWeight] starts as [Infinity]
    ([None]): every number but [NaN] is below [Infinity]. *)
Definition belowLimiting (w : num) (limitingWeight : option num) : bool :=
  match limitingWeight with
  | None => Num.isFinite w
  | Some l => w <? l
  end.

Definition limitingStep (temp : LimitKey) (l : Limits)
    (state : option num * LF.t) (factor : LF.t) : option num * LF.t :=
  let weights := limitOf l factor in
  if belowLimiting (weightAt temp weights) (fst state)
  then (Some (weightAt temp weights), factor)
  else state.

(** The loop of [getLimitingFactor] over the factors. *)
Definition limitingFactorAt (temp : LimitKey) (l : Limits) : LF.t :=
  snd (fold_left (limitingStep temp l) LF.values (None, LF.Runway)).

(** Determine which of the factors is limiting the takeoff weight most for
    a given temperature. *)
Definition getLimitingFactor (temp : LimitKey) (result : TakeoffPerformanceResult)
    : outcome LF.t :=
  match limits result with
  | None => Throw "Invalid result object!"
  | Some l => Ok (limitingFactorAt temp l)
  end.

(** *** Flex temperature *)

Definition calculateFlexTow (c : Conf) (result : TakeoffPerformanceResult)
    (limitingFactor : LF.t) (limitingWeights : LimitWeight) (temperature : num) : num :=
  let p := params result in
  altLimit limitingWeights
  - tempDeltaFunc limitingFactor temperature c (tRef p) (tMax p) (tFlexMax p)
      (adjustedTora p) (pressureAlt p) (isaTemp p)
  - windDeltaFunc limitingFactor temperature c (isaTemp p) (tRef p) (tMax p) (tFlexMax p)
      (adjustedTora p) (headwind p).

(** The buffer that the lookups in the tables of the wet runway write to
    and return.  The vectors of those tables have no component, since
    [VecNMath.create] reads the first of its arguments as the length, so a
    lookup leaves the buffer as it finds it: no call changes it, and every
    call finds the four zeros of its declaration. *)
Definition vec4Cache : list num := map Fin (VecNMath.create 4 []).

(** The adjustment that a wet runway brings to the takeoff weight, to the
    flex temperature and to each speed: the minimum of zero and of two
    expressions linear in [lengthAltCoef]. *)
Definition wetAdjustment (factors : list num) (lengthAltCoef : num) : num :=
  Math.min3 0
    (Lerp.at_ factors 0 * lengthAltCoef + Lerp.at_ factors 1)
    (Lerp.at_ factors 2 * lengthAltCoef + Lerp.at_ factors 3).

Definition lengthAltCoef (p : TakeoffPerformanceParameters) : num :=
  adjustedTora p - pressureAlt p / 20.

(** The body of the loop of [calculateFlexTemp]; the state is the pair
    [flexTemp], [flexLimitingFactor], unset before the first hit. *)
Definition flexStep (c : Conf) (result : TakeoffPerformanceResult)
    (fromLimitingFactor : LF.t) (fromLimitingWeights : LimitWeight)
    (toLimitingFactor : LF.t) (toLimitingWeights : LimitWeight)
    (t : num) (state : option (num * LF.t)) : option (num * LF.t) :=
  let fromLimitTow := calculateFlexTow c result fromLimitingFactor fromLimitingWeights t in
  let toLimitTow := calculateFlexTow c result toLimitingFactor toLimitingWeights t in
  if tow (inputs result) <=? Math.min fromLimitTow toLimitTow
  then Some (t, if fromLimitTow <=? toLimitTow then fromLimitingFactor else toLimitingFactor)
  else state.

(** [for (let t = iterFrom; t <= iterTo; t++) body]: the loop runs while
    the test holds; [fuel] bounds the number of rounds. *)
Fixpoint flexLoop (fuel : nat) (body : num -> option (num * LF.t) -> option (num * LF.t))
    (t iterTo : num) (state : option (num * LF.t)) : option (num * LF.t) :=
  match fuel with
  | O => state
  | S fuel' =>
      if t <=? iterTo then flexLoop fuel' body (t + 1) iterTo (body t state) else state
  end.

(** The number of rounds of the loop: one per [t = iterFrom + k] that is at
    most [iterTo], none when a bound is [NaN]. *)
Definition flexRounds (iterFrom iterTo : num) : nat :=
  match iterFrom, iterTo with
  | Fin a, Fin b => Z.to_nat (Qfloor (b - a) + 1)
  | _, _ => O
  end.

(** The interval of temperatures that [calculateFlexTemp] scans, with the
    limiting factor of each of its ends. *)
Definition flexInterval (result : TakeoffPerformanceResult) (l : Limits)
    (tRefLF tMaxLF tFlexMaxLF : LF.t) : num * num * LF.t * LF.t :=
  let i := inputs result in
  let p := params result in
  if tow i >? tMaxLimitNoBleed (limitOf l tMaxLF) then
    (* interpolate between tRefLimit and tMaxLimit *)
    (tRef p, tMax p, tRefLF, tMaxLF)
  else if tow i >? tFlexMaxLimitNoBleed (limitOf l tFlexMaxLF) then
    (* interpolate between tMaxLimit and tFlexMaxLimit *)
    (tMax p, tFlexMax p, tMaxLF, tFlexMaxLF)
  else
    (* interpolate between tFlexMax and tFlexMax + the maximum bleed
       increment, so we can account for bleed corrections later, and only
       then limit the flex temp to tFlexMax *)
    (tFlexMax p, tFlexMax p + 8, tFlexMaxLF, tFlexMaxLF).

(** The flex temperature found by the loop, after the corrections for
    bleeds, the limit Tflexmax, the truncation and the wet adjustment. *)
Definition adjustFlexTemp (c : Conf) (result : TakeoffPerformanceResult) (tvmcg : num)
    (flexTemp : num) : num :=
  let i := inputs result in
  let p := params result in
  let flexTemp :=
    if TakeoffAntiIceSetting.eqb (antiIce i) TakeoffAntiIceSetting.Engine
    then flexTemp - 2
    else if TakeoffAntiIceSetting.eqb (antiIce i) TakeoffAntiIceSetting.EngineWing
    then flexTemp - 6
    else flexTemp in
  let flexTemp := if packs i then flexTemp - 2 else flexTemp in
  let flexTemp := Math.min flexTemp (tFlexMax p) in
  let flexTemp := Math.trunc flexTemp in
  match runwayCondition i with
  | RC.Wet =>
      (* tvmcg is already calculated when we calculate MTOW *)
      let factors :=
        Lerp.getInto vec4Cache
          ((if oat i >? tvmcg
            then wetFlexAdjustmentFactorsAboveTvmcg
            else wetFlexAdjustmentFactorsAtOrBelowTvmcg) c)
          (headwind p) in
      let wetFlexAdjustment := wetAdjustment factors (lengthAltCoef p) in
      flexTemp - wetFlexAdjustment
  | _ => flexTemp
  end.

Definition calculateFlexTemp (c : Conf) (result : TakeoffPerformanceResult) (tvmcg : num)
    : outcome (option num * option LF.t) :=
  match limits result, tRefLimitingFactor result, tMaxLimitingFactor result,
        tFlexMaxLimitingFactor result with
  | Some l, Some tRefLF, Some tMaxLF, Some tFlexMaxLF =>
      let i := inputs result in
      (* we can use flex if TOW is below the tRef limit weight *)
      if tow i <? tRefLimit (limitOf l tRefLF) then
        let '(iterFrom, iterTo, fromLimitingFactor, toLimitingFactor) :=
          flexInterval result l tRefLF tMaxLF tFlexMaxLF in
        let fromLimitingWeights := limitOf l fromLimitingFactor in
        let toLimitingWeights := limitOf l toLimitingFactor in
        match flexLoop (flexRounds iterFrom iterTo)
                (flexStep c result fromLimitingFactor fromLimitingWeights
                   toLimitingFactor toLimitingWeights)
                iterFrom iterTo None with
        | Some (flexTemp, flexLimitingFactor) =>
            let flexTemp := adjustFlexTemp c result tvmcg flexTemp in
            if flexTemp >? oat i
            then Ok (Some flexTemp, Some flexLimitingFactor)
            else Ok (None, None)
        | None => Ok (None, None)
        end
      else Ok (None, None)
  | _, _, _, _ => Throw "Invalid result object!"
  end.

(** *** Speeds *)

Definition reconcileVSpeeds (c : Conf) (result : TakeoffPerformanceResult)
    (v1 vR v2 : num) : TakeoffPerformanceResult * (num * num * num) :=
  let i := inputs result in
  let p := params result in
  let minV1Vmc := Math.ceil (Lerp.get minimumV1Vmc (pressureAlt p)) in
  let minVrVmc := Math.ceil (Lerp.get minimumVrVmc (pressureAlt p)) in
  let minV2Vmc := Math.ceil (Lerp.get (minimumV2Vmc c) (pressureAlt p)) in
  let minv2Vmu := Math.ceil (Lerp.get2 (minimumV2Vmu c) (pressureAlt p) (tow i)) in
  (* VMCG/VMCA/VMU limits, and rounding *)
  let v1Corrected := Math.round (Math.max v1 minV1Vmc) in
  let vRCorrected := Math.round (Math.max vR minVrVmc) in
  let v2Corrected := Math.round (Math.max3 v2 minV2Vmc minv2Vmu) in
  (* Vr must be less than or equal to v2 *)
  let '(result, vRCorrected) :=
    if vRCorrected >? v2Corrected then
      (if v2Corrected <? minVrVmc then setError E.VmcgVmcaLimits result else result,
       v2Corrected)
    else (result, vRCorrected) in
  (* Vr limited by tire speed *)
  let '(result, vRCorrected) :=
    if v2Corrected >? 195 then
      let maxVr := Math.trunc (195 - (v2Corrected - 195)) in
      if vRCorrected >? 195 then (setError E.MaximumTireSpeed result, vRCorrected)
      else if vRCorrected >? maxVr then
        (if maxVr <? minVrVmc then setError E.VmcgVmcaLimits result else result, maxVr)
      else (result, vRCorrected)
    else (result, vRCorrected) in
  (* V1 must be less than or equal to vr *)
  let '(result, v1Corrected) :=
    if v1Corrected >? vRCorrected then
      (if vRCorrected <? minV1Vmc then setError E.VmcgVmcaLimits result else result,
       vRCorrected)
    else (result, v1Corrected) in
  (result, (v1Corrected, vRCorrected, v2Corrected)).

Definition calculateSecondSegBrakeV2 (c : Conf) (result : TakeoffPerformanceResult)
    (correctWind useTable2 : bool) : num :=
  let i := inputs result in
  let p := params result in
  let '(v2BaseFactor1, v2BaseFactor2) := v2SecondSegBrakeBaseTable1 c in
  let v2Base := (tow i / 1000) * v2BaseFactor1 + v2BaseFactor2 in
  let v2Base :=
    if useTable2 then
      let '(v2BaseFactor1, v2BaseFactor2) := v2SecondSegBrakeBaseTable2 c in
      (tow i / 1000) * v2BaseFactor1 + v2BaseFactor2
    else v2Base in
  let '(v2BaseRunwayLength, v2RunwayFactor) :=
    if useTable2 then v2SecondSegBrakeRunwayTable2 c else v2SecondSegBrakeRunwayTable1 c in
  let v2DeltaRunway := (v2BaseRunwayLength - adjustedTora p) * v2RunwayFactor in
  let '(v2AltFactor1, v2AltFactor2, v2AltFactor3, v2AltFactor4) :=
    v2SecondSegBrakeAltFactors c in
  let v2DeltaAlt :=
    pressureAlt p
    * ((tow i / 1000) * v2AltFactor1 + v2AltFactor2)
    * (adjustedTora p * v2AltFactor3 + v2AltFactor4) in
  let '(v2SlopeFactor1, v2SlopeFactor2) := v2SecondSegBrakeSlopeFactors c in
  let v2DeltaSlope :=
    slope i * adjustedTora p * ((tow i / 1000) * v2SlopeFactor1 + v2SlopeFactor2) in
  let v2DeltaWind :=
    if correctWind then
      let v2WindFactor :=
        if headwind p >=? 0
        then v2SecondSegBrakeHeadwindFactors c
        else v2SecondSegBrakeTailwindFactors c in
      headwind p * v2WindFactor
    else 0 in
  v2Base + v2DeltaRunway + v2DeltaAlt + v2DeltaSlope + v2DeltaWind.

Definition calculateSecondSegBrakeV1 (c : Conf) (result : TakeoffPerformanceResult)
    (useTable2 : bool) : num :=
  let i := inputs result in
  let p := params result in
  let '(v1BaseFactor1, v1BaseFactor2) :=
    if useTable2 then v1SecondSegBrakeBaseTable2 c else v1SecondSegBrakeBaseTable1 c in
  let v1Base := (tow i / 1000) * v1BaseFactor1 + v1BaseFactor2 in
  let '(v1BaseLength, v1RunwayFactor1, v1RunwayFactor2) :=
    if useTable2 then v1SecondSegBrakeRunwayTable2 c else v1SecondSegBrakeRunwayTable1 c in
  let v1DeltaRunway :=
    (v1BaseLength - adjustedTora p) * ((tow i / 1000) * v1RunwayFactor1 + v1RunwayFactor2) in
  let '(v1AltFactor1, v1AltFactor2, v1AltFactor3, v1AltFactor4) :=
    if useTable2 then v1SecondSegBrakeAltTable2 c else v1SecondSegBrakeAltTable1 c in
  let v1DeltaAlt :=
    pressureAlt p
    * ((tow i / 1000) * v1AltFactor1 + v1AltFactor2)
    * (adjustedTora p * v1AltFactor3 + v1AltFactor4) in
  let '(v1SlopeFactor1, v1SlopeFactor2) := v1SecondSegBrakeSlopeFactors c in
  let v1DeltaSlope :=
    slope i * adjustedTora p * ((tow i / 1000) * v1SlopeFactor1 + v1SlopeFactor2) in
  let '(v1WindFactor1, v1WindFactor2) :=
    if headwind p >=? 0
    then v1SecondSegBrakeHeadwindFactors c
    else v1SecondSegBrakeTailwindFactors c in
  let v1DeltaWind := headwind p * ((tow i / 1000) * v1WindFactor1 + v1WindFactor2) in
  v1Base + v1DeltaRunway + v1DeltaAlt + v1DeltaSlope + v1DeltaWind.

(** The speeds of [calculateDryVSpeeds] before reconciliation. *)
Definition dryVSpeedsRaw (c : Conf) (result : TakeoffPerformanceResult)
    (applyForwardCgSpeedCorrection : bool) : num * num * num :=
  let i := inputs result in
  let p := params result in
  let limitingFactor :=
    match flexLimitingFactor p with
    | Some f => Some f
    | None => oatLimitingFactor result
    end in
  match limitingFactor with
  | Some LF.Runway | Some LF.Vmcg =>
      (* v2 *)
      let '(v2BaseFactor1, v2BaseFactor2) := v2RunwayVmcgBaseFactors c in
      let v2Base := (tow i / 1000) * v2BaseFactor1 + v2BaseFactor2 in
      let '(v2AltFactor1, v2AltFactor2) := v2RunwayVmcgAltFactors c in
      let v2DeltaAlt := ((tow i / 1000) * v2AltFactor1 + v2AltFactor2) * pressureAlt p in
      let v2 := v2Base + v2DeltaAlt in
      (* vr *)
      let '(vRBaseFactor1, vRBaseFactor2) := vRRunwayVmcgBaseFactors c in
      let vRBase := (tow i / 1000) * vRBaseFactor1 + vRBaseFactor2 in
      let '(vRBaseLength, vRRunwayFactor1, vRRunwayFactor2) := vRRunwayVmcgRunwayFactors c in
      let vRDeltaRunway :=
        (vRBaseLength - adjustedTora p)
        * ((tow i / 1000) * vRRunwayFactor1 + vRRunwayFactor2) in
      let '(vRFactorAlt1, vRFactorAlt2) := vRRunwayVmcgAltFactors c in
      let vRDeltaAlt := pressureAlt p * ((tow i / 1000) * vRFactorAlt1 + vRFactorAlt2) in
      let vRFactorSlope := vRRunwayVmcgSlopeFactors c in
      let vRDeltaSlope := slope i * adjustedTora p * vRFactorSlope in
      let '(vRWindFactor1, vRWindFactor2) :=
        if headwind p >=? 0
        then vRRunwayVmcgHeadwindFactors c
        else vRRunwayVmcgTailwindFactors c in
      let vRDeltaWind := headwind p * ((tow i / 1000) * vRWindFactor1 + vRWindFactor2) in
      let vR :=
        vRBase + vRDeltaRunway + vRDeltaAlt + vRDeltaSlope + vRDeltaWind
        + (if applyForwardCgSpeedCorrection then -1 else 0) in
      (* v1 *)
      let '(v1BaseFactor1, v1BaseFactor2) := v1RunwayVmcgBaseFactors c in
      let v1Base := (tow i / 1000) * v1BaseFactor1 + v1BaseFactor2 in
      let '(v1BaseLength, v1RunwayFactor1, v1RunwayFactor2) := v1RunwayVmcgRunwayFactors c in
      let v1DeltaRunway :=
        (v1BaseLength - adjustedTora p)
        * ((tow i / 1000) * v1RunwayFactor1 + v1RunwayFactor2) in
      let '(v1FactorAlt1, v1FactorAlt2) := v1RunwayVmcgAltFactors c in
      let v1DeltaAlt := pressureAlt p * ((tow i / 1000) * v1FactorAlt1 + v1FactorAlt2) in
      let v1FactorSlope := v1RunwayVmcgSlopeFactors c in
      let v1DeltaSlope := slope i * adjustedTora p * v1FactorSlope in
      let '(v1WindFactor1, v1WindFactor2) :=
        if headwind p >=? 0
        then v1RunwayVmcgHeadwindFactors c
        else v1RunwayVmcgTailwindFactors c in
      let v1DeltaWind := headwind p * ((tow i / 1000) * v1WindFactor1 + v1WindFactor2) in
      let v1 := v1Base + v1DeltaRunway + v1DeltaAlt + v1DeltaSlope + v1DeltaWind in
      (v1, vR, v2)
  | _ =>
      (* 2nd seg or brake energy limited *)
      (* v2 *)
      let v2NoWind := calculateSecondSegBrakeV2 c result false false in
      let '(v2ThresholdFactor1, v2ThresholdFactor2) := v2SecondSegBrakeThresholds c in
      let v2Table2Threshold := adjustedTora p * v2ThresholdFactor1 + v2ThresholdFactor2 in
      let useTable2 := v2NoWind >=? v2Table2Threshold in
      let v2 := calculateSecondSegBrakeV2 c result true useTable2 in
      (* vr *)
      let '(vRBaseFactor1, vRBaseFactor2) :=
        if useTable2 then vRSecondSegBrakeBaseTable2 c else vRSecondSegBrakeBaseTable1 c in
      let vRBase := (tow i / 1000) * vRBaseFactor1 + vRBaseFactor2 in
      let '(vRBaseLength, vRRunwayFactor1, vRRunwayFactor2) :=
        if useTable2
        then vRSecondSegBrakeRunwayTable2 c
        else vRSecondSegBrakeRunwayTable1 c in
      let vRDeltaRunway :=
        (vRBaseLength - adjustedTora p)
        * ((tow i / 1000) * vRRunwayFactor1 + vRRunwayFactor2) in
      let '(vRAltFactor1, vRAltFactor2, vRAltFactor3, vRAltFactor4) :=
        if useTable2 then vRSecondSegBrakeAltTable2 c else vRSecondSegBrakeAltTable1 c in
      let vRDeltaAlt :=
        pressureAlt p
        * ((tow i / 1000) * vRAltFactor1 + vRAltFactor2)
        * (adjustedTora p * vRAltFactor3 + vRAltFactor4) in
      let '(vRSlopeFactor1, vRSlopeFactor2) := vRSecondSegBrakeSlopeFactors c in
      let vRDeltaSlope :=
        slope i * adjustedTora p * ((tow i / 1000) * vRSlopeFactor1 + vRSlopeFactor2) in
      let '(vRWindFactor1, vRWindFactor2) :=
        if headwind p >=? 0
        then vRSecondSegBrakeHeadwindFactors c
        else vRSecondSegBrakeTailwindFactors c in
      let vRDeltaWind := headwind p * ((tow i / 1000) * vRWindFactor1 + vRWindFactor2) in
      let vR := vRBase + vRDeltaRunway + vRDeltaAlt + vRDeltaSlope + vRDeltaWind in
      (* v1; the source notes a temporary workaround here *)
      let v1 := calculateSecondSegBrakeV1 c result useTable2 in
      let v1 :=
        if useTable2 && (v2 - v1 >? 8)
        then calculateSecondSegBrakeV1 c result false
        else v1 in
      (v1, vR, v2)
  end.

Definition calculateDryVSpeeds (c : Conf) (result : TakeoffPerformanceResult)
    (applyForwardCgSpeedCorrection : bool) : TakeoffPerformanceResult :=
  let '(v1, vR, v2) := dryVSpeedsRaw c result applyForwardCgSpeedCorrection in
  let '(result, (dryV1, dryVR, dryV2)) := reconcileVSpeeds c result v1 vR v2 in
  setIntermediateSpeeds (Some {| dryV1 := dryV1; dryVR := dryVR; dryV2 := dryV2 |}) result.

(** The speed table of a contaminated runway; the [switch] of
    [calculateVSpeeds] has no case for 30 mm of wet snow and throws in its
    [default] branch. *)
Definition contaminatedVSpeeds (runwayCondition : RC.t)
    : option (Conf -> LerpVectorLookupTable) :=
  match runwayCondition with
  | RC.Contaminated6mmWater => Some vSpeedsContaminated6mmWater
  | RC.Contaminated13mmWater => Some vSpeedsContaminated13mmWater
  | RC.Contaminated6mmSlush => Some vSpeedsContaminated6mmSlush
  | RC.Contaminated13mmSlush => Some vSpeedsContaminated13mmSlush
  | RC.ContaminatedCompactedSnow => Some vSpeedsContaminatedCompactedSnow
  | RC.Contaminated5mmWetSnow => Some vSpeedsContaminated5mmWetSnow
  | RC.Contaminated15mmWetSnow => Some vSpeedsContaminated15mmWetSnow
  | RC.Contaminated10mmDrySnow => Some vSpeedsContaminated10mmDrySnow
  | RC.Contaminated100mmDrySnow => Some vSpeedsContaminated100mmDrySnow
  | _ => None
  end.

Definition calculateVSpeeds (c : Conf) (result : TakeoffPerformanceResult)
    (applyForwardCgSpeedCorrection : bool) (tvmcg : num)
    : outcome TakeoffPerformanceResult :=
  match runwayCondition (inputs result) with
  | RC.Dry =>
      let result := calculateDryVSpeeds c result applyForwardCgSpeedCorrection in
      Ok (setSpeeds (option_map dryV1 (intermediateSpeeds result))
            (option_map dryVR (intermediateSpeeds result))
            (option_map dryV2 (intermediateSpeeds result)) result)
  | RC.Wet =>
      let result := calculateDryVSpeeds c result applyForwardCgSpeedCorrection in
      match intermediateSpeeds result with
      | None => Throw "No dry speeds!"
      | Some speeds =>
          let i := inputs result in
          let p := params result in
          (* tvmcg is already calculated when we calculate MTOW.  Each
             [get] writes its vector to the one buffer [vec4Cache] and
             returns that buffer: [v1Factors], [vRFactors] and [v2Factors]
             are the same array, which holds what the last [get] has left
             in it. *)
          let buffer :=
            Lerp.getInto vec4Cache
              ((if oat i >? tvmcg
                then wetV1AdjustmentFactorsAboveTvmcg
                else wetV1AdjustmentFactorsAtOrBelowTvmcg) c)
              (headwind p) in
          let buffer :=
            if oat i >? tvmcg then buffer
            else Lerp.getInto buffer (wetVRAdjustmentFactorsAtOrBelowTvmcg c) (headwind p) in
          let buffer :=
            if oat i >? tvmcg then buffer
            else Lerp.getInto buffer (wetV2AdjustmentFactorsAtOrBelowTvmcg c) (headwind p) in
          let v1Factors := buffer in
          let vRFactors := if oat i >? tvmcg then None else Some buffer in
          let v2Factors := if oat i >? tvmcg then None else Some buffer in
          let wetV1Adjustment := wetAdjustment v1Factors (lengthAltCoef p) in
          let wetVRAdjustment :=
            match vRFactors with
            | Some f => wetAdjustment f (lengthAltCoef p)
            | None => 0
            end in
          let wetV2Adjustment :=
            match v2Factors with
            | Some f => wetAdjustment f (lengthAltCoef p)
            | None => 0
            end in
          let '(result, (v1, vR, v2)) :=
            reconcileVSpeeds c result
              (dryV1 speeds - wetV1Adjustment)
              (dryVR speeds - wetVRAdjustment)
              (dryV2 speeds - wetV2Adjustment) in
          Ok (setSpeeds (Some v1) (Some vR) (Some v2) result)
      end
  | _ =>
      (* otherwise the runway is contaminated *)
      match contaminatedVSpeeds (runwayCondition (inputs result)) with
      | None => Throw "Invalid runway condition"
      | Some contamVSpeeds =>
          let speeds := Lerp.getVector (contamVSpeeds c) (tow (inputs result)) in
          let '(result, (v1, vR, v2)) :=
            reconcileVSpeeds c result
              (Lerp.at_ speeds 0) (Lerp.at_ speeds 1) (Lerp.at_ speeds 2) in
          Ok (setSpeeds (Some v1) (Some vR) (Some v2) result)
      end
  end.

(** *** Maximum takeoff weight *)

(** The three tables of a contaminated runway that the [switch] of
    [calculateTakeoffPerformance] selects: weight correction, MTOW and
    minimum corrected weight. *)
Definition contaminatedTables (runwayCondition : RC.t)
    : option ((Conf -> LerpLookupTable) * (Conf -> LerpLookupTable) * (Conf -> Q)) :=
  match runwayCondition with
  | RC.Contaminated6mmWater =>
      Some (weightCorrectionContaminated6mmWater, mtowContaminated6mmWater,
            minCorrectedTowContaminated6mmWater)
  | RC.Contaminated13mmWater =>
      Some (weightCorrectionContaminated13mmWater, mtowContaminated13mmWater,
            minCorrectedTowContaminated13mmWater)
  | RC.Contaminated6mmSlush =>
      Some (weightCorrectionContaminated6mmSlush, mtowContaminated6mmSlush,
            minCorrectedTowContaminated6mmSlush)
  | RC.Contaminated13mmSlush =>
      Some (weightCorrectionContaminated13mmSlush, mtowContaminated13mmSlush,
            minCorrectedTowContaminated13mmSlush)
  | RC.ContaminatedCompactedSnow =>
      Some (weightCorrectionContaminatedCompactedSnow, mtowContaminatedCompactedSnow,
            minCorrectedTowContaminatedCompactedSnow)
  | RC.Contaminated5mmWetSnow =>
      Some (weightCorrectionContaminated5mmWetSnow, mtowContaminated5mmWetSnow,
            minCorrectedTowContaminated5mmWetSnow)
  | RC.Contaminated15mmWetSnow =>
      Some (weightCorrectionContaminated15mmWetSnow, mtowContaminated15mmWetSnow,
            minCorrectedTowContaminated15mmWetSnow)
  | RC.Contaminated30mmWetSnow =>
      Some (weightCorrectionContaminated30mmWetSnow, mtowContaminated30mmWetSnow,
            minCorrectedTowContaminated30mmWetSnow)
  | RC.Contaminated10mmDrySnow =>
      Some (weightCorrectionContaminated10mmDrySnow, mtowContaminated10mmDrySnow,
            minCorrectedTowContaminated10mmDrySnow)
  | RC.Contaminated100mmDrySnow =>
      Some (weightCorrectionContaminated100mmDrySnow, mtowContaminated100mmDrySnow,
            minCorrectedTowContaminated100mmDrySnow)
  | RC.Dry | RC.Wet => None
  end.

(** The wet adjustment of the takeoff weight. *)
Definition wetMtowAdjustment (c : Conf) (result : TakeoffPerformanceResult) (tvmcg : num)
    : num :=
  let factors :=
    Lerp.getInto vec4Cache
      ((if oat (inputs result) >? tvmcg
        then wetTowAdjustmentFactorsAboveTvmcg
        else wetTowAdjustmentFactorsAtOrBelowTvmcg) c)
      (headwind (params result)) in
  wetAdjustment factors (lengthAltCoef (params result)).

(** The local variable [mtow] for the runway condition, and the result with
    its error set to [TooLight] where the corrected weight is below the
    minimum of a contaminated runway. *)
Definition resolveMtow (c : Conf) (result : TakeoffPerformanceResult) (dryMtow tvmcg : num)
    : outcome (num * TakeoffPerformanceResult) :=
  match runwayCondition (inputs result) with
  | RC.Dry => Ok (dryMtow, result)
  | RC.Wet => Ok (dryMtow - wetMtowAdjustment c result tvmcg, result)
  | _ =>
      match contaminatedTables (runwayCondition (inputs result)) with
      | None => Throw "Invalid runway condition"
      | Some (correctionFactors, mtowFactors, minCorrectedWeight) =>
          let correctedWeight :=
            dryMtow - Lerp.get (correctionFactors c) (adjustedTora (params result)) in
          let mtow := Lerp.get (mtowFactors c) correctedWeight in
          let minimumTow := minCorrectedWeight c in
          Ok (mtow,
              if correctedWeight <? minimumTow then setError E.TooLight result else result)
      end
  end.

(** The stabiliser trim for a CG, in exact arithmetic.  The program
    computes it in double precision, where the interpolation and the
    rounding to a multiple of 0.1 carry a rounding error: its value can
    differ from the one below in the last binary digit, and by one step of
    0.1 for a CG whose interpolated trim lies half way between two
    steps. *)
Definition calculateStabTrim (cg : Q) : num :=
  MathUtils.round (MathUtils.lerp cg 17 40 3.8 (-2.5) true true) 0.1.

(** The inputs of the evaluation with 15 knots of tailwind and without
    forced TOGA that [calculateTakeoffPerformance] makes for a TOGA
    takeoff. *)
Definition tailwindInputs (i : TakeoffPerformanceInputs) : TakeoffPerformanceInputs :=
  {| tow := tow i; forwardCg := forwardCg i; cg := cg i; conf := conf i; tora := tora i;
     slope := slope i; lineupAngle := lineupAngle i; wind := -15;
     elevation := elevation i; qnh := qnh i; oat := oat i; antiIce := antiIce i;
     packs := packs i; forceToga := false; runwayCondition := runwayCondition i |}.

Section Calculator.

(** [Math.pow], used for the pressure altitude only. *)
Variable pow : num -> num -> num.

Definition calculatePressureAltitude (elevation qnh : num) : num :=
  elevation + 145442.15 * (1 - pow (qnh / 1013.25) 0.190263).

Definition calculateParams (i : TakeoffPerformanceInputs) : TakeoffPerformanceParameters :=
  let isaTemp := calculateIsaTemp (elevation i) in
  let tRef := calculateTref (elevation i) in
  let pressureAlt := calculatePressureAltitude (elevation i) (qnh i) in
  let tMax := calculateTmax pressureAlt in
  let tFlexMax := calculateTflexMax isaTemp in
  (* headwind credit is limited to 45 knots *)
  let headwind := Math.min maxHeadwind (wind i) in
  {| adjustedTora := tora i - lineUpDistances (lineupAngle i);
     pressureAlt := pressureAlt;
     isaTemp := isaTemp;
     tRef := tRef;
     tMax := tMax;
     tFlexMax := tFlexMax;
     headwind := headwind;
     flexLimitingFactor := None |}.

(** The result once [inputs], [params] and [error] are assigned. *)
Definition initialResult (i : TakeoffPerformanceInputs) : TakeoffPerformanceResult :=
  let p := calculateParams i in
  {| inputs := i; params := p; error := checkInputs i p; limits := None;
     oatLimitingFactor := None; tRefLimitingFactor := None; tMaxLimitingFactor := None;
     tFlexMaxLimitingFactor := None; tvmcg := None; mtow := None; flex := None;
     v1 := None; vR := None; v2 := None; intermediateSpeeds := None; stabTrim := None |}.

(** The branch [result.error === None] of [calculateTakeoffPerformance];
    [self] is the method itself, for the tailwind evaluation. *)
Definition performance
    (self : TakeoffPerformanceInputs -> outcome TakeoffPerformanceResult)
    (c : Conf) (result : TakeoffPerformanceResult) : outcome TakeoffPerformanceResult :=
  let i := inputs result in
  let l := allWeightLimits c result in
  let result := setLimits l result in
  oatLF <- getLimitingFactor KeyOatLimit result ;;
  tRefLF <- getLimitingFactor KeyTRefLimit result ;;
  tMaxLF <- getLimitingFactor KeyTMaxLimit result ;;
  tFlexMaxLF <- getLimitingFactor KeyTFlexMaxLimit result ;;
  let result := setLimitingFactors oatLF tRefLF tMaxLF tFlexMaxLF result in
  let dryMtow := oatLimit (limitOf l tRefLF) in
  let tvmcg := calculateTvmcg c (params result) in
  let result := setTvmcg tvmcg result in
  resolved <- resolveMtow c result dryMtow tvmcg ;;
  let '(mtow, result) := resolved in
  let result := setMtow mtow result in
  let applyForwardCgWeightCorrection :=
    forwardCg i
    && match oatLF with
       | LF.Runway | LF.Vmcg => true
       | _ => false
       end in
  let applyForwardCgSpeedCorrection :=
    applyForwardCgWeightCorrection && (mtow <=? 473114) in
  let mtow :=
    if applyForwardCgWeightCorrection then
      let '(cgFactor0, cgFactor1) := cgFactors c in
      mtow + Math.max 0 (cgFactor0 * mtow + cgFactor1)
    else mtow in
  if mtow >=? tow i then
    let result := setFlex None (flexLimitingFactor (params result)) result in
    if forceToga i then
      (* find the speeds for a flex takeoff with 15 knot tailwind *)
      tailwindResult <- self (tailwindInputs i) ;;
      if E.eqb (error tailwindResult) E.None then
        Ok (setIntermediateSpeeds (intermediateSpeeds tailwindResult)
              (setSpeeds (v1 tailwindResult) (vR tailwindResult) (v2 tailwindResult)
                 result))
      else
        (* else we use the higher speeds below... *)
        calculateVSpeeds c result applyForwardCgSpeedCorrection tvmcg
    else if negb (isContaminated (runwayCondition i)) then
      flexed <- calculateFlexTemp c result tvmcg ;;
      calculateVSpeeds c (setFlex (fst flexed) (snd flexed) result)
        applyForwardCgSpeedCorrection tvmcg
    else calculateVSpeeds c result applyForwardCgSpeedCorrection tvmcg
  else Ok (setError E.TooHeavy result).

Definition calculateTakeoffPerformanceWith
    (self : TakeoffPerformanceInputs -> outcome TakeoffPerformanceResult)
    (i : TakeoffPerformanceInputs) : outcome TakeoffPerformanceResult :=
  let result := initialResult i in
  result <-
    (if E.eqb (error result) E.None then
       match confOf (conf i) with
       | Some c => performance self c result
       | None => Throw "TypeError"
       end
     else Ok result) ;;
  Ok (setStabTrim (option_map calculateStabTrim (cg i)) result).

(** The method calls itself for the tailwind evaluation only, with
    [forceToga] false, and that evaluation makes no further call: two
    levels unfold the recursion. *)
Definition calculateTakeoffPerformance
    : TakeoffPerformanceInputs -> outcome TakeoffPerformanceResult :=
  calculateTakeoffPerformanceWith
    (calculateTakeoffPerformanceWith (fun _ => Throw "no further call")).

(** *** The best configuration *)

Definition withConf (conf' : Z) (i : TakeoffPerformanceInputs) : TakeoffPerformanceInputs :=
  {| tow := tow i; forwardCg := forwardCg i; cg := cg i; conf := conf'; tora := tora i;
     slope := slope i; lineupAngle := lineupAngle i; wind := wind i;
     elevation := elevation i; qnh := qnh i; oat := oat i; antiIce := antiIce i;
     packs := packs i; forceToga := forceToga i; runwayCondition := runwayCondition i |}.

(** The comparison function given to [sort]: the highest flex temperature
    first and, for the same flex, the lowest V1 first. *)
Definition compareResults (a b : TakeoffPerformanceResult) : num :=
  if Num.opt_eqb (flex a) (flex b)
  then Num.orElse (v1 a) 0 - Num.orElse (v1 b) 0
  else Num.orElse (flex b) 0 - Num.orElse (flex a) 0.

(** [Array.prototype.sort] is stable; it is modelled by insertion from
    the left, an element going before the first one that the comparison
    puts after it. *)
Fixpoint insertResult (x : TakeoffPerformanceResult) (l : list TakeoffPerformanceResult)
    : list TakeoffPerformanceResult :=
  match l with
  | [] => [x]
  | y :: l' => if compareResults x y <? 0 then x :: y :: l' else y :: insertResult x l'
  end.

Definition sortResults (l : list TakeoffPerformanceResult) : list TakeoffPerformanceResult :=
  fold_left (fun sorted x => insertResult x sorted) l [].

(** [JSON.parse(JSON.stringify(result))]: the copy has the fields of the
    result; a [NaN] is written as [null], which the model does not tell
    from [NaN]. *)
Definition deepCopy (result : TakeoffPerformanceResult) : TakeoffPerformanceResult :=
  result.

Definition calculateTakeoffPerformanceOptConf (i : TakeoffPerformanceInputs)
    : outcome TakeoffPerformanceResult :=
  r1 <- calculateTakeoffPerformance (withConf 1 i) ;;
  r2 <- calculateTakeoffPerformance (withConf 2 i) ;;
  r3 <- calculateTakeoffPerformance (withConf 3 i) ;;
  let results := [r1; r2; r3] in
  let filteredResults := filter (fun r => E.eqb (error r) E.None) results in
  match sortResults filteredResults with
  | [] =>
      (* if all the results failed, return the highest conf *)
      Ok (deepCopy r3)
  | best :: _ => Ok (deepCopy best)
  end.

End Calculator.

(** ** Definitions for the statements *)

(** The conditions of the validator as the specification lists them, each
    with the error of its violation. *)
Definition inputConditions (inputs : TakeoffPerformanceInputs)
    (params : TakeoffPerformanceParameters) : list (bool * E.t) :=
  [ ((conf inputs =? 1)%Z || (conf inputs =? 2)%Z || (conf inputs =? 3)%Z, E.InvalidData);
    (tow inputs <=? structuralMtow, E.StructuralMtow);
    (pressureAlt params <=? maxPressureAlt, E.MaximumPressureAlt);
    (oat inputs <=? tMax params, E.MaximumTemperature);
    (tow inputs >=? oew, E.OperatingEmptyWeight);
    (match cg inputs with
     | Some cg => isCgWithinLimits cg (tow inputs)
     | None => true
     end, E.CgOutOfLimits);
    ((- wind inputs)%Q <=? maxTailwind, E.MaximumTailwind);
    (Math.abs (slope inputs) <=? 2, E.MaximumRunwaySlope) ].

(** The error of the first condition that does not hold. *)
Fixpoint firstViolation (conditions : list (bool * E.t)) : E.t :=
  match conditions with
  | [] => E.None
  | (holds, e) :: rest => if holds then firstViolation rest else e
  end.

(** [Math.pow] at base 1, where it is exact ([1 ** e] is 1); [NaN]
    elsewhere.  It runs the calculator at the standard QNH of 1013.25 hPa,
    where the pressure altitude is the elevation. *)
Definition powAtOne (b e : num) : num :=
  match b, e with
  | Fin x, Fin _ => if Qeq_bool x 1 then 1 else NaN
  | _, _ => NaN
  end.

(** Inputs at standard QNH, sea level and ISA temperature, without slope,
    bleeds or CG. *)
Definition standardDay (tow' tora' wind' : Q) (conf' : Z) (condition : RC.t)
    (toga forward : bool) : TakeoffPerformanceInputs :=
  {| tow := tow'; forwardCg := forward; cg := None; conf := conf'; tora := tora';
     slope := 0; lineupAngle := Lineup0; wind := wind'; elevation := 0; qnh := 1013.25;
     oat := 15; antiIce := TakeoffAntiIceSetting.Off; packs := false; forceToga := toga;
     runwayCondition := condition |}.

(** The fields of a result that the computation of the speeds leaves as
    they are. *)
Definition core (r : TakeoffPerformanceResult) :=
  (inputs r, params r, limits r, oatLimitingFactor r, tRefLimitingFactor r,
   tMaxLimitingFactor r, tFlexMaxLimitingFactor r, tvmcg r, mtow r, flex r, stabTrim r).

(** The parameters that the speeds depend on are numbers. *)
Definition speedParamsFinite (p : TakeoffPerformanceParameters) : Prop :=
  Num.finite (adjustedTora p) /\ Num.finite (pressureAlt p) /\ Num.finite (headwind p).

(** An error that [reconcileVSpeeds] can assign. *)
Definition speedError (e : E.t) : Prop := e = E.VmcgVmcaLimits \/ e = E.MaximumTireSpeed.

(** The speeds of a result are integers in increasing order. *)
Definition speedsReconciled (r : TakeoffPerformanceResult) : Prop :=
  exists z1 zR z2 : Z,
    v1 r = Some (Fin (inject_Z z1))
    /\ vR r = Some (Fin (inject_Z zR))
    /\ v2 r = Some (Fin (inject_Z z2))
    /\ (z1 <= zR <= z2)%Z.

Definition isRunwayOrVmcg (f : LF.t) : bool :=
  match f with
  | LF.Runway | LF.Vmcg => true
  | _ => false
  end.

(** The weight that [calculateTakeoffPerformance] compares with the takeoff
    weight: the local variable [mtow] after the forward CG correction. *)
Definition forwardCgMtow (c : Conf) (applyForwardCgWeightCorrection : bool) (mtow : num)
    : num :=
  if applyForwardCgWeightCorrection then
    let '(cgFactor0, cgFactor1) := cgFactors c in
    mtow + Math.max 0 (cgFactor0 * mtow + cgFactor1)
  else mtow.

(** The result when limits, limiting factors and T-VMCG are assigned. *)
Definition weighed (c : Conf) (result : TakeoffPerformanceResult) : TakeoffPerformanceResult :=
  let l := allWeightLimits c result in
  setTvmcg (calculateTvmcg c (params result))
    (setLimitingFactors (limitingFactorAt KeyOatLimit l) (limitingFactorAt KeyTRefLimit l)
       (limitingFactorAt KeyTMaxLimit l) (limitingFactorAt KeyTFlexMaxLimit l)
       (setLimits l result)).

(** The dry MTOW of [calculateTakeoffPerformance]. *)
Definition dryMtowOf (c : Conf) (result : TakeoffPerformanceResult) : num :=
  let l := allWeightLimits c result in
  oatLimit (limitOf l (limitingFactorAt KeyTRefLimit l)).

(** The ways through the branch [mtow >= tow] of
    [calculateTakeoffPerformance], from the result [r2] that holds the MTOW
    to the result of the branch. *)
Inductive SpeedStage (self : TakeoffPerformanceInputs -> outcome TakeoffPerformanceResult)
    (c : Conf) (r2 : TakeoffPerformanceResult) (applySpeed : bool) (tv : num)
    : TakeoffPerformanceResult -> Prop :=
| StageToga (tw : TakeoffPerformanceResult) :
    forceToga (inputs r2) = true ->
    self (tailwindInputs (inputs r2)) = Ok tw ->
    error tw = E.None ->
    SpeedStage self c r2 applySpeed tv
      (setIntermediateSpeeds (intermediateSpeeds tw)
         (setSpeeds (v1 tw) (vR tw) (v2 tw)
            (setFlex None (flexLimitingFactor (params r2)) r2)))
| StageTogaOwnSpeeds (tw r : TakeoffPerformanceResult) :
    forceToga (inputs r2) = true ->
    self (tailwindInputs (inputs r2)) = Ok tw ->
    error tw <> E.None ->
    calculateVSpeeds c (setFlex None (flexLimitingFactor (params r2)) r2) applySpeed tv
    = Ok r ->
    SpeedStage self c r2 applySpeed tv r
| StageFlex (flexed : option num * option LF.t) (r : TakeoffPerformanceResult) :
    forceToga (inputs r2) = false ->
    isContaminated (runwayCondition (inputs r2)) = false ->
    calculateFlexTemp c (setFlex None (flexLimitingFactor (params r2)) r2) tv = Ok flexed ->
    calculateVSpeeds c
      (setFlex (fst flexed) (snd flexed)
         (setFlex None (flexLimitingFactor (params r2)) r2))
      applySpeed tv
    = Ok r ->
    SpeedStage self c r2 applySpeed tv r
| StageContaminated (r : TakeoffPerformanceResult) :
    forceToga (inputs r2) = false ->
    isContaminated (runwayCondition (inputs r2)) = true ->
    calculateVSpeeds c (setFlex None (flexLimitingFactor (params r2)) r2) applySpeed tv
    = Ok r ->
    SpeedStage self c r2 applySpeed tv r.

(** The errors of [checkInputs]. *)
Definition validationError (e : E.t) : Prop :=
  match e with
  | E.InvalidData | E.StructuralMtow | E.MaximumPressureAlt | E.MaximumTemperature
  | E.OperatingEmptyWeight | E.CgOutOfLimits | E.MaximumTailwind
  | E.MaximumRunwaySlope => True
  | _ => False
  end.


(** The numeric parameters. *)
Definition numbers (p : TakeoffPerformanceParameters) :=
  (adjustedTora p, pressureAlt p, isaTemp p, tRef p, tMax p, tFlexMax p, headwind p).

(** The fields of a result that neither the flex temperature nor the speeds
    change. *)
Definition frame (r : TakeoffPerformanceResult) :=
  (inputs r, numbers (params r), limits r, oatLimitingFactor r, tRefLimitingFactor r,
   tMaxLimitingFactor r, tFlexMaxLimitingFactor r, tvmcg r, mtow r).

(** What makes a flex temperature [f] usable for the result [r]. *)
Definition flexConditions (r : TakeoffPerformanceResult) (f : num) : Prop :=
  isContaminated (runwayCondition (inputs r)) = false
  /\ forceToga (inputs r) = false
  /\ (exists l tRefLF,
        limits r = Some l /\ tRefLimitingFactor r = Some tRefLF
        /\ (tow (inputs r) <? tRefLimit (limitOf l tRefLF)) = true)
  /\ (f >? oat (inputs r)) = true.

(** The quantities of the tire-speed stage of [reconcileVSpeeds]: V2 once
    raised to its floors and rounded, the floor of VR, VR once raised to that
    floor, rounded and held at or below V2, and the ceiling of VR under the
    tire speed. *)
Definition correctedV2 (c : Conf) (result : TakeoffPerformanceResult) (v2 : num) : num :=
  let p := params result in
  Math.round
    (Math.max3 v2
       (Math.ceil (Lerp.get (minimumV2Vmc c) (pressureAlt p)))
       (Math.ceil (Lerp.get2 (minimumV2Vmu c) (pressureAlt p) (tow (inputs result))))).

Definition minVrVmcOf (result : TakeoffPerformanceResult) : num :=
  Math.ceil (Lerp.get minimumVrVmc (pressureAlt (params result))).

Definition cappedVR (c : Conf) (result : TakeoffPerformanceResult) (vR v2 : num) : num :=
  Math.min (Math.round (Math.max vR (minVrVmcOf result))) (correctedV2 c result v2).

Definition maxVrOf (v2Corrected : num) : num := Math.trunc (195 - (v2Corrected - 195)).

(** The keys of the comparison of [calculateTakeoffPerformanceOptConf]:
    [r.flex ?? 0] and [r.v1 ?? 0]. *)
Definition flexOrZero (r : TakeoffPerformanceResult) : num := Num.orElse (flex r) 0.

Definition v1OrZero (r : TakeoffPerformanceResult) : num := Num.orElse (v1 r) 0.

(** A result whose V1 is a number and whose flex temperature, if it has
    one, is a number. *)
Definition rankable (r : TakeoffPerformanceResult) : Prop :=
  (exists q1 : Q, v1 r = Some (Fin q1))
  /\ (flex r = None \/ exists qf : Q, flex r = Some (Fin qf)).

(** [comparefn(a, b) < 0]: the sort puts [a] before [b]. *)
Definition before (a b : TakeoffPerformanceResult) : bool := compareResults a b <? 0.

(** The first element of the sorted list is among the elements seen and
    none of them goes before it. *)
Definition headInv (sorted seen : list TakeoffPerformanceResult) : Prop :=
  match sorted with
  | [] => seen = []
  | h :: _ => In h seen /\ forall r, In r seen -> before r h = false
  end.

(** The samples of a vector table all have [n] components, and there is at
    least one. *)
Definition width (n : nat) (t : LerpVectorLookupTable) : Prop :=
  t <> [] /\ Forall (fun row => length (fst row) = n) t.

(** ** Definitions for the further properties *)

(** A sample of a table of two-component vectors whose components lie
    within the given bounds. *)
Definition row2Within (lo0 hi0 lo1 hi1 : Q) (v : list Q) : Prop :=
  exists a b : Q, v = [a; b] /\ (lo0 <= a <= hi0)%Q /\ (lo1 <= b <= hi1)%Q.

(** The floors of V1 and V2 in [reconcileVSpeeds]: the minimum control
    speeds at the pressure altitude and, for V2, the minimum unstick speed
    at the pressure altitude and takeoff weight, rounded up. *)
Definition minV1VmcOf (result : TakeoffPerformanceResult) : num :=
  Math.ceil (Lerp.get minimumV1Vmc (pressureAlt (params result))).

Definition minV2VmcOf (c : Conf) (result : TakeoffPerformanceResult) : num :=
  Math.ceil (Lerp.get (minimumV2Vmc c) (pressureAlt (params result))).

Definition minV2VmuOf (c : Conf) (result : TakeoffPerformanceResult) : num :=
  Math.ceil (Lerp.get2 (minimumV2Vmu c) (pressureAlt (params result)) (tow (inputs result))).

(** The temperature and wind corrections of a [LimitWeight] at a key. *)
Definition deltaTempAt (temp : LimitKey) (w : LimitWeight) : num :=
  match temp with
  | KeyOatLimit => oatDeltaTemp w
  | KeyTRefLimit => tRefDeltaTemp w
  | KeyTMaxLimit => tMaxDeltaTemp w
  | KeyTFlexMaxLimit => tFlexMaxDeltaTemp w
  end.

Definition deltaWindAt (temp : LimitKey) (w : LimitWeight) : num :=
  match temp with
  | KeyOatLimit => oatDeltaWind w
  | KeyTRefLimit => tRefDeltaWind w
  | KeyTMaxLimit => tMaxDeltaWind w
  | KeyTFlexMaxLimit => tFlexMaxDeltaWind w
  end.

(** The temperatures that the loop of [calculateFlexTemp] scans:
    [iterFrom], [iterFrom + 1], ... *)
Definition scanned (iterFrom : num) (k : nat) : num := Nat.iter k (fun t => t + 1) iterFrom.

(** The test of the loop at the temperature [t]: the takeoff weight is at
    most the two limit weights at [t]. *)
Definition flexAllowed (c : Conf) (result : TakeoffPerformanceResult)
    (fromLimitingFactor : LF.t) (fromLimitingWeights : LimitWeight)
    (toLimitingFactor : LF.t) (toLimitingWeights : LimitWeight) (t : num) : bool :=
  tow (inputs result)
  <=? Math.min (calculateFlexTow c result fromLimitingFactor fromLimitingWeights t)
        (calculateFlexTow c result toLimitingFactor toLimitingWeights t).

(** What a call gives on a runway with 30 mm of wet snow: the exception of
    [calculateVSpeeds], or a result that has a validation error or is
    TooHeavy. *)
Definition snowOutcome (o : outcome TakeoffPerformanceResult) : Prop :=
  o = Throw "Invalid runway condition"
  \/ exists r, o = Ok r /\ (validationError (error r) \/ error r = E.TooHeavy).

(** The temperature of a key of [LimitWeight]. *)
Definition temperatureAt (temp : LimitKey) (result : TakeoffPerformanceResult) : num :=
  match temp with
  | KeyOatLimit => oat (inputs result)
  | KeyTRefLimit => tRef (params result)
  | KeyTMaxLimit => tMax (params result)
  | KeyTFlexMaxLimit => tFlexMax (params result)
  end.

(** The speeds of a result are the dry speeds that it keeps in
    [intermediateSpeeds]. *)
Definition drySpeedsKept (r : TakeoffPerformanceResult) : Prop :=
  v1 r = option_map dryV1 (intermediateSpeeds r)
  /\ vR r = option_map dryVR (intermediateSpeeds r)
  /\ v2 r = option_map dryV2 (intermediateSpeeds r).

(** The tables of the wet runway, which [calculateTakeoffPerformance],
    [calculateFlexTemp] and [calculateVSpeeds] look up with the buffer
    [vec4Cache]. *)
Definition wetTables : list (Conf -> LerpVectorLookupTable) :=
  [wetTowAdjustmentFactorsAtOrBelowTvmcg; wetTowAdjustmentFactorsAboveTvmcg;
   wetFlexAdjustmentFactorsAtOrBelowTvmcg; wetFlexAdjustmentFactorsAboveTvmcg;
   wetV1AdjustmentFactorsAtOrBelowTvmcg; wetV1AdjustmentFactorsAboveTvmcg;
   wetVRAdjustmentFactorsAtOrBelowTvmcg; wetV2AdjustmentFactorsAtOrBelowTvmcg].

(** * Properties *)

(** ** Numbers *)

Section NumFacts.

Lemma Qlt_bool_iff (x y : Q) : Num.Qlt_bool x y = true <-> (x < y)%Q.
Proof.
  unfold Num.Qlt_bool. rewrite negb_true_iff.
  split; intro H.
  - apply Qnot_le_lt. intro Hle. apply Qle_bool_iff in Hle. congruence.
  - destruct (Qle_bool y x) eqn:E; [|reflexivity].
    apply Qle_bool_iff in E. exfalso. exact (Qlt_not_le _ _ H E).
Qed.

Lemma leb_iff (x y : Q) : (Fin x <=? Fin y) = true <-> (x <= y)%Q.
Proof. apply Qle_bool_iff. Qed.

Lemma ltb_iff (x y : Q) : (Fin x <? Fin y) = true <-> (x < y)%Q.
Proof. apply Qlt_bool_iff. Qed.

Lemma geb_iff (x y : Q) : (Fin x >=? Fin y) = true <-> (y <= x)%Q.
Proof. apply Qle_bool_iff. Qed.

Lemma gtb_iff (x y : Q) : (Fin x >? Fin y) = true <-> (y < x)%Q.
Proof. apply Qlt_bool_iff. Qed.

(** On finite numbers [>] is the negation of [<=]. *)
Lemma gtb_negb_leb (a b : num) :
  Num.finite a -> Num.finite b -> (a >? b) = negb (a <=? b).
Proof.
  destruct a as [|x], b as [|y]; simpl; first [tauto | intros _ _; reflexivity].
Qed.

Lemma ltb_negb_geb (a b : num) :
  Num.finite a -> Num.finite b -> (a <? b) = negb (a >=? b).
Proof.
  destruct a as [|x], b as [|y]; simpl; first [tauto | intros _ _; reflexivity].
Qed.

Lemma finite_Fin (a : num) : Num.finite a -> exists q, a = Fin q.
Proof. destruct a; simpl; [tauto | eauto]. Qed.

Lemma finite_lift2 f a b : Num.finite a -> Num.finite b -> Num.finite (Num.lift2 f a b).
Proof. destruct a, b; simpl; tauto. Qed.

Lemma finite_lift1 f a : Num.finite a -> Num.finite (Num.lift1 f a).
Proof. destruct a; simpl; tauto. Qed.

Lemma finite_div_const a (q : Q) :
  Num.finite a -> Qeq_bool q 0 = false -> Num.finite (a / q).
Proof. destruct a; simpl; [tauto|]. intros _ ->. exact I. Qed.

Lemma cmp_true_finite test a b : Num.cmp test a b = true -> Num.finite a /\ Num.finite b.
Proof. destruct a, b; simpl; try discriminate. tauto. Qed.

End NumFacts.

Create HintDb fin.
#[export] Hint Resolve finite_lift2 finite_lift1 finite_div_const : fin.

(** ** Input validation *)

Lemma tailwind_test (w m : Q) : (Fin w <? Fin (- m)%Q) = negb (Fin (- w)%Q <=? Fin m).
Proof.
  destruct (Fin (- w)%Q <=? Fin m) eqn:E; simpl.
  - apply not_true_is_false. intro H. apply ltb_iff in H. apply leb_iff in E. lra.
  - apply ltb_iff. apply not_true_iff_false in E. rewrite leb_iff in E. lra.
Qed.

(** Claim C6.  When the pressure altitude and Tmax are numbers,
    [checkInputs] returns the error of the first of the eight conditions of
    [inputConditions], in their order, that does not hold: configuration 1,
    2 or 3; takeoff weight at most the structural MTOW; pressure altitude
    at most the maximum certified; OAT at most Tmax; takeoff weight at
    least the operating empty weight; a supplied CG within its envelope;
    tailwind at most the maximum certified; slope of at most 2 % either
    way.  It returns None when they all hold. *)
Theorem checkInputs_first_violation (inputs : TakeoffPerformanceInputs)
    (params : TakeoffPerformanceParameters) :
  Num.finite (pressureAlt params) ->
  Num.finite (tMax params) ->
  checkInputs inputs params = firstViolation (inputConditions inputs params).
Proof.
  intros Hpa Htm. unfold checkInputs, inputConditions, firstViolation.
  rewrite (gtb_negb_leb (tow inputs) structuralMtow) by exact I.
  rewrite (gtb_negb_leb (pressureAlt params) maxPressureAlt) by (exact I || assumption).
  rewrite (gtb_negb_leb (oat inputs) (tMax params)) by (exact I || assumption).
  rewrite (ltb_negb_geb (tow inputs) oew) by exact I.
  rewrite tailwind_test.
  rewrite (gtb_negb_leb (Math.abs (slope inputs)) 2) by exact I.
  destruct (conf inputs =? 1)%Z, (conf inputs =? 2)%Z, (conf inputs =? 3)%Z; simpl;
    try reflexivity;
    repeat match goal with
      | |- context [match cg inputs with _ => _ end] => destruct (cg inputs); simpl
      | |- context [if negb ?b then _ else _] => destruct b; simpl; try reflexivity
      | |- context [if ?b then _ else _] => destruct b; simpl; try reflexivity
      end.
Qed.

(** ** The limiting factor *)

Lemma deltaBleed_finite (i : TakeoffPerformanceInputs) : exists e, deltaBleed i = Fin e.
Proof.
  unfold deltaBleed.
  destruct (TakeoffAntiIceSetting.eqb _ _), (packs i); simpl; eauto.
Qed.

(** Each ceiling is its "no bleed" value minus the bleed correction, the
    same for the four factors. *)
Lemma weightAt_noBleed (temp : LimitKey) (c : Conf) (result : TakeoffPerformanceResult)
    (g : LF.t) :
  weightAt temp (limitOf (allWeightLimits c result) g)
  = weightNoBleedAt temp (limitOf (allWeightLimits c result) g) - deltaBleed (inputs result).
Proof.
  destruct g; simpl; unfold calculateWeightLimits;
    match goal with |- context [altFactors ?f c] => destruct (altFactors f c) end;
    destruct temp; reflexivity.
Qed.

Lemma limitingStep_first (temp : LimitKey) (l : Limits) (f g : LF.t) (w : Q) :
  weightAt temp (limitOf l g) = Fin w ->
  limitingStep temp l (None, f) g = (Some (Fin w), g).
Proof. unfold limitingStep. intros ->. reflexivity. Qed.

Lemma limitingStep_next (temp : LimitKey) (l : Limits) (m : Q) (f g : LF.t) (w : Q) :
  weightAt temp (limitOf l g) = Fin w ->
  limitingStep temp l (Some (Fin m), f) g
  = if Num.Qlt_bool w m then (Some (Fin w), g) else (Some (Fin m), f).
Proof. unfold limitingStep. intros ->. reflexivity. Qed.

(** Claim C7.  For each of the four temperature keys, when the four
    no-bleed ceilings at that key are numbers, [getLimitingFactor] returns a
    factor whose no-bleed ceiling is the least of the four and is strictly
    below the ceiling of every factor before it in the order Runway,
    SecondSegment, BrakeEnergy, Vmcg, so that ties go to the first.  The
    code compares the ceilings with bleed, which are the no-bleed ceilings
    less a deduction that is the same for the four factors. *)
Theorem getLimitingFactor_minimal (temp : LimitKey) (c : Conf)
    (result : TakeoffPerformanceResult) :
  let l := allWeightLimits c result in
  (forall g, Num.finite (weightNoBleedAt temp (limitOf l g))) ->
  exists f,
    getLimitingFactor temp (setLimits l result) = Ok f
    /\ (forall g,
          (weightNoBleedAt temp (limitOf l f) <=? weightNoBleedAt temp (limitOf l g)) = true)
    /\ (forall g,
          (LF.index g < LF.index f)%nat ->
          (weightNoBleedAt temp (limitOf l f) <? weightNoBleedAt temp (limitOf l g)) = true).
Proof.
  intros l Hfin.
  destruct (finite_Fin _ (Hfin LF.Runway)) as [a Ea].
  destruct (finite_Fin _ (Hfin LF.SecondSegment)) as [b Eb].
  destruct (finite_Fin _ (Hfin LF.BrakeEnergy)) as [d Ed].
  destruct (finite_Fin _ (Hfin LF.Vmcg)) as [v Ev].
  destruct (deltaBleed_finite (inputs result)) as [e Ee].
  assert (Wa : weightAt temp (limitOf l LF.Runway) = Fin (a - e)).
  { unfold l. rewrite weightAt_noBleed. fold l. rewrite Ea, Ee. reflexivity. }
  assert (Wb : weightAt temp (limitOf l LF.SecondSegment) = Fin (b - e)).
  { unfold l. rewrite weightAt_noBleed. fold l. rewrite Eb, Ee. reflexivity. }
  assert (Wd : weightAt temp (limitOf l LF.BrakeEnergy) = Fin (d - e)).
  { unfold l. rewrite weightAt_noBleed. fold l. rewrite Ed, Ee. reflexivity. }
  assert (Wv : weightAt temp (limitOf l LF.Vmcg) = Fin (v - e)).
  { unfold l. rewrite weightAt_noBleed. fold l. rewrite Ev, Ee. reflexivity. }
  unfold getLimitingFactor. cbn [limits setLimits].
  eexists. split; [reflexivity|].
  unfold limitingFactorAt, LF.values. cbn [fold_left].
  rewrite (limitingStep_first temp l _ _ _ Wa).
  rewrite (limitingStep_next temp l _ _ _ _ Wb).
  destruct (Num.Qlt_bool (b - e) (a - e)) eqn:C1;
    [apply Qlt_bool_iff in C1 | apply not_true_iff_false in C1; rewrite Qlt_bool_iff in C1];
    rewrite (limitingStep_next temp l _ _ _ _ Wd);
    match goal with |- context [if Num.Qlt_bool ?x ?y then _ else _] =>
      destruct (Num.Qlt_bool x y) eqn:C2;
      [apply Qlt_bool_iff in C2 | apply not_true_iff_false in C2; rewrite Qlt_bool_iff in C2]
    end;
    rewrite (limitingStep_next temp l _ _ _ _ Wv);
    match goal with |- context [if Num.Qlt_bool ?x ?y then _ else _] =>
      destruct (Num.Qlt_bool x y) eqn:C3;
      [apply Qlt_bool_iff in C3 | apply not_true_iff_false in C3; rewrite Qlt_bool_iff in C3]
    end;
    cbn [snd];
    (split; intro g; [|intro Hlt]; destruct g; cbn [LF.index] in *; try lia;
     rewrite ?Ea, ?Eb, ?Ed, ?Ev; first [apply leb_iff | apply ltb_iff]; lra).
Qed.

(** ** Lookup tables *)

Lemma get_finite (t : LerpLookupTable) (x : Q) :
  t <> [] -> exists q, Lerp.get t (Fin x) = Fin q.
Proof.
  destruct t as [|[v0 k0] rest]; [congruence|]. intros _. simpl. eauto.
Qed.

Lemma get2_finite (t : LerpLookupTable2) (x y : Q) :
  t <> [] -> exists q, Lerp.get2 t (Fin x) (Fin y) = Fin q.
Proof.
  destruct t as [|[[v k1] k2] rest]; [congruence|]. intros _.
  unfold Lerp.get2. cbn [Lerp.groups].
  destruct (Lerp.groups rest) as [|[k1' inner'] gs]; [simpl; eauto|].
  destruct (Qeq_bool k1 k1'); simpl; eauto.
Qed.

(** The vector of a table whose samples all have [n] components has [n]
    components. *)
Lemma mix_length (w : Q) (a b : list Q) (n : nat) :
  length a = n -> length b = n -> length (Lerp.mix w a b) = n.
Proof.
  intros Ha Hb. unfold Lerp.mix. rewrite length_map, length_combine. lia.
Qed.

Lemma vfrom_length (n : nat) (rest : LerpVectorLookupTable) :
  forall (v0 : list Q) (k0 x : Q),
    length v0 = n ->
    Forall (fun row => length (fst row) = n) rest ->
    length (Lerp.vfrom v0 k0 rest x) = n.
Proof.
  induction rest as [|[v1 k1] rest IH]; intros v0 k0 x H0 Hrest; simpl; [assumption|].
  apply Forall_cons_iff in Hrest as [H1 Hrest']. simpl in H1.
  destruct (Qle_bool x k0); [assumption|].
  destruct (Qle_bool k1 x); [apply IH; assumption|].
  apply mix_length; assumption.
Qed.

Lemma getVector_at_finite (n : nat) (t : LerpVectorLookupTable) (x : Q) (i : nat) :
  width n t -> (i < n)%nat -> exists q, Lerp.at_ (Lerp.getVector t (Fin x)) i = Fin q.
Proof.
  intros [Hne Hall] Hi.
  destruct t as [|[v0 k0] rest]; [congruence|].
  apply Forall_cons_iff in Hall as [H0 Hrest]. simpl in H0.
  unfold Lerp.getVector, Lerp.at_.
  pose proof (vfrom_length n rest v0 k0 x H0 Hrest) as Hlen.
  set (v := Lerp.vfrom v0 k0 rest x) in *.
  assert (Hi' : (i < length (map Fin v))%nat) by (rewrite length_map; lia).
  rewrite (nth_indep _ NaN (Fin 0) Hi').
  rewrite (map_nth Fin v 0%Q i). eauto.
Qed.

Ltac width_tac := split; [discriminate | repeat constructor].

(** The vectors of the tables of the wet runway have no component. *)
Lemma width_wetTowAbove c : width 0 (wetTowAdjustmentFactorsAboveTvmcg c).
Proof. destruct c; width_tac. Qed.
Lemma width_wetTowBelow c : width 0 (wetTowAdjustmentFactorsAtOrBelowTvmcg c).
Proof. destruct c; width_tac. Qed.
Lemma width_wetFlexAbove c : width 0 (wetFlexAdjustmentFactorsAboveTvmcg c).
Proof. destruct c; width_tac. Qed.
Lemma width_wetFlexBelow c : width 0 (wetFlexAdjustmentFactorsAtOrBelowTvmcg c).
Proof. destruct c; width_tac. Qed.
Lemma width_wetV1Above c : width 0 (wetV1AdjustmentFactorsAboveTvmcg c).
Proof. destruct c; width_tac. Qed.
Lemma width_wetV1Below c : width 0 (wetV1AdjustmentFactorsAtOrBelowTvmcg c).
Proof. destruct c; width_tac. Qed.
Lemma width_wetVRBelow c : width 0 (wetVRAdjustmentFactorsAtOrBelowTvmcg c).
Proof. destruct c; width_tac. Qed.
Lemma width_wetV2Below c : width 0 (wetV2AdjustmentFactorsAtOrBelowTvmcg c).
Proof. destruct c; width_tac. Qed.

(** A lookup in a table whose vectors have no component leaves the buffer
    as it is, whatever the key. *)
Lemma getInto_empty (out : list num) (t : LerpVectorLookupTable) (key : num) :
  width 0 t -> Lerp.getInto out t key = out.
Proof.
  intros [Hne Hall]. unfold Lerp.getInto.
  assert (E : Lerp.getVector t key = []).
  { unfold Lerp.getVector. destruct key as [|x]; [reflexivity|].
    destruct t as [|[v0 k0] rest]; [reflexivity|].
    apply Forall_cons_iff in Hall as [H0 Hrest]. cbn [fst] in H0.
    pose proof (vfrom_length 0 rest v0 k0 x H0 Hrest) as Hlen.
    destruct (Lerp.vfrom v0 k0 rest x); [reflexivity|discriminate Hlen]. }
  rewrite E. reflexivity.
Qed.

(** Hence the lookups in the tables of the wet runway all return the
    buffer with what it held before them. *)
Ltac wet_tables :=
  repeat rewrite getInto_empty
    by (try match goal with |- context [if ?b then _ else _] => destruct b end;
        auto using width_wetTowAbove, width_wetTowBelow, width_wetFlexAbove,
          width_wetFlexBelow, width_wetV1Above, width_wetV1Below, width_wetVRBelow,
          width_wetV2Below).

(** ** Rounding *)

Lemma Qfloor_inject (z : Z) (q : Q) : q == inject_Z z -> Qfloor q = z.
Proof. intro H. rewrite H. apply Qfloor_Z. Qed.

Lemma Qceiling_inject (z : Z) (q : Q) : q == inject_Z z -> Qceiling q = z.
Proof. intro H. rewrite H. apply Qceiling_Z. Qed.

Lemma round_inject (z : Z) : Qfloor (inject_Z z + 0.5) = z.
Proof.
  apply Z.le_antisymm.
  - apply Z.lt_succ_r. rewrite Zlt_Qlt.
    eapply Qle_lt_trans; [apply Qfloor_le|].
    unfold Z.succ. rewrite inject_Z_plus. change (inject_Z 1) with 1%Q. lra.
  - assert (H : (Qfloor (inject_Z z) <= Qfloor (inject_Z z + 0.5))%Z)
      by (apply Qfloor_resp_le; lra).
    rewrite Qfloor_Z in H. exact H.
Qed.

Lemma trunc_inject (z : Z) (q : Q) :
  q == inject_Z z -> (if Qle_bool 0 q then Qfloor q else Qceiling q) = z.
Proof.
  intro H. destruct (Qle_bool 0 q); [apply Qfloor_inject | apply Qceiling_inject]; exact H.
Qed.

Lemma gtb_inject (a b : Z) : (Fin (inject_Z a) >? Fin (inject_Z b)) = (b <? a)%Z.
Proof.
  destruct (Z.ltb_spec b a) as [H|H].
  - apply gtb_iff. rewrite <- Zlt_Qlt. exact H.
  - apply not_true_iff_false. rewrite gtb_iff, <- Zlt_Qlt. lia.
Qed.

Lemma ltb_inject (a b : Z) : (Fin (inject_Z a) <? Fin (inject_Z b)) = (a <? b)%Z.
Proof. apply (gtb_inject b a). Qed.

(** ** Reconciliation of the speeds *)

Lemma minimumV2Vmc_nonempty c : minimumV2Vmc c <> [].
Proof. destruct c; discriminate. Qed.

Lemma minimumV2Vmu_nonempty c : minimumV2Vmu c <> [].
Proof. destruct c; discriminate. Qed.

Lemma trunc_tire (z : Z) :
  Math.trunc (195 - (Fin (inject_Z z) - 195)) = Fin (inject_Z (390 - z)).
Proof.
  cbn [Math.trunc Num.lift1 Num.sub Num.lift2]. f_equal. f_equal.
  apply trunc_inject.
  unfold Zminus. rewrite inject_Z_plus, inject_Z_opp.
  change (inject_Z 390) with 390%Q. lra.
Qed.

(** The speeds after reconciliation, for numbers as raw speeds: integers
    in increasing order. *)
Lemma reconcile_ordered (c : Conf) (r : TakeoffPerformanceResult) (q1 qR q2 pa : Q) :
  pressureAlt (params r) = Fin pa ->
  exists z1 zR z2 : Z,
    snd (reconcileVSpeeds c r q1 qR q2)
    = (Fin (inject_Z z1), Fin (inject_Z zR), Fin (inject_Z z2))
    /\ (z1 <= zR <= z2)%Z.
Proof.
  intro Hpa. unfold reconcileVSpeeds. rewrite Hpa.
  destruct (get_finite minimumV1Vmc pa) as [m1 ->]; [discriminate|].
  destruct (get_finite minimumVrVmc pa) as [mR ->]; [discriminate|].
  destruct (get_finite (minimumV2Vmc c) pa (minimumV2Vmc_nonempty c)) as [m2 ->].
  destruct (get2_finite (minimumV2Vmu c) pa (tow (inputs r)) (minimumV2Vmu_nonempty c))
    as [mu ->].
  cbn [Math.ceil Math.round Math.max Math.max3 Num.lift1 Num.lift2].
  set (z1 := Qfloor (Qmax q1 (inject_Z (Qceiling m1)) + 0.5)).
  set (zR := Qfloor (Qmax qR (inject_Z (Qceiling mR)) + 0.5)).
  set (z2 := Qfloor (Qmax (Qmax q2 (inject_Z (Qceiling m2))) (inject_Z (Qceiling mu)) + 0.5)).
  rewrite trunc_tire.
  change (Fin 195) with (Fin (inject_Z 195)).
  rewrite !gtb_inject, !ltb_inject.
  repeat (rewrite ?gtb_inject, ?ltb_inject;
          match goal with
          | |- context [(?a <? ?b)%Z] => destruct (Z.ltb_spec a b); cbn [fst snd]
          end);
    do 3 eexists; (split; [reflexivity | lia]).
Qed.

Lemma reconcile_integers (c : Conf) (r : TakeoffPerformanceResult) (y1 yR y2 : num) :
  Num.finite (pressureAlt (params r)) ->
  Num.finite y1 -> Num.finite yR -> Num.finite y2 ->
  exists z1 zR z2 : Z,
    snd (reconcileVSpeeds c r y1 yR y2)
    = (Fin (inject_Z z1), Fin (inject_Z zR), Fin (inject_Z z2))
    /\ (z1 <= zR <= z2)%Z.
Proof.
  intros Hpa F1 FR F2.
  destruct (finite_Fin _ Hpa) as [pa Epa].
  destruct (finite_Fin _ F1) as [q1 ->], (finite_Fin _ FR) as [qR ->],
    (finite_Fin _ F2) as [q2 ->].
  exact (reconcile_ordered c r q1 qR q2 pa Epa).
Qed.

Lemma finite_add a b : Num.finite a -> Num.finite b -> Num.finite (a + b).
Proof. apply finite_lift2. Qed.
Lemma finite_sub a b : Num.finite a -> Num.finite b -> Num.finite (a - b).
Proof. apply finite_lift2. Qed.
Lemma finite_mul a b : Num.finite a -> Num.finite b -> Num.finite (a * b).
Proof. apply finite_lift2. Qed.
Lemma finite_min a b : Num.finite a -> Num.finite b -> Num.finite (Math.min a b).
Proof. apply finite_lift2. Qed.
Lemma finite_max a b : Num.finite a -> Num.finite b -> Num.finite (Math.max a b).
Proof. apply finite_lift2. Qed.

(** Naming the coefficients of a table row. *)
Ltac destruct_rows :=
  repeat match goal with
    | |- context [match ?t with pair _ _ => _ end] =>
        lazymatch type of t with
        | (_ * Q)%type => destruct t
        end
    end.

(** Finiteness of an expression built from numbers by the operations of
    the calculator. *)
Ltac finite_tac :=
  repeat first
    [ exact I
    | assumption
    | apply finite_add
    | apply finite_sub
    | apply finite_mul
    | apply finite_min
    | apply finite_max
    | apply finite_div_const; [|reflexivity]
    | match goal with
      | |- Num.finite (if ?b then _ else _) => destruct b
      | |- Num.finite (match ?t with pair _ _ => _ end) => destruct t
      | |- _ /\ _ => split
      end ].

Lemma calculateSecondSegBrakeV2_finite c r correctWind useTable2 :
  speedParamsFinite (params r) ->
  Num.finite (calculateSecondSegBrakeV2 c r correctWind useTable2).
Proof.
  intros (Hat & Hpa & Hhw). unfold calculateSecondSegBrakeV2.
  destruct_rows. cbv zeta. finite_tac.
Qed.

Lemma calculateSecondSegBrakeV1_finite c r useTable2 :
  speedParamsFinite (params r) ->
  Num.finite (calculateSecondSegBrakeV1 c r useTable2).
Proof.
  intros (Hat & Hpa & Hhw). unfold calculateSecondSegBrakeV1.
  destruct_rows. cbv zeta. finite_tac.
Qed.

Lemma dryVSpeedsRaw_finite c r a :
  speedParamsFinite (params r) ->
  exists q1 qR q2, dryVSpeedsRaw c r a = (Fin q1, Fin qR, Fin q2).
Proof.
  intros Hp.
  assert (H : let '(x1, xR, x2) := dryVSpeedsRaw c r a in
              Num.finite x1 /\ Num.finite xR /\ Num.finite x2).
  { pose proof (fun w u => calculateSecondSegBrakeV2_finite c r w u Hp) as H2.
    pose proof (fun u => calculateSecondSegBrakeV1_finite c r u Hp) as H1.
    destruct Hp as (Hat & Hpa & Hhw). unfold dryVSpeedsRaw.
    destruct (match flexLimitingFactor (params r) with
              | Some f => Some f
              | None => oatLimitingFactor r
              end) as [[| | |]|];
      destruct_rows; cbv zeta; finite_tac; try apply H2; try apply H1. }
  destruct (dryVSpeedsRaw c r a) as [[x1 xR] x2].
  destruct H as (F1 & FR & F2).
  destruct (finite_Fin _ F1) as [q1 ->], (finite_Fin _ FR) as [qR ->],
    (finite_Fin _ F2) as [q2 ->].
  eauto.
Qed.

Lemma reconcile_frame c r a b d :
  let r' := fst (reconcileVSpeeds c r a b d) in
  core r' = core r
  /\ (error r' = error r \/ speedError (error r'))
  /\ v1 r' = v1 r /\ vR r' = vR r /\ v2 r' = v2 r
  /\ intermediateSpeeds r' = intermediateSpeeds r.
Proof.
  unfold reconcileVSpeeds, speedError.
  repeat match goal with
    | |- context [if ?b then _ else _] => destruct b
    end;
    cbn; auto 10.
Qed.

Lemma vec4Cache_zeros : vec4Cache = [Fin 0; Fin 0; Fin 0; Fin 0].
Proof. reflexivity. Qed.

(** With the four zeros of [vec4Cache] for its factors the wet adjustment
    is zero. *)
Lemma wetAdjustment_zero (l : num) :
  Num.finite l -> exists a : Q, wetAdjustment vec4Cache l = Fin a /\ (a == 0)%Q.
Proof.
  intro Hl. destruct (finite_Fin _ Hl) as [x ->].
  unfold wetAdjustment. rewrite vec4Cache_zeros.
  cbn [Lerp.at_ nth Math.min3 Math.min Num.lift2 Num.add Num.mul].
  eexists. split; [reflexivity|].
  rewrite (Q.min_l 0 (0 * x + 0)) by lra. rewrite Q.min_l by lra. reflexivity.
Qed.

Lemma wetAdjustment_finite (l : num) :
  Num.finite l -> Num.finite (wetAdjustment vec4Cache l).
Proof.
  intro Hl. destruct (wetAdjustment_zero l Hl) as (a & -> & _). exact I.
Qed.

Lemma lengthAltCoef_finite p : speedParamsFinite p -> Num.finite (lengthAltCoef p).
Proof. intros (Hat & Hpa & Hhw). unfold lengthAltCoef. finite_tac. Qed.

Lemma calculateDryVSpeeds_spec c r a :
  let r' := calculateDryVSpeeds c r a in
  core r' = core r
  /\ (error r' = error r \/ speedError (error r'))
  /\ v1 r' = v1 r /\ vR r' = vR r /\ v2 r' = v2 r
  /\ (exists x1 xR x2,
        intermediateSpeeds r' = Some {| dryV1 := x1; dryVR := xR; dryV2 := x2 |}
        /\ (speedParamsFinite (params r) ->
            exists z1 zR z2 : Z,
              x1 = Fin (inject_Z z1) /\ xR = Fin (inject_Z zR) /\ x2 = Fin (inject_Z z2)
              /\ (z1 <= zR <= z2)%Z)).
Proof.
  unfold calculateDryVSpeeds.
  pose proof (dryVSpeedsRaw_finite c r a) as Hraw.
  destruct (dryVSpeedsRaw c r a) as [[y1 yR] y2].
  pose proof (reconcile_frame c r y1 yR y2) as (Hc & He & H1 & HR & H2 & _).
  pose proof (reconcile_integers c r y1 yR y2) as Hord.
  destruct (reconcileVSpeeds c r y1 yR y2) as [r1 [[x1 xR] x2]]. cbn [fst snd] in *.
  cbn. repeat split; try assumption.
  exists x1, xR, x2. split; [reflexivity|].
  intro Hp. destruct (Hraw Hp) as (q1 & qR & q2 & E). inversion E; subst.
  destruct Hp as (_ & Hpa & _).
  destruct (Hord Hpa I I I) as (z1 & zR & z2 & E' & Hz).
  inversion E'; subst. eauto 10.
Qed.

Lemma contaminated_speeds c r (t : LerpVectorLookupTable) r' :
  width 3 t ->
  (let speeds := Lerp.getVector t (tow (inputs r)) in
   let '(result, (v1, vR, v2)) :=
     reconcileVSpeeds c r (Lerp.at_ speeds 0) (Lerp.at_ speeds 1) (Lerp.at_ speeds 2) in
   Ok (setSpeeds (Some v1) (Some vR) (Some v2) result)) = Ok r' ->
  core r' = core r
  /\ (error r' = error r \/ speedError (error r'))
  /\ (speedParamsFinite (params r) -> speedsReconciled r').
Proof.
  intro Hw. cbv zeta.
  destruct (getVector_at_finite 3 _ (tow (inputs r)) 0 Hw ltac:(lia)) as [q1 ->].
  destruct (getVector_at_finite 3 _ (tow (inputs r)) 1 Hw ltac:(lia)) as [qR ->].
  destruct (getVector_at_finite 3 _ (tow (inputs r)) 2 Hw ltac:(lia)) as [q2 ->].
  pose proof (reconcile_frame c r q1 qR q2) as (Hc' & He' & _).
  pose proof (reconcile_integers c r q1 qR q2) as Hord.
  destruct (reconcileVSpeeds c r q1 qR q2) as [r1 [[u1 uR] u2]]. cbn [fst snd] in *.
  intro H. inversion H; subst r'; clear H. cbn.
  split; [unfold core in *; cbn; congruence|]. split; [exact He'|].
  intros (_ & Hpa & _).
  destruct (Hord Hpa I I I) as (y1 & yR & y2 & E' & Hy).
  inversion E'; subst. exists y1, yR, y2. cbn. auto.
Qed.

Lemma calculateVSpeeds_spec c r a t r' :
  calculateVSpeeds c r a t = Ok r' ->
  core r' = core r
  /\ (error r' = error r \/ speedError (error r'))
  /\ (speedParamsFinite (params r) -> speedsReconciled r').
Proof.
  unfold calculateVSpeeds.
  pose proof (calculateDryVSpeeds_spec c r a) as Hdry. cbv zeta in Hdry.
  destruct (runwayCondition (inputs r)) eqn:Erc.
  1: { (* dry *)
    destruct Hdry as (Hc & He & _ & _ & _ & x1 & xR & x2 & Ei & Hz).
    intro H. inversion H; subst; clear H. rewrite Ei. cbn.
    repeat split; try assumption.
    intro Hp. destruct (Hz Hp) as (z1 & zR & z2 & -> & -> & -> & Ho).
    exists z1, zR, z2. cbn. auto. }
  1: { (* wet *)
    destruct Hdry as (Hc & He & _ & _ & _ & x1 & xR & x2 & Ei & Hz).
    rewrite Ei.
    set (r0 := calculateDryVSpeeds c r a) in *.
    assert (Hp0 : params r0 = params r) by (inversion Hc; reflexivity).
    assert (Hi0 : inputs r0 = inputs r) by (inversion Hc; reflexivity).
    match goal with
    | |- context [reconcileVSpeeds c r0 ?a ?b ?d] =>
        set (w1 := a); set (wR := b); set (w2 := d)
    end.
    pose proof (reconcile_frame c r0 w1 wR w2) as (Hc' & He' & _).
    pose proof (reconcile_integers c r0 w1 wR w2) as Hord.
    destruct (reconcileVSpeeds c r0 w1 wR w2) as [r1 [[u1 uR] u2]]. cbn [fst snd] in *.
    intro H. inversion H; subst r'; clear H. cbn.
    split; [unfold core in *; cbn; congruence|]. split.
    { destruct He' as [He'|He']; [rewrite He'; exact He | right; exact He']. }
    intro Hp. destruct (Hz Hp) as (z1 & zR & z2 & -> & -> & -> & _).
    assert (Hl : Num.finite (lengthAltCoef (params r0)))
      by (rewrite Hp0; apply lengthAltCoef_finite; exact Hp).
    destruct Hp as (_ & Hpa & Hhw).
    destruct (finite_Fin _ Hhw) as [hw Ehw].
    rewrite <- Hp0 in Ehw, Hpa.
    assert (F1 : Num.finite w1 /\ Num.finite wR /\ Num.finite w2).
    { subst w1 wR w2. cbn [dryV1 dryVR dryV2]. wet_tables.
      destruct (oat (inputs r0) >? t);
        repeat split; apply finite_sub; try exact I;
        apply wetAdjustment_finite; exact Hl. }
    destruct F1 as (F1 & FR & F2).
    destruct (Hord Hpa F1 FR F2) as (y1 & yR & y2 & E' & Hy).
    inversion E'; subst. exists y1, yR, y2. cbn. auto. }
  all: (* contaminated *)
    cbn [contaminatedVSpeeds]; try (intro H; discriminate H);
    apply contaminated_speeds;
    destruct c; width_tac.
Qed.

(** ** The ways through [calculateTakeoffPerformance] *)

Lemma E_eqb_eq (a b : E.t) : E.eqb a b = true <-> a = b.
Proof. destruct a, b; simpl; split; congruence. Qed.

Lemma resolveMtow_spec c res d tv :
  exists m res1,
    resolveMtow c res d tv = Ok (m, res1)
    /\ (res1 = res \/ (res1 = setError E.TooLight res
                      /\ isContaminated (runwayCondition (inputs res)) = true))
    /\ (runwayCondition (inputs res) = RC.Dry -> m = d)
    /\ (runwayCondition (inputs res) = RC.Wet -> m = d - wetMtowAdjustment c res tv).
Proof.
  unfold resolveMtow.
  destruct (runwayCondition (inputs res)) eqn:Erc; cbn [contaminatedTables].
  1, 2: do 2 eexists; split; [reflexivity|];
    split; [left; reflexivity | split; intro H; congruence].
  all: match goal with
       | |- context [if ?b then _ else _] => destruct b
       end;
    do 2 eexists; (split; [reflexivity|]);
    (split; [auto | split; intro H; discriminate H]).
Qed.

Lemma performance_run self c res r :
  performance self c res = Ok r ->
  let oatLF := limitingFactorAt KeyOatLimit (allWeightLimits c res) in
  let tv := calculateTvmcg c (params res) in
  exists m res1,
    resolveMtow c (weighed c res) (dryMtowOf c res) tv = Ok (m, res1)
    /\ let apply := forwardCg (inputs res) && isRunwayOrVmcg oatLF in
       let bumped := forwardCgMtow c apply m in
       ((bumped >=? tow (inputs res)) = false /\ r = setError E.TooHeavy (setMtow m res1))
       \/ ((bumped >=? tow (inputs res)) = true
           /\ SpeedStage self c (setMtow m res1) (apply && (m <=? 473114)) tv r).
Proof.
  unfold performance. cbn [getLimitingFactor setLimits limits bind].
  fold (weighed c res). fold (dryMtowOf c res).
  cbn [params setLimits setLimitingFactors].
  destruct (resolveMtow_spec c (weighed c res) (dryMtowOf c res) (calculateTvmcg c (params res)))
    as (m & res1 & Eres & Hres1 & _).
  intro H. cbv zeta.
  change (resolveMtow c _ _ _)
    with (resolveMtow c (weighed c res) (dryMtowOf c res) (calculateTvmcg c (params res)))
    in H.
  rewrite Eres in H. cbn [bind] in H.
  exists m, res1. split; [exact Eres|].
  assert (Hi : inputs (setMtow m res1) = inputs res).
  { destruct Hres1 as [->|[-> _]]; reflexivity. }
  fold (isRunwayOrVmcg (limitingFactorAt KeyOatLimit (allWeightLimits c res))) in H.
  fold (forwardCgMtow c
          (forwardCg (inputs res)
           && isRunwayOrVmcg (limitingFactorAt KeyOatLimit (allWeightLimits c res))) m) in H.
  destruct (forwardCgMtow c _ m >=? tow (inputs res)) eqn:Eb.
  - right. split; [reflexivity|].
    destruct (forceToga (inputs res)) eqn:Et.
    + destruct (self (tailwindInputs (inputs res))) as [tw|] eqn:Etw; cbn [bind] in H;
        [|discriminate H].
      destruct (E.eqb (error tw) E.None) eqn:Ee.
      * injection H as <-.
        refine (StageToga self c (setMtow m res1) _ _ tw _ _ _); rewrite ?Hi;
          try assumption.
        apply E_eqb_eq. exact Ee.
      * refine (StageTogaOwnSpeeds self c (setMtow m res1) _ _ tw r _ _ _ H);
          rewrite ?Hi; try assumption.
        intro Hn. apply E_eqb_eq in Hn. congruence.
    + destruct (isContaminated (runwayCondition (inputs res))) eqn:Ec; cbn [negb] in H.
      * refine (StageContaminated self c (setMtow m res1) _ _ r _ _ H);
          rewrite ?Hi; assumption.
      * destruct (calculateFlexTemp c _ (calculateTvmcg c (params res))) as [fx|] eqn:Ef;
          cbn [bind] in H; [|discriminate H].
        refine (StageFlex self c (setMtow m res1) _ _ fx r _ _ Ef H);
          rewrite ?Hi; assumption.
  - left. split; [reflexivity|]. inversion H. reflexivity.
Qed.

Lemma core_frame r r' : core r' = core r -> frame r' = frame r.
Proof. unfold core, frame. intro H. inversion H. congruence. Qed.

Lemma frame_fields r r' :
  frame r = frame r' ->
  inputs r = inputs r'
  /\ adjustedTora (params r) = adjustedTora (params r')
  /\ pressureAlt (params r) = pressureAlt (params r')
  /\ headwind (params r) = headwind (params r')
  /\ limits r = limits r'
  /\ oatLimitingFactor r = oatLimitingFactor r'
  /\ tRefLimitingFactor r = tRefLimitingFactor r'
  /\ tvmcg r = tvmcg r'
  /\ mtow r = mtow r'.
Proof. unfold frame, numbers. intro H. repeat split; congruence. Qed.

Lemma calculateFlexTemp_spec c res tv fx :
  calculateFlexTemp c res tv = Ok fx ->
  forall f, fst fx = Some f ->
    exists l tRefLF,
      limits res = Some l /\ tRefLimitingFactor res = Some tRefLF
      /\ (tow (inputs res) <? tRefLimit (limitOf l tRefLF)) = true
      /\ (f >? oat (inputs res)) = true.
Proof.
  unfold calculateFlexTemp.
  destruct (limits res) as [l|]; [|discriminate].
  destruct (tRefLimitingFactor res) as [tRefLF|]; [|discriminate].
  destruct (tMaxLimitingFactor res) as [tMaxLF|]; [|discriminate].
  destruct (tFlexMaxLimitingFactor res) as [tFlexMaxLF|]; [|discriminate].
  destruct (tow (inputs res) <? tRefLimit (limitOf l tRefLF)) eqn:Et.
  2: { intro H. inversion H. discriminate. }
  destruct (flexInterval res l _ _ _) as [[[iterFrom iterTo] fromLF] toLF].
  destruct (flexLoop _ _ _ _ _) as [[flexTemp flexLF]|].
  2: { intro H. inversion H. discriminate. }
  destruct (adjustFlexTemp c res tv flexTemp >? oat (inputs res)) eqn:Eo.
  2: { intro H. inversion H. discriminate. }
  intros H f Hf. inversion H; subst fx. cbn [fst] in Hf. inversion Hf; subst f.
  exists l, tRefLF. auto.
Qed.

Lemma calculateFlexTemp_total c res tv l a b d :
  limits res = Some l ->
  tRefLimitingFactor res = Some a ->
  tMaxLimitingFactor res = Some b ->
  tFlexMaxLimitingFactor res = Some d ->
  exists fx, calculateFlexTemp c res tv = Ok fx.
Proof.
  intros H1 H2 H3 H4. unfold calculateFlexTemp. rewrite H1, H2, H3, H4.
  destruct (tow (inputs res) <? tRefLimit (limitOf l a)); [|eauto].
  destruct (flexInterval res l _ _ _) as [[[iterFrom iterTo] fromLF] toLF].
  destruct (flexLoop _ _ _ _ _) as [[flexTemp flexLF]|]; [|eauto].
  destruct (adjustFlexTemp c res tv flexTemp >? oat (inputs res)); eauto.
Qed.

Lemma calculateVSpeeds_total c r a t :
  runwayCondition (inputs r) <> RC.Contaminated30mmWetSnow ->
  exists r', calculateVSpeeds c r a t = Ok r'.
Proof.
  intro Hrc. unfold calculateVSpeeds.
  pose proof (calculateDryVSpeeds_spec c r a) as (_ & _ & _ & _ & _ & x1 & xR & x2 & Ei & _).
  destruct (runwayCondition (inputs r)); try congruence; cbn [contaminatedVSpeeds].
  1: eauto.
  1: { rewrite Ei.
       match goal with
       | |- context [reconcileVSpeeds ?c ?r ?a ?b ?d] =>
           destruct (reconcileVSpeeds c r a b d) as [r1 [[u1 uR] u2]]
       end. eauto. }
  all: match goal with
       | |- context [reconcileVSpeeds ?c ?r ?a ?b ?d] =>
           destruct (reconcileVSpeeds c r a b d) as [r1 [[u1 uR] u2]]
       end; eauto.
Qed.

(** What a way through the branch [mtow >= tow] gives. *)
Lemma stage_facts self c r2 a tv r :
  SpeedStage self c r2 a tv r ->
  frame r = frame r2
  /\ (error r = error r2 \/ speedError (error r))
  /\ (forall f, flex r = Some f -> flexConditions r2 f)
  /\ (speedParamsFinite (params r2) ->
      (forall tw, self (tailwindInputs (inputs r2)) = Ok tw ->
                  error tw = E.None -> speedsReconciled tw) ->
      speedsReconciled r).
Proof.
  intro H. destruct H as [tw Ht Etw Hn | tw r Ht Etw Hn Hv | fx r Ht Hc Hf Hv | r Ht Hc Hv].
  - cbn. repeat split; auto; try discriminate.
    intros Hp Hself. destruct (Hself tw Etw Hn) as (z1 & zR & z2 & E1 & ER & E2 & Hz).
    exists z1, zR, z2. cbn. auto.
  - apply calculateVSpeeds_spec in Hv as (Hcore & He & Hs).
    split; [apply core_frame in Hcore; rewrite Hcore; reflexivity|].
    split; [exact He|]. split.
    + intros f Hf. assert (Hx : flex r = None) by (inversion Hcore; reflexivity). congruence.
    + intros Hp _. apply Hs. exact Hp.
  - apply calculateVSpeeds_spec in Hv as (Hcore & He & Hs).
    split; [apply core_frame in Hcore; rewrite Hcore; reflexivity|].
    split; [exact He|]. split.
    + intros f Hfl.
      assert (Hx : flex r = fst fx) by (inversion Hcore; reflexivity).
      rewrite Hfl in Hx. symmetry in Hx.
      destruct (calculateFlexTemp_spec _ _ _ _ Hf f Hx) as (l & tf & El & Etf & Hlt & Hgt).
      repeat split; try assumption. exists l, tf. auto.
    + intros Hp _. apply Hs. exact Hp.
  - apply calculateVSpeeds_spec in Hv as (Hcore & He & Hs).
    split; [apply core_frame in Hcore; rewrite Hcore; reflexivity|].
    split; [exact He|]. split.
    + intros f Hf. assert (Hx : flex r = None) by (inversion Hcore; reflexivity). congruence.
    + intros Hp _. apply Hs. exact Hp.
Qed.

Lemma checkInputs_conf i p : checkInputs i p = E.None -> exists c, confOf (conf i) = Some c.
Proof.
  unfold checkInputs, confOf.
  destruct (conf i =? 1)%Z; [eauto|].
  destruct (conf i =? 2)%Z; [eauto|].
  destruct (conf i =? 3)%Z; [eauto|].
  cbn. discriminate.
Qed.

Lemma validationError_spec i p : checkInputs i p = E.None \/ validationError (checkInputs i p).
Proof.
  unfold checkInputs.
  repeat match goal with
    | |- context [if ?b then _ else _] => destruct b
    end; cbn; auto.
Qed.

Section Runs.

Variable pow : num -> num -> num.

Lemma with_run self i r :
  calculateTakeoffPerformanceWith pow self i = Ok r ->
  let res := initialResult pow i in
  let trim := option_map calculateStabTrim (cg i) in
  (checkInputs i (calculateParams pow i) <> E.None /\ r = setStabTrim trim res)
  \/ (checkInputs i (calculateParams pow i) = E.None
      /\ exists c r0,
           confOf (conf i) = Some c
           /\ performance self c res = Ok r0
           /\ r = setStabTrim trim r0).
Proof.
  unfold calculateTakeoffPerformanceWith. cbv zeta.
  change (error (initialResult pow i)) with (checkInputs i (calculateParams pow i)).
  destruct (E.eqb (checkInputs i (calculateParams pow i)) E.None) eqn:Ee.
  - apply E_eqb_eq in Ee.
    destruct (checkInputs_conf _ _ Ee) as [c Ec]. rewrite Ec.
    destruct (performance self c (initialResult pow i)) as [r0|] eqn:Ep; cbn [bind];
      [|discriminate].
    intro H. inversion H. right. split; [exact Ee|]. exists c, r0. auto.
  - cbn [bind]. intro H. inversion H. left. split; [|reflexivity].
    intro Hn. apply E_eqb_eq in Hn. congruence.
Qed.

(** A run whose inputs pass the validation. *)
Lemma passed_run self i r :
  calculateTakeoffPerformanceWith pow self i = Ok r ->
  checkInputs i (calculateParams pow i) = E.None ->
  let res := initialResult pow i in
  exists c m res1,
    confOf (conf i) = Some c
    /\ resolveMtow c (weighed c res) (dryMtowOf c res) (calculateTvmcg c (params res))
       = Ok (m, res1)
    /\ frame r = frame (setMtow m (weighed c res))
    /\ let apply :=
         forwardCg i
         && isRunwayOrVmcg (limitingFactorAt KeyOatLimit (allWeightLimits c res)) in
       let bumped := forwardCgMtow c apply m in
       ((bumped >=? tow i) = false
        /\ error r = E.TooHeavy
        /\ v1 r = None /\ vR r = None /\ v2 r = None /\ flex r = None)
       \/ ((bumped >=? tow i) = true
           /\ (error r = E.None \/ error r = E.TooLight \/ speedError (error r))
           /\ (forall f, flex r = Some f -> flexConditions r f)
           /\ (Num.finite (pressureAlt (calculateParams pow i)) ->
               (forall tw, self (tailwindInputs i) = Ok tw ->
                           error tw = E.None -> speedsReconciled tw) ->
               speedsReconciled r)).
Proof.
  intros Hrun Hok. cbv zeta.
  destruct (with_run self i r Hrun) as [[Hn _]|(_ & c & r0 & Ec & Hp & ->)]; [congruence|].
  apply performance_run in Hp. cbv zeta in Hp.
  destruct Hp as (m & res1 & Eres & Hcase).
  exists c, m, res1. split; [exact Ec|]. split; [exact Eres|].
  destruct (resolveMtow_spec c (weighed c (initialResult pow i))
              (dryMtowOf c (initialResult pow i))
              (calculateTvmcg c (params (initialResult pow i))))
    as (m' & res1' & Eres' & Hres1 & _).
  rewrite Eres in Eres'. inversion Eres'; subst m' res1'. clear Eres'.
  assert (Hfr : frame (setMtow m res1) = frame (setMtow m (weighed c (initialResult pow i)))).
  { destruct Hres1 as [->|[-> _]]; reflexivity. }
  assert (Herr : error (setMtow m res1) = E.None \/ error (setMtow m res1) = E.TooLight).
  { destruct Hres1 as [->|[-> _]]; cbn; auto. }
  assert (Hsp : v1 (setMtow m res1) = None /\ vR (setMtow m res1) = None
                /\ v2 (setMtow m res1) = None /\ flex (setMtow m res1) = None).
  { destruct Hres1 as [->|[-> _]]; cbn; auto. }
  change (inputs (initialResult pow i)) with i in Hcase.
  destruct Hcase as [[Hb ->]|[Hb Hstage]].
  - split; [exact Hfr|]. left. split; [exact Hb|]. cbn. tauto.
  - apply stage_facts in Hstage as (Hf & He & Hflex & Hspeeds).
    assert (Hfr' : frame (setStabTrim (option_map calculateStabTrim (cg i)) r0)
                   = frame (setMtow m (weighed c (initialResult pow i)))).
    { rewrite <- Hfr, <- Hf. reflexivity. }
    split; [exact Hfr'|]. right. split; [exact Hb|].
    assert (Hin : inputs (setMtow m res1) = i).
    { destruct Hres1 as [->|[-> _]]; reflexivity. }
    split; [|split].
    + cbn [error setStabTrim]. destruct He as [He|He]; [rewrite He|]; tauto.
    + intros f Hfl. cbn [flex setStabTrim] in Hfl.
      destruct (Hflex f Hfl) as (H1 & H2 & (l & tf & El & Etf & Hlt) & H4).
      unfold flexConditions.
      assert (Hi' : inputs (setStabTrim (option_map calculateStabTrim (cg i)) r0) = i).
      { apply frame_fields in Hfr' as (Hi' & _). exact Hi'. }
      rewrite Hi'. rewrite Hin in H1, H2, Hlt, H4.
      repeat split; try assumption.
      exists l, tf. repeat split; try assumption.
      * apply frame_fields in Hf as (_ & _ & _ & _ & Hl & _).
        cbn [limits setStabTrim]. congruence.
      * apply frame_fields in Hf as (_ & _ & _ & _ & _ & _ & Ht & _).
        cbn [tRefLimitingFactor setStabTrim]. congruence.
    + intros Hpa Hself.
      assert (Hs : speedsReconciled r0).
      { apply Hspeeds.
        - unfold speedParamsFinite.
          destruct Hres1 as [->|[-> _]]; cbn [params setMtow setError weighed setTvmcg
            setLimitingFactors setLimits initialResult calculateParams adjustedTora
            pressureAlt headwind] in *;
            (split; [exact I | split; [exact Hpa | exact I]]).
        - rewrite Hin. exact Hself. }
      exact Hs.
Qed.

End Runs.

(** ** The recursion of [calculateTakeoffPerformance] *)

Lemma performance_ext self self' c res :
  self (tailwindInputs (inputs res)) = self' (tailwindInputs (inputs res)) ->
  performance self c res = performance self' c res.
Proof. intro H. unfold performance. rewrite H. reflexivity. Qed.

Lemma performance_no_toga self self' c res :
  forceToga (inputs res) = false ->
  performance self c res = performance self' c res.
Proof. intro H. unfold performance. rewrite H. reflexivity. Qed.

Section Recursion.

Variable pow : num -> num -> num.

Lemma with_ext self self' i :
  self (tailwindInputs i) = self' (tailwindInputs i) ->
  calculateTakeoffPerformanceWith pow self i = calculateTakeoffPerformanceWith pow self' i.
Proof.
  intro H. unfold calculateTakeoffPerformanceWith.
  destruct (E.eqb _ _); [|reflexivity].
  destruct (confOf (conf i)) as [c|]; [|reflexivity].
  rewrite (performance_ext self self' c (initialResult pow i) H). reflexivity.
Qed.

Lemma with_no_toga self self' i :
  forceToga i = false ->
  calculateTakeoffPerformanceWith pow self i = calculateTakeoffPerformanceWith pow self' i.
Proof.
  intro H. unfold calculateTakeoffPerformanceWith.
  destruct (E.eqb _ _); [|reflexivity].
  destruct (confOf (conf i)) as [c|]; [|reflexivity].
  rewrite (performance_no_toga self self' c (initialResult pow i) H). reflexivity.
Qed.

(** The model satisfies the recursive equation of the method. *)
Lemma calculateTakeoffPerformance_unfold i :
  calculateTakeoffPerformance pow i
  = calculateTakeoffPerformanceWith pow (calculateTakeoffPerformance pow) i.
Proof.
  unfold calculateTakeoffPerformance at 1. apply with_ext.
  unfold calculateTakeoffPerformance. apply with_no_toga. reflexivity.
Qed.

End Recursion.

(** ** The flex loop *)

Lemma Qfloor_unique (x : Q) (z : Z) :
  (inject_Z z <= x)%Q -> (x < inject_Z (z + 1))%Q -> Qfloor x = z.
Proof.
  intros Hle Hlt.
  pose proof (Qfloor_le x) as H1. pose proof (Qlt_floor x) as H2.
  assert (A : (z < Qfloor x + 1)%Z).
  { rewrite Zlt_Qlt. eapply Qle_lt_trans; eassumption. }
  assert (B : (Qfloor x < z + 1)%Z).
  { rewrite Zlt_Qlt. eapply Qle_lt_trans; eassumption. }
  lia.
Qed.

Lemma Qfloor_minus_one (x : Q) : Qfloor (x - 1) = (Qfloor x - 1)%Z.
Proof.
  pose proof (Qfloor_le x) as H1. pose proof (Qlt_floor x) as H2.
  apply Qfloor_unique.
  - unfold Z.sub. rewrite inject_Z_plus. change (inject_Z (- (1))) with (-1 # 1)%Q. lra.
  - replace (Qfloor x - 1 + 1)%Z with (Qfloor x) by lia.
    rewrite inject_Z_plus in H2. change (inject_Z 1) with 1%Q in H2. lra.
Qed.

(** When the rounds of [flexRounds] are over, the test of the loop fails:
    more fuel changes nothing. *)
Lemma flexLoop_rounds_enough body (b : Q) :
  forall (n : nat) (t : Q) state,
    n = Z.to_nat (Qfloor (b - t) + 1) ->
    forall extra : nat,
      flexLoop (n + extra) body (Fin t) (Fin b) state
      = flexLoop n body (Fin t) (Fin b) state.
Proof.
  induction n as [|n IH]; intros t state Hn extra.
  - destruct extra as [|extra]; [reflexivity|]. cbn [Nat.add flexLoop].
    assert (Hf : (Fin t <=? Fin b) = false).
    { apply not_true_iff_false. rewrite leb_iff. intro Hle.
      assert (Hk : (inject_Z 0 <= b - t)%Q) by (change (inject_Z 0) with 0%Q; lra).
      apply Qfloor_resp_le in Hk. rewrite Qfloor_Z in Hk. lia. }
    rewrite Hf. reflexivity.
  - cbn [Nat.add flexLoop].
    destruct (Fin t <=? Fin b); [|reflexivity].
    change (Fin t + 1)%num with (Fin (t + 1)).
    apply IH.
    assert (E : (b - (t + 1) == b - t - 1)%Q) by lra.
    rewrite E, Qfloor_minus_one. lia.
Qed.

Lemma flexLoop_fuel body (iterFrom iterTo : num) state (extra : nat) :
  flexLoop (flexRounds iterFrom iterTo + extra) body iterFrom iterTo state
  = flexLoop (flexRounds iterFrom iterTo) body iterFrom iterTo state.
Proof.
  destruct iterFrom as [|a], iterTo as [|b]; cbn [flexRounds Nat.add];
    try (destruct extra; reflexivity).
  apply flexLoop_rounds_enough. reflexivity.
Qed.

(** ** The result of [calculateTakeoffPerformance] *)

Lemma wetAdjustment_nonpositive factors l :
  Num.finite (wetAdjustment factors l) -> (wetAdjustment factors l <=? 0) = true.
Proof.
  unfold wetAdjustment, Math.min3, Math.min.
  destruct (Lerp.at_ factors 0 * l + Lerp.at_ factors 1) as [|x]; [cbn; tauto|].
  destruct (Lerp.at_ factors 2 * l + Lerp.at_ factors 3) as [|y]; [cbn; tauto|].
  intros _. cbn [Num.lift2]. apply leb_iff.
  eapply Qle_trans; [apply Q.le_min_l|]. apply Q.le_min_l.
Qed.

Lemma sub_nonpositive (d a : num) :
  (a <=? 0) = true -> Num.finite d -> (d <=? d - a) = true.
Proof.
  destruct d as [|x], a as [|y]; cbn; try tauto; try discriminate.
  intros H _. apply Qle_bool_iff in H. apply Qle_bool_iff. lra.
Qed.

Lemma forwardCgMtow_not_below c m :
  Num.finite m -> (m <=? forwardCgMtow c true m) = true.
Proof.
  destruct m as [|x]; cbn; [tauto|]. intros _. unfold forwardCgMtow.
  destruct (cgFactors c) as [a b]. cbn. apply Qle_bool_iff.
  pose proof (Q.le_max_l 0 (a * x + b)). lra.
Qed.

Section Claims.

Variable pow : num -> num -> num.

(** Speeds of a run that ends without error. *)
Lemma run_speeds self i r :
  Num.finite (calculatePressureAltitude pow (elevation i) (qnh i)) ->
  (forall tw, self (tailwindInputs i) = Ok tw -> error tw = E.None -> speedsReconciled tw) ->
  calculateTakeoffPerformanceWith pow self i = Ok r ->
  error r = E.None ->
  speedsReconciled r.
Proof.
  intros Hpa Hself Hrun He.
  destruct (with_run pow self i r Hrun) as [[Hn ->]|(Hok & _)];
    [cbn in He; congruence|].
  destruct (passed_run pow self i r Hrun Hok) as (c & m & res1 & _ & _ & _ & Hcase).
  cbv zeta in Hcase.
  destruct Hcase as [(_ & Hth & _)|(_ & _ & _ & Hs)]; [congruence|].
  apply Hs; assumption.
Qed.

(** The tailwind run of a forced-TOGA call makes no further call. *)
Lemma tailwind_run_speeds i tw :
  Num.finite (calculatePressureAltitude pow (elevation i) (qnh i)) ->
  calculateTakeoffPerformanceWith pow (fun _ => Throw "no further call") (tailwindInputs i)
  = Ok tw ->
  error tw = E.None ->
  speedsReconciled tw.
Proof.
  intros Hpa Htw Hetw.
  refine (run_speeds _ (tailwindInputs i) tw Hpa _ Htw Hetw).
  intros tw' Hb. discriminate Hb.
Qed.

(** A flex temperature in a result is above OAT. *)
Lemma flex_above_oat i r f :
  calculateTakeoffPerformance pow i = Ok r ->
  flex r = Some f ->
  (f >? oat i) = true.
Proof.
  intros Hrun Hf. unfold calculateTakeoffPerformance in Hrun.
  destruct (with_run pow _ i r Hrun) as [[Hn ->]|(Hok & _)]; [discriminate Hf|].
  destruct (passed_run pow _ i r Hrun Hok) as (c & m & res1 & _ & _ & Hfr & Hcase).
  cbv zeta in Hcase.
  apply frame_fields in Hfr as (Hi & _).
  destruct Hcase as [(_ & _ & _ & _ & _ & Hn)|(_ & _ & Hflex & _)]; [congruence|].
  destruct (Hflex f Hf) as (_ & _ & _ & Hgt). rewrite Hi in Hgt. exact Hgt.
Qed.

(** Claim C5.  When the pressure altitude is a number, every result of
    [calculateTakeoffPerformance] with the error None, on a dry, wet or
    contaminated runway and with or without forced TOGA, has speeds V1,
    VR and V2 that are integers with V1 <= VR <= V2. *)
Theorem successful_speeds_ordered_integers i r :
  Num.finite (calculatePressureAltitude pow (elevation i) (qnh i)) ->
  calculateTakeoffPerformance pow i = Ok r ->
  error r = E.None ->
  speedsReconciled r.
Proof.
  intros Hpa Hrun He.
  refine (run_speeds _ i r Hpa _ Hrun He).
  intros tw Htw Hetw. exact (tailwind_run_speeds i tw Hpa Htw Hetw).
Qed.

(** Claim C9.  A result of [calculateTakeoffPerformance] has a flex
    temperature only if the runway is not contaminated, forced TOGA was
    not requested, the takeoff weight is strictly below the Tref ceiling
    of the factor that governs at Tref, and the flex temperature of the
    result, the final one, is strictly above OAT. *)
Theorem flex_only_when_usable i r f :
  calculateTakeoffPerformance pow i = Ok r ->
  flex r = Some f ->
  inputs r = i /\ flexConditions r f.
Proof.
  intros Hrun Hf. unfold calculateTakeoffPerformance in Hrun.
  destruct (with_run pow _ i r Hrun) as [[Hn ->]|(Hok & _)]; [discriminate Hf|].
  destruct (passed_run pow _ i r Hrun Hok) as (c & m & res1 & _ & _ & Hfr & Hcase).
  cbv zeta in Hcase.
  split; [apply frame_fields in Hfr as (Hi & _); exact Hi|].
  destruct Hcase as [(_ & _ & _ & _ & _ & Hn)|(_ & _ & Hflex & _)]; [congruence|].
  apply Hflex. exact Hf.
Qed.

(** Claim C2, as amended.  For an input that passes validation with a dry
    runway, the MTOW of the result is the ceiling at OAT ([oatLimit]) of
    the limiting factor that governs at Tref. *)
Theorem dry_mtow_is_oat_ceiling i r :
  calculateTakeoffPerformance pow i = Ok r ->
  checkInputs i (calculateParams pow i) = E.None ->
  runwayCondition i = RC.Dry ->
  exists l f,
    limits r = Some l
    /\ getLimitingFactor KeyTRefLimit r = Ok f
    /\ tRefLimitingFactor r = Some f
    /\ mtow r = Some (oatLimit (limitOf l f)).
Proof.
  intros Hrun Hok Hdry. unfold calculateTakeoffPerformance in Hrun.
  destruct (passed_run pow _ i r Hrun Hok) as (c & m & res1 & _ & Eres & Hfr & _).
  destruct (resolveMtow_spec c (weighed c (initialResult pow i))
              (dryMtowOf c (initialResult pow i))
              (calculateTvmcg c (params (initialResult pow i))))
    as (m' & res1' & Eres' & _ & Hm & _).
  rewrite Eres in Eres'. inversion Eres'; subst m' res1'. clear Eres'.
  specialize (Hm Hdry). subst m.
  apply frame_fields in Hfr as (_ & _ & _ & _ & Hl & _ & Ht & _ & Hm).
  exists (allWeightLimits c (initialResult pow i)),
    (limitingFactorAt KeyTRefLimit (allWeightLimits c (initialResult pow i))).
  unfold getLimitingFactor. rewrite Hl. auto.
Qed.

(** Claim C8, as amended.  When the forward-CG flag is set and the factor
    that governs at OAT is Runway or Vmcg, the takeoff weight is compared
    with the MTOW increased by max(0, a * MTOW + b), with the coefficients
    a and b of the configuration: the result has the error TooHeavy
    exactly when the increased value is below the takeoff weight, and the
    increased value is never below the MTOW.  The MTOW carried in the
    result is the one before the increase. *)
Theorem forward_cg_raises_compared_weight i r :
  calculateTakeoffPerformance pow i = Ok r ->
  checkInputs i (calculateParams pow i) = E.None ->
  forwardCg i = true ->
  oatLimitingFactor r = Some LF.Runway \/ oatLimitingFactor r = Some LF.Vmcg ->
  exists c m,
    confOf (conf i) = Some c
    /\ mtow r = Some m
    /\ let compared := m + Math.max 0 (fst (cgFactors c) * m + snd (cgFactors c)) in
       (error r = E.TooHeavy <-> (compared >=? tow i) = false)
       /\ (Num.finite m -> (m <=? compared) = true).
Proof.
  intros Hrun Hok Hfwd Hlf. unfold calculateTakeoffPerformance in Hrun.
  destruct (passed_run pow _ i r Hrun Hok) as (c & m & res1 & Ec & _ & Hfr & Hcase).
  apply frame_fields in Hfr as (_ & _ & _ & _ & _ & Ho & _ & _ & Hm).
  cbn [oatLimitingFactor mtow setMtow weighed setTvmcg setLimitingFactors] in Ho, Hm.
  exists c, m. split; [exact Ec|]. split; [exact Hm|].
  cbv zeta in Hcase. rewrite Hfwd in Hcase.
  assert (Hrv : isRunwayOrVmcg
                  (limitingFactorAt KeyOatLimit (allWeightLimits c (initialResult pow i)))
                = true).
  { rewrite Ho in Hlf. destruct Hlf as [Hlf|Hlf]; inversion Hlf as [Hlf']; rewrite Hlf';
      reflexivity. }
  rewrite Hrv in Hcase. cbn [andb] in Hcase.
  assert (Hcmp : forwardCgMtow c true m
                 = m + Math.max 0 (fst (cgFactors c) * m + snd (cgFactors c))).
  { unfold forwardCgMtow. destruct (cgFactors c). reflexivity. }
  cbv zeta. rewrite <- Hcmp. split.
  - destruct Hcase as [(Hb & He & _)|(Hb & He & _)].
    + tauto.
    + split; intro H; [|congruence].
      unfold speedError in He. rewrite H in He.
      destruct He as [He|[He|[He|He]]]; discriminate He.
  - apply forwardCgMtow_not_below.
Qed.

End Claims.

(** ** Termination without exception *)

Lemma performance_total self c res :
  runwayCondition (inputs res) <> RC.Contaminated30mmWetSnow ->
  (forceToga (inputs res) = true -> exists tw, self (tailwindInputs (inputs res)) = Ok tw) ->
  exists r, performance self c res = Ok r.
Proof.
  intros Hrc Hself. unfold performance. cbn [getLimitingFactor setLimits limits bind].
  fold (weighed c res). fold (dryMtowOf c res).
  cbn [params setLimits setLimitingFactors].
  destruct (resolveMtow_spec c (weighed c res) (dryMtowOf c res) (calculateTvmcg c (params res)))
    as (m & res1 & Eres & Hres1 & _).
  cbv zeta.
  change (resolveMtow c _ _ _)
    with (resolveMtow c (weighed c res) (dryMtowOf c res) (calculateTvmcg c (params res))).
  rewrite Eres. cbn [bind].
  assert (Hi : inputs (setMtow m res1) = inputs res).
  { destruct Hres1 as [->|[-> _]]; reflexivity. }
  fold (isRunwayOrVmcg (limitingFactorAt KeyOatLimit (allWeightLimits c res))).
  fold (forwardCgMtow c
          (forwardCg (inputs res)
           && isRunwayOrVmcg (limitingFactorAt KeyOatLimit (allWeightLimits c res))) m).
  destruct (forwardCgMtow c _ m >=? tow (inputs res)); [|eauto].
  assert (Hv : forall a t f lf,
             exists r, calculateVSpeeds c (setFlex f lf (setMtow m res1)) a t = Ok r).
  { intros a t f lf. apply calculateVSpeeds_total. cbn [inputs setFlex]. rewrite Hi. exact Hrc. }
  destruct (forceToga (inputs res)) eqn:Et.
  - destruct (Hself eq_refl) as [tw ->]. cbn [bind].
    destruct (E.eqb (error tw) E.None); [eauto|]. apply Hv.
  - destruct (isContaminated (runwayCondition (inputs res))); cbn [negb]; [apply Hv|].
    destruct (calculateFlexTemp_total c
                (setFlex None (flexLimitingFactor (params (setMtow m res1))) (setMtow m res1))
                (calculateTvmcg c (params res))
                (allWeightLimits c res)
                (limitingFactorAt KeyTRefLimit (allWeightLimits c res))
                (limitingFactorAt KeyTMaxLimit (allWeightLimits c res))
                (limitingFactorAt KeyTFlexMaxLimit (allWeightLimits c res)))
      as [fx Efx]; try (destruct Hres1 as [->|[-> _]]; reflexivity).
    rewrite Efx. cbn [bind].
    apply (Hv _ _ (fst fx) (snd fx)).
Qed.

Section Totality.

Variable pow : num -> num -> num.

Lemma with_total self i :
  runwayCondition i <> RC.Contaminated30mmWetSnow ->
  (forceToga i = true -> exists tw, self (tailwindInputs i) = Ok tw) ->
  exists r, calculateTakeoffPerformanceWith pow self i = Ok r.
Proof.
  intros Hrc Hself. unfold calculateTakeoffPerformanceWith. cbv zeta.
  change (error (initialResult pow i)) with (checkInputs i (calculateParams pow i)).
  destruct (E.eqb (checkInputs i (calculateParams pow i)) E.None) eqn:Ee;
    [|cbn [bind]; eauto].
  apply E_eqb_eq in Ee. destruct (checkInputs_conf _ _ Ee) as [c ->].
  destruct (performance_total self c (initialResult pow i) Hrc Hself) as [r0 ->].
  cbn [bind]. eauto.
Qed.

Lemma calculateTakeoffPerformance_total i :
  runwayCondition i <> RC.Contaminated30mmWetSnow ->
  exists r, calculateTakeoffPerformance pow i = Ok r.
Proof.
  intro Hrc.
  unfold calculateTakeoffPerformance. apply with_total; [exact Hrc|].
  intros _. apply with_total; [exact Hrc|]. cbn. discriminate.
Qed.

(** For every input whose runway condition is not 30 mm of wet snow,
    [calculateTakeoffPerformance] returns a result, which carries one
    error code; when that code is one of the eight validation errors or
    TooHeavy, the result has no V1, VR or V2 and no flex temperature. *)
Theorem result_with_absent_fields i :
  runwayCondition i <> RC.Contaminated30mmWetSnow ->
  exists r,
    calculateTakeoffPerformance pow i = Ok r
    /\ (validationError (error r) \/ error r = E.TooHeavy ->
        v1 r = None /\ vR r = None /\ v2 r = None /\ flex r = None).
Proof.
  intro Hrc.
  destruct (calculateTakeoffPerformance_total i Hrc) as [r Hrun].
  exists r. split; [exact Hrun|].
  unfold calculateTakeoffPerformance in Hrun.
  destruct (with_run pow _ i r Hrun) as [[Hn ->]|(Hok & _)]; [cbn; tauto|].
  destruct (passed_run pow _ i r Hrun Hok) as (c & m & res1 & _ & _ & _ & Hcase).
  cbv zeta in Hcase.
  destruct Hcase as [(_ & _ & H1 & HR & H2 & Hf)|(_ & He & _)]; [tauto|].
  intros [Hv|Hh]; exfalso.
  - unfold speedError in He.
    destruct He as [He|[He|[He|He]]]; rewrite He in Hv; exact Hv.
  - unfold speedError in He. rewrite Hh in He.
    destruct He as [He|[He|[He|He]]]; discriminate He.
Qed.

End Totality.

(** ** The MTOW of a wet runway *)

Section WetMtow.

Variable pow : num -> num -> num.


End WetMtow.

(** ** The tire-speed stage *)

Lemma from_le (M : Q) (rest : LerpLookupTable) :
  forall v0 k0 x,
    (v0 <= M)%Q -> Forall (fun p => fst p <= M)%Q rest -> (Lerp.from v0 k0 rest x <= M)%Q.
Proof.
  induction rest as [|[v1 k1] rest IH]; intros v0 k0 x H0 Hall; cbn [Lerp.from].
  - exact H0.
  - apply Forall_cons_iff in Hall as [H1 Hall]. cbn [fst] in H1.
    destruct (Qle_bool x k0) eqn:E0; [exact H0|].
    destruct (Qle_bool k1 x) eqn:E1; [apply IH; assumption|].
    assert (L0 : (k0 < x)%Q).
    { apply Qnot_le_lt. intro H. apply Qle_bool_iff in H. congruence. }
    assert (L1 : (x < k1)%Q).
    { apply Qnot_le_lt. intro H. apply Qle_bool_iff in H. congruence. }
    set (w := ((x - k0) / (k1 - k0))%Q).
    assert (W0 : (0 <= w)%Q).
    { unfold w. apply Qle_shift_div_l; lra. }
    assert (W1 : (w <= 1)%Q).
    { unfold w. apply Qle_shift_div_r; lra. }
    nra.
Qed.

Lemma minimumV1Vmc_get (pa : Q) :
  exists m1, Lerp.get minimumV1Vmc (Fin pa) = Fin m1 /\ (Qceiling m1 <= 122)%Z.
Proof.
  unfold minimumV1Vmc. cbn [Lerp.get]. eexists. split; [reflexivity|].
  rewrite <- (Qceiling_Z 122). apply Qceiling_resp_le.
  apply from_le; [unfold Qle; cbn; lia|].
  repeat (apply Forall_cons; [unfold Qle; cbn; lia|]). apply Forall_nil.
Qed.

Lemma min_inject (a b : Z) : Qmin (inject_Z a) (inject_Z b) = inject_Z (Z.min a b).
Proof.
  unfold Qmin, GenericMinMax.gmin, Qcompare, inject_Z, Z.min. cbn [Qnum Qden].
  rewrite !Z.mul_1_r. destruct (a ?= b)%Z; reflexivity.
Qed.

(** Claim C4, as amended.  In [reconcileVSpeeds], for a pressure altitude
    and raw speeds that are numbers: the tire-speed stage leaves V2 as
    corrected.  When the corrected V2 exceeds 195 kt and VR, held at or
    below V2, exceeds 195 kt as well, the result is flagged
    MaximumTireSpeed and VR is left as it is.  When V2 exceeds 195 kt and
    VR does not, VR is lowered to the ceiling 195 - (V2 - 195) if it is
    above it, and the result is then flagged VmcgVmcaLimits if the ceiling
    is below the floor of VR.  When V2 is at most 195 kt, VR is left as it
    is.  MaximumTireSpeed is raised in no other case. *)
Theorem tire_speed_flag_and_ceiling (c : Conf) (r : TakeoffPerformanceResult)
    (v1 vR v2 : num) :
  Num.finite (pressureAlt (params r)) ->
  Num.finite v1 -> Num.finite vR -> Num.finite v2 ->
  let V2 := correctedV2 c r v2 in
  let VR := cappedVR c r vR v2 in
  let out := reconcileVSpeeds c r v1 vR v2 in
  let vR' := snd (fst (snd out)) in
  snd (snd out) = V2
  /\ (maxVrOf V2 === 195 - (V2 - 195)) = true
  /\ ((V2 >? 195) = true -> (VR >? 195) = true ->
      error (fst out) = E.MaximumTireSpeed /\ vR' = VR)
  /\ ((V2 >? 195) = true -> (VR >? 195) = false ->
      vR' = Math.min VR (maxVrOf V2)
      /\ ((VR >? maxVrOf V2) = true -> (maxVrOf V2 <? minVrVmcOf r) = true ->
          error (fst out) = E.VmcgVmcaLimits))
  /\ ((V2 >? 195) = false -> vR' = VR)
  /\ (error (fst out) = E.MaximumTireSpeed ->
      error r = E.MaximumTireSpeed \/ ((V2 >? 195) = true /\ (VR >? 195) = true)).
Proof.
  intros Hpa F1 FR F2.
  destruct (finite_Fin _ Hpa) as [pa Epa].
  destruct (finite_Fin _ F1) as [q1 ->], (finite_Fin _ FR) as [qR ->],
    (finite_Fin _ F2) as [q2 ->].
  unfold reconcileVSpeeds, correctedV2, cappedVR, minVrVmcOf, maxVrOf, correctedV2.
  rewrite Epa.
  destruct (minimumV1Vmc_get pa) as (m1 & -> & Hm1).
  destruct (get_finite minimumVrVmc pa) as [mR ->]; [discriminate|].
  destruct (get_finite (minimumV2Vmc c) pa (minimumV2Vmc_nonempty c)) as [m2 ->].
  destruct (get2_finite (minimumV2Vmu c) pa (tow (inputs r)) (minimumV2Vmu_nonempty c))
    as [mu ->].
  cbn [Math.ceil Math.round Math.max Math.max3 Math.min Num.lift1 Num.lift2].
  set (z1 := Qfloor (Qmax q1 (inject_Z (Qceiling m1)) + 0.5)).
  set (zR := Qfloor (Qmax qR (inject_Z (Qceiling mR)) + 0.5)).
  set (z2 := Qfloor (Qmax (Qmax q2 (inject_Z (Qceiling m2))) (inject_Z (Qceiling mu)) + 0.5)).
  rewrite min_inject, !trunc_tire.
  assert (Hc : (Fin (inject_Z (390 - z2)) === 195 - (Fin (inject_Z z2) - 195)) = true).
  { cbn [Num.eqb Num.sub Num.lift2 Num.cmp]. apply Qeq_bool_iff.
    unfold Zminus. rewrite inject_Z_plus, inject_Z_opp.
    change (inject_Z 390) with 390%Q. lra. }
  change (Fin 195) with (Fin (inject_Z 195)).
  destruct (Z.min_spec zR z2) as [[Hmin ->]|[Hmin ->]];
    repeat (rewrite ?gtb_inject, ?ltb_inject;
            match goal with
            | |- context [(?a <? ?b)%Z] => destruct (Z.ltb_spec a b); cbn [fst snd]
            end);
    repeat split; intros; cbn [error setError fst snd] in *;
    try exact Hc; try reflexivity; try discriminate; try lia; try (left; assumption);
    rewrite ?min_inject; do 2 f_equal; lia.
Qed.

(** ** The choice of the configuration *)

Ltac rank_cases :=
  repeat match goal with
    | H : rankable _ |- _ =>
        let q := fresh "q" in let E1 := fresh "E" in let E2 := fresh "E" in
        destruct H as [[q E1] [E2|(? & E2)]]
    end.

Ltac order_facts :=
  repeat match goal with
    | H : (Fin _ <? Fin _) = true |- _ => apply ltb_iff in H
    | H : (Fin _ <? Fin _) = false |- _ =>
        apply not_true_iff_false in H; rewrite ltb_iff in H
    | H : Qeq_bool _ _ = true |- _ => apply Qeq_bool_iff in H
    | H : Qeq_bool _ _ = false |- _ => apply Qeq_bool_neq in H
    | |- context [Qeq_bool ?a ?b] =>
        let E := fresh "E" in destruct (Qeq_bool a b) eqn:E
    | H : context [Qeq_bool ?a ?b] |- _ =>
        let E := fresh "E" in destruct (Qeq_bool a b) eqn:E
    end.

Lemma before_irrefl a : rankable a -> before a a = false.
Proof.
  intro Ha. rank_cases; unfold before, compareResults; rewrite ?E, ?E0;
    cbn [Num.opt_eqb Num.orElse Num.eqb Num.cmp Num.sub Num.lift2];
    rewrite ?Qeq_bool_refl; apply not_true_iff_false; rewrite ltb_iff; lra.
Qed.

Lemma before_trans a b c :
  rankable a -> rankable b -> rankable c ->
  before a b = true -> before b c = true -> before a c = true.
Proof.
  intros Ha Hb Hc. rank_cases; unfold before, compareResults;
    repeat match goal with H : _ = Some _ |- _ => rewrite H; clear H
                      | H : _ = None |- _ => rewrite H; clear H end;
    cbn [Num.opt_eqb Num.orElse Num.eqb Num.cmp Num.sub Num.lift2];
    intros H1 H2; order_facts; try (apply ltb_iff); lra.
Qed.

Lemma before_false a b :
  rankable a -> rankable b -> before a b = false ->
  (flexOrZero a <=? flexOrZero b) = true
  /\ (Num.opt_eqb (flex a) (flex b) = true -> (v1OrZero b <=? v1OrZero a) = true).
Proof.
  intros Ha Hb. rank_cases; unfold before, compareResults, flexOrZero, v1OrZero;
    repeat match goal with H : _ = Some _ |- _ => rewrite H; clear H
                      | H : _ = None |- _ => rewrite H; clear H end;
    cbn [Num.opt_eqb Num.orElse Num.eqb Num.cmp Num.sub Num.lift2];
    intros H1; order_facts; (split; [apply leb_iff; lra|]);
    intro H2; order_facts; apply leb_iff; lra.
Qed.

Lemma insertResult_head x sorted seen :
  Forall rankable seen -> rankable x ->
  headInv sorted seen -> headInv (insertResult x sorted) (seen ++ [x]).
Proof.
  intros Hseen Hx Hinv. rewrite Forall_forall in Hseen.
  destruct sorted as [|h t]; cbn [insertResult headInv] in *.
  - subst seen. cbn. split; [auto|].
    intros r [<-|[]]. apply before_irrefl. exact Hx.
  - destruct Hinv as [Hin Hmin]. fold (before x h).
    destruct (before x h) eqn:Exh; cbn [headInv].
    + split; [apply in_or_app; right; left; reflexivity|].
      intros r Hr. apply in_app_or in Hr as [Hr|[<-|[]]].
      * destruct (before r x) eqn:Erx; [|reflexivity].
        rewrite <- (Hmin r Hr). symmetry.
        apply (before_trans r x h); auto.
      * apply before_irrefl. exact Hx.
    + split; [apply in_or_app; left; exact Hin|].
      intros r Hr. apply in_app_or in Hr as [Hr|[<-|[]]]; auto.
Qed.

Lemma sortResults_fold l :
  forall sorted seen,
    Forall rankable l -> Forall rankable seen -> headInv sorted seen ->
    headInv (fold_left (fun sorted x => insertResult x sorted) l sorted) (seen ++ l).
Proof.
  induction l as [|x l IH]; intros sorted seen Hl Hseen Hinv; cbn [fold_left].
  - rewrite app_nil_r. exact Hinv.
  - apply Forall_cons_iff in Hl as [Hx Hl].
    replace (seen ++ x :: l) with ((seen ++ [x]) ++ l) by (rewrite <- app_assoc; reflexivity).
    apply IH; [exact Hl | | apply insertResult_head; assumption].
    apply Forall_app. split; [exact Hseen|]. constructor; [exact Hx|constructor].
Qed.

Lemma sortResults_head l : Forall rankable l -> headInv (sortResults l) l.
Proof.
  intro Hl. apply (sortResults_fold l [] [] Hl); [constructor|reflexivity].
Qed.

Section Choice.

Variable pow : num -> num -> num.

Lemma successful_rankable i r :
  Num.finite (calculatePressureAltitude pow (elevation i) (qnh i)) ->
  calculateTakeoffPerformance pow i = Ok r ->
  error r = E.None ->
  rankable r.
Proof.
  intros Hpa Hrun He. split.
  - assert (Hs : speedsReconciled r).
    { refine (run_speeds pow _ i r Hpa _ Hrun He).
      intros tw Htw Hetw. exact (tailwind_run_speeds pow i tw Hpa Htw Hetw). }
    destruct Hs as (z1 & _ & _ & H1 & _). eauto.
  - destruct (flex r) as [f|] eqn:Ef; [right|left; reflexivity].
    pose proof (flex_above_oat pow i r f Hrun Ef) as Hgt.
    destruct f as [|qf]; [discriminate Hgt|].
    exists qf. reflexivity.
Qed.

(** For an input whose pressure altitude is a number and whose runway
    condition is not 30 mm of wet snow,
    [calculateTakeoffPerformanceOptConf] runs
    [calculateTakeoffPerformance] once for each of the configurations 1, 2
    and 3, and all three runs return.  If no result has the error None it
    returns the result of configuration 3.  Otherwise it returns a result
    with the error None whose flex temperature, counted as zero when
    there is none, is the highest among those results, and whose V1 is
    the lowest among those of them that have the same flex temperature or,
    like it, none; if only one result has the error None, that result is
    returned. *)
Theorem optimal_configuration_choice i :
  Num.finite (calculatePressureAltitude pow (elevation i) (qnh i)) ->
  runwayCondition i <> RC.Contaminated30mmWetSnow ->
  exists r1 r2 r3 best,
    calculateTakeoffPerformance pow (withConf 1 i) = Ok r1
    /\ calculateTakeoffPerformance pow (withConf 2 i) = Ok r2
    /\ calculateTakeoffPerformance pow (withConf 3 i) = Ok r3
    /\ calculateTakeoffPerformanceOptConf pow i = Ok best
    /\ let succeeded r := In r [r1; r2; r3] /\ error r = E.None in
       ((forall r, ~ succeeded r) -> best = r3)
       /\ (forall r, succeeded r ->
             succeeded best
             /\ (flexOrZero r <=? flexOrZero best) = true
             /\ (Num.opt_eqb (flex r) (flex best) = true ->
                 (v1OrZero best <=? v1OrZero r) = true)
             /\ ((forall r', succeeded r' -> r' = r) -> best = r)).
Proof.
  intros Hpa Hrc.
  destruct (calculateTakeoffPerformance_total pow (withConf 1 i) Hrc) as [r1 H1].
  destruct (calculateTakeoffPerformance_total pow (withConf 2 i) Hrc) as [r2 H2].
  destruct (calculateTakeoffPerformance_total pow (withConf 3 i) Hrc) as [r3 H3].
  set (results := [r1; r2; r3]).
  set (filteredResults := filter (fun r => E.eqb (error r) E.None) results).
  assert (Hin : forall r, In r filteredResults <-> In r results /\ error r = E.None).
  { intro r. unfold filteredResults. rewrite filter_In.
    split; intros [Hr He]; (split; [exact Hr|]); [apply E_eqb_eq; exact He|].
    rewrite He. reflexivity. }
  assert (Hgood : Forall rankable filteredResults).
  { apply Forall_forall. intros r Hr. apply Hin in Hr as [Hr He].
    destruct Hr as [<-|[<-|[<-|[]]]];
      [apply (successful_rankable (withConf 1 i)) | apply (successful_rankable (withConf 2 i))
       | apply (successful_rankable (withConf 3 i))]; assumption. }
  pose proof (sortResults_head filteredResults Hgood) as Hhead.
  assert (Hrun : calculateTakeoffPerformanceOptConf pow i
                 = match sortResults filteredResults with
                   | [] => Ok r3
                   | best :: _ => Ok best
                   end).
  { unfold calculateTakeoffPerformanceOptConf. rewrite H1, H2, H3. reflexivity. }
  destruct (sortResults filteredResults) as [|best rest]; cbn [headInv] in Hhead.
  - exists r1, r2, r3, r3. repeat (split; [assumption|]). cbv zeta. split; [reflexivity|].
    intros r Hr. apply Hin in Hr. rewrite Hhead in Hr. destruct Hr.
  - destruct Hhead as [Hbest Hmin].
    exists r1, r2, r3, best. repeat (split; [assumption|]). cbv zeta. split.
    + intro Hnone. apply Hin in Hbest. destruct (Hnone best Hbest).
    + intros r Hr.
      assert (Hb : rankable best) by (rewrite Forall_forall in Hgood; auto).
      assert (Hr' : rankable r) by (rewrite Forall_forall in Hgood; apply Hgood, Hin, Hr).
      destruct (before_false r best Hr' Hb (Hmin r (proj2 (Hin r) Hr))) as [Hf Hv].
      split; [apply Hin; exact Hbest|]. split; [exact Hf|]. split; [exact Hv|].
      intro Honly. apply Honly. apply Hin. exact Hbest.
Qed.

End Choice.

(** ** Runs on a standard day *)

Ltac run := vm_compute; reflexivity.

Lemma checkInputs_first_violation_witness :
  let i := standardDay 300000 3000 0 1 RC.Dry false false in
  checkInputs i (calculateParams powAtOne i)
  = firstViolation (inputConditions i (calculateParams powAtOne i)).
Proof.
  intro i. apply (checkInputs_first_violation i (calculateParams powAtOne i));
    vm_compute; exact I.
Defined.

Lemma getLimitingFactor_minimal_witness :
  let result := initialResult powAtOne (standardDay 300000 3000 0 1 RC.Dry false false) in
  let l := allWeightLimits Conf1 result in
  exists f,
    getLimitingFactor KeyTRefLimit (setLimits l result) = Ok f
    /\ (forall g,
          (weightNoBleedAt KeyTRefLimit (limitOf l f)
           <=? weightNoBleedAt KeyTRefLimit (limitOf l g)) = true)
    /\ (forall g,
          (LF.index g < LF.index f)%nat ->
          (weightNoBleedAt KeyTRefLimit (limitOf l f)
           <? weightNoBleedAt KeyTRefLimit (limitOf l g)) = true).
Proof.
  intros result l.
  apply (getLimitingFactor_minimal KeyTRefLimit Conf1 result).
  intro g. destruct g; vm_compute; exact I.
Defined.

Lemma successful_speeds_ordered_integers_witness :
  let i := standardDay 300000 100000 0 1 RC.Contaminated6mmWater false false in
  exists r,
    calculateTakeoffPerformance powAtOne i = Ok r /\ error r = E.None /\ speedsReconciled r.
Proof.
  intro i. eexists. split; [run|]. split; [reflexivity|].
  apply (successful_speeds_ordered_integers powAtOne i);
    [vm_compute; exact I | run | reflexivity].
Defined.

Lemma flex_only_when_usable_witness :
  let i := standardDay 300000 60000 0 2 RC.Dry false false in
  exists r f,
    calculateTakeoffPerformance powAtOne i = Ok r /\ flex r = Some f
    /\ inputs r = i /\ flexConditions r f.
Proof.
  intro i. do 2 eexists. split; [run|]. split; [reflexivity|].
  apply (flex_only_when_usable powAtOne i); [run | reflexivity].
Defined.

Lemma dry_mtow_is_oat_ceiling_witness :
  let i := standardDay 300000 3000 0 1 RC.Dry false false in
  exists r,
    calculateTakeoffPerformance powAtOne i = Ok r
    /\ exists l f,
         limits r = Some l
         /\ getLimitingFactor KeyTRefLimit r = Ok f
         /\ tRefLimitingFactor r = Some f
         /\ mtow r = Some (oatLimit (limitOf l f)).
Proof.
  intro i. eexists. split; [run|].
  apply (dry_mtow_is_oat_ceiling powAtOne i); run.
Defined.

(** C2 does not hold as stated: on a dry runway of 3000 m the resolved MTOW
    is the ceiling at OAT of the factor that governs at Tref, 87096 kg, not
    its ceiling at Tref, 84892 kg. *)
Lemma dry_mtow_is_not_tref_ceiling :
  let i := standardDay 300000 3000 0 1 RC.Dry false false in
  exists r l f m,
    calculateTakeoffPerformance powAtOne i = Ok r
    /\ checkInputs i (calculateParams powAtOne i) = E.None
    /\ limits r = Some l
    /\ tRefLimitingFactor r = Some f
    /\ mtow r = Some m
    /\ (m === 87096) = true
    /\ (tRefLimit (limitOf l f) === 84892) = true.
Proof.
  intro i. do 4 eexists. split; [run|]. repeat split; run.
Defined.


Lemma result_with_absent_fields_witness :
  let i := standardDay 300000 3000 0 1 RC.Dry false false in
  exists r,
    calculateTakeoffPerformance powAtOne i = Ok r
    /\ (validationError (error r) \/ error r = E.TooHeavy ->
        v1 r = None /\ vR r = None /\ v2 r = None /\ flex r = None).
Proof.
  intro i. apply (result_with_absent_fields powAtOne i). vm_compute. discriminate.
Defined.

(** Claim C3 asks for a result on every input.  With 30 mm of wet snow an
    input that passes validation gets none: [calculateVSpeeds] has no case
    for that condition, although the sources hold its table of speeds
    [vSpeedsContaminated30mmWetSnow], and the call ends with the exception
    of the default branch. *)
Lemma wet_snow_30mm_throws :
  let i := standardDay 300000 3000 0 1 RC.Contaminated30mmWetSnow false false in
  checkInputs i (calculateParams powAtOne i) = E.None
  /\ calculateTakeoffPerformance powAtOne i = Throw "Invalid runway condition".
Proof. split; run. Qed.

(** Claim C10 asks [calculateTakeoffPerformanceOptConf] for one of the
    three results.  With 30 mm of wet snow the run for configuration 1
    ends with the exception of [calculateVSpeeds], and so does the call;
    the runs for configurations 2 and 3 would end in the same way. *)
Lemma optimal_configuration_wet_snow_30mm_throws :
  let i := standardDay 300000 3000 0 1 RC.Contaminated30mmWetSnow false false in
  calculateTakeoffPerformanceOptConf powAtOne i = Throw "Invalid runway condition"
  /\ calculateTakeoffPerformance powAtOne (withConf 1 i) = Throw "Invalid runway condition"
  /\ calculateTakeoffPerformance powAtOne (withConf 2 i) = Throw "Invalid runway condition"
  /\ calculateTakeoffPerformance powAtOne (withConf 3 i) = Throw "Invalid runway condition".
Proof. repeat split; run. Qed.

Lemma tire_speed_flag_and_ceiling_witness :
  let r := initialResult powAtOne (standardDay 300000 3000 0 1 RC.Dry false false) in
  let V2 := correctedV2 Conf1 r 200 in
  let VR := cappedVR Conf1 r 180 200 in
  let out := reconcileVSpeeds Conf1 r 150 180 200 in
  let vR' := snd (fst (snd out)) in
  snd (snd out) = V2
  /\ (maxVrOf V2 === 195 - (V2 - 195)) = true
  /\ ((V2 >? 195) = true -> (VR >? 195) = true ->
      error (fst out) = E.MaximumTireSpeed /\ vR' = VR)
  /\ ((V2 >? 195) = true -> (VR >? 195) = false ->
      vR' = Math.min VR (maxVrOf V2)
      /\ ((VR >? maxVrOf V2) = true -> (maxVrOf V2 <? minVrVmcOf r) = true ->
          error (fst out) = E.VmcgVmcaLimits))
  /\ ((V2 >? 195) = false -> vR' = VR)
  /\ (error (fst out) = E.MaximumTireSpeed ->
      error r = E.MaximumTireSpeed \/ ((V2 >? 195) = true /\ (VR >? 195) = true)).
Proof.
  intro r.
  apply (tire_speed_flag_and_ceiling Conf1 r 150 180 200); vm_compute; exact I.
Defined.

(** C4 does not hold as stated: raw speeds of 150, 180 and 200 kt give a
    corrected V2 of 200 kt, above 195 kt, and no error. *)
Lemma v2_above_tire_speed_without_flag :
  let r := initialResult powAtOne (standardDay 300000 3000 0 1 RC.Dry false false) in
  let out := reconcileVSpeeds Conf1 r 150 180 200 in
  error r = E.None
  /\ snd out = (Fin 150, Fin 180, Fin 200)
  /\ (snd (snd out) >? 195) = true
  /\ error (fst out) = E.None.
Proof.
  repeat split; run.
Defined.

Lemma forward_cg_raises_compared_weight_witness :
  let i := standardDay 300000 300 0 1 RC.Dry false true in
  exists r,
    calculateTakeoffPerformance powAtOne i = Ok r
    /\ exists c m,
         confOf (conf i) = Some c
         /\ mtow r = Some m
         /\ let compared := m + Math.max 0 (fst (cgFactors c) * m + snd (cgFactors c)) in
            (error r = E.TooHeavy <-> (compared >=? tow i) = false)
            /\ (Num.finite m -> (m <=? compared) = true).
Proof.
  intro i. eexists. split; [run|].
  apply (forward_cg_raises_compared_weight powAtOne i); try run.
  right. run.
Defined.

(** C8 does not hold as stated: with a forward CG on a runway of 300 m,
    where Vmcg governs at OAT, the increment is positive and the MTOW of the
    result is the ceiling without it. *)
Lemma forward_cg_mtow_carried_without_increment :
  let i := standardDay 300000 300 0 1 RC.Dry false true in
  exists r l f m,
    calculateTakeoffPerformance powAtOne i = Ok r
    /\ forwardCg i = true
    /\ oatLimitingFactor r = Some LF.Vmcg
    /\ limits r = Some l /\ tRefLimitingFactor r = Some f
    /\ m = oatLimit (limitOf l f)
    /\ (Math.max 0 (fst (cgFactors Conf1) * m + snd (cgFactors Conf1)) >? 0) = true
    /\ mtow r = Some m.
Proof.
  intro i. do 4 eexists. split; [run|]. repeat split; run.
Defined.

Lemma optimal_configuration_choice_witness :
  let i := standardDay 300000 100000 0 1 RC.Contaminated6mmWater false false in
  exists r1 r2 r3 best,
    calculateTakeoffPerformance powAtOne (withConf 1 i) = Ok r1
    /\ calculateTakeoffPerformance powAtOne (withConf 2 i) = Ok r2
    /\ calculateTakeoffPerformance powAtOne (withConf 3 i) = Ok r3
    /\ calculateTakeoffPerformanceOptConf powAtOne i = Ok best
    /\ let succeeded r := In r [r1; r2; r3] /\ error r = E.None in
       ((forall r, ~ succeeded r) -> best = r3)
       /\ (forall r, succeeded r ->
             succeeded best
             /\ (flexOrZero r <=? flexOrZero best) = true
             /\ (Num.opt_eqb (flex r) (flex best) = true ->
                 (v1OrZero best <=? v1OrZero r) = true)
             /\ ((forall r', succeeded r' -> r' = r) -> best = r)).
Proof.
  intro i. apply (optimal_configuration_choice powAtOne i).
  - vm_compute. exact I.
  - vm_compute. discriminate.
Defined.

(** * Further properties *)

(** ** Crosswind limit *)

(** The crosswind limit is 35 kt exactly on the runways that are not
    contaminated and lies between 20 and 29 kt on the contaminated ones;
    it exceeds 25 kt on a contaminated runway only for compacted snow at an
    OAT of at most -15 degrees. *)
Theorem getCrosswindLimit_range (runwayCondition : RC.t) (oat : num) :
  (isContaminated runwayCondition = false -> getCrosswindLimit runwayCondition oat = 35)
  /\ (isContaminated runwayCondition = true ->
      (20 <=? getCrosswindLimit runwayCondition oat) = true
      /\ (getCrosswindLimit runwayCondition oat <=? 29) = true)
  /\ ((getCrosswindLimit runwayCondition oat >? 25) = true ->
      isContaminated runwayCondition = true ->
      runwayCondition = RC.ContaminatedCompactedSnow /\ (oat <=? -15) = true).
Proof.
  destruct runwayCondition; cbn [getCrosswindLimit isContaminated];
    try destruct (oat <=? -15) eqn:Eo;
    repeat split; intros; try reflexivity; try discriminate.
Qed.

(** ** Stabiliser trim *)

Lemma clamp01_range (f : Q) :
  (0 <= MathUtils.clamp01 true true f <= 1)%Q
  /\ ((f <= 0)%Q -> MathUtils.clamp01 true true f == 0)
  /\ ((1 <= f)%Q -> MathUtils.clamp01 true true f == 1)
  /\ ((0 <= f <= 1)%Q -> MathUtils.clamp01 true true f == f).
Proof.
  unfold MathUtils.clamp01.
  destruct (Q.max_spec f 0) as [[H1 H2]|[H1 H2]];
    destruct (Q.min_spec (Qmax f 0) 1) as [[H3 H4]|[H3 H4]];
    rewrite H4; rewrite ?H2 in *; repeat split; intros; try lra.
Qed.

(** The value that [calculateStabTrim] rounds. *)
Lemma stabTrim_lerp (cg : Q) :
  let v := MathUtils.lerp cg 17 40 3.8 (-2.5) true true in
  (-2.5 <= v <= 3.8)%Q
  /\ ((cg <= 17)%Q -> v == 3.8)
  /\ ((40 <= cg)%Q -> v == -2.5)
  /\ ((17 <= cg <= 40)%Q -> v == 3.8 - (cg - 17) * (63 # 230)).
Proof.
  unfold MathUtils.lerp.
  change (negb (Qeq_bool 17 40) && negb (Qeq_bool 3.8 (-2.5))) with true. cbv iota.
  destruct (clamp01_range ((cg - 17) / (40 - 17))) as (Hr & H0 & H1 & Hm).
  set (f := MathUtils.clamp01 true true ((cg - 17) / (40 - 17))) in *.
  assert (Hd : (cg - 17) / (40 - 17) == (cg - 17) * (1 # 23)) by (field).
  split; [lra|]. split; [|split]; intro H.
  - rewrite H0; [lra|]. rewrite Hd. lra.
  - rewrite H1; [lra|]. rewrite Hd. lra.
  - rewrite Hm; [rewrite Hd; lra|]. rewrite Hd. lra.
Qed.

(** A CG further aft never gives a higher trim. *)
Theorem calculateStabTrim_monotone (cg cg' : Q) :
  (cg <= cg')%Q -> (calculateStabTrim cg' <=? calculateStabTrim cg) = true.
Proof.
  intro Hle. unfold calculateStabTrim, MathUtils.round. apply leb_iff.
  assert (Hv : (MathUtils.lerp cg' 17 40 3.8 (-2.5) true true
                <= MathUtils.lerp cg 17 40 3.8 (-2.5) true true)%Q).
  { destruct (stabTrim_lerp cg) as (Hr & H17 & H40 & Hm).
    destruct (stabTrim_lerp cg') as (Hr' & H17' & H40' & Hm'). cbv zeta in *.
    destruct (Qlt_le_dec cg 17) as [A|A]; destruct (Qlt_le_dec 40 cg') as [B|B].
    - rewrite H17 by lra. lra.
    - rewrite H17 by lra. lra.
    - rewrite H40' by lra. lra.
    - destruct (Qlt_le_dec 40 cg) as [C|C]; [lra|].
      rewrite Hm, Hm' by lra. lra. }
  set (v := MathUtils.lerp cg 17 40 3.8 (-2.5) true true) in *.
  set (v' := MathUtils.lerp cg' 17 40 3.8 (-2.5) true true) in *.
  assert (Hf : (Qfloor (v' / 0.1 + 0.5) <= Qfloor (v / 0.1 + 0.5))%Z).
  { apply Qfloor_resp_le.
    assert (Hd : forall x, x / 0.1 + 0.5 == x * 10 + 0.5) by (intro; field).
    rewrite !Hd. lra. }
  rewrite Zle_Qle in Hf.
  set (q := inject_Z (Qfloor (v / 0.1 + 0.5))) in *.
  set (q' := inject_Z (Qfloor (v' / 0.1 + 0.5))) in *. lra.
Qed.

(** ** CG envelope *)

Lemma vfrom_row2 (lo0 hi0 lo1 hi1 : Q) (rest : LerpVectorLookupTable) :
  forall v0 k0 x,
    row2Within lo0 hi0 lo1 hi1 v0 ->
    Forall (fun row => row2Within lo0 hi0 lo1 hi1 (fst row)) rest ->
    row2Within lo0 hi0 lo1 hi1 (Lerp.vfrom v0 k0 rest x).
Proof.
  induction rest as [|[v1 k1] rest IH]; intros v0 k0 x H0 Hall; cbn [Lerp.vfrom].
  - exact H0.
  - apply Forall_cons_iff in Hall as [H1 Hall]. cbn [fst] in H1.
    destruct (Qle_bool x k0) eqn:E0; [exact H0|].
    destruct (Qle_bool k1 x) eqn:E1; [apply IH; assumption|].
    assert (L0 : (k0 < x)%Q).
    { apply Qnot_le_lt. intro H. apply Qle_bool_iff in H. congruence. }
    assert (L1 : (x < k1)%Q).
    { apply Qnot_le_lt. intro H. apply Qle_bool_iff in H. congruence. }
    set (w := ((x - k0) / (k1 - k0))%Q).
    assert (W0 : (0 <= w)%Q) by (unfold w; apply Qle_shift_div_l; lra).
    assert (W1 : (w <= 1)%Q) by (unfold w; apply Qle_shift_div_r; lra).
    destruct H0 as (a & b & -> & Ha & Hb). destruct H1 as (a' & b' & -> & Ha' & Hb').
    exists (a + w * (a' - a))%Q, (b + w * (b' - b))%Q.
    split; [reflexivity|]. split; split; nra.
Qed.

Lemma takeoffCgLimits_within (tow : Q) :
  exists lower upper : Q,
    Lerp.getVector takeoffCgLimits (Fin tow) = [Fin lower; Fin upper]
    /\ (15 <= lower <= 24)%Q /\ (32.5 <= upper <= 40)%Q.
Proof.
  unfold takeoffCgLimits. cbn [Lerp.getVector].
  match goal with
  | |- context [Lerp.vfrom ?v0 ?k0 ?rest tow] =>
      destruct (vfrom_row2 15 24 32.5 40 rest v0 k0 tow) as (a & b & E & Ha & Hb)
  end.
  - do 2 eexists. split; [reflexivity|]. split; split; apply Qle_bool_iff; reflexivity.
  - repeat (apply Forall_cons;
            [do 2 eexists; split; [reflexivity|]; split; split; apply Qle_bool_iff;
             vm_compute; reflexivity|]).
    apply Forall_nil.
  - rewrite E. exists a, b. split; [reflexivity|]. split; assumption.
Qed.

(** A CG that [isCgWithinLimits] accepts lies between 15 % and 40 % MAC,
    and a CG between 24 % and 32.5 % MAC is accepted, whatever the takeoff
    weight. *)
Theorem isCgWithinLimits_envelope (cg tow : Q) :
  (isCgWithinLimits cg tow = true -> (15 <= cg <= 40)%Q)
  /\ ((24 <= cg <= 32.5)%Q -> isCgWithinLimits cg tow = true).
Proof.
  unfold isCgWithinLimits.
  destruct (takeoffCgLimits_within tow) as (lower & upper & -> & Hl & Hu).
  cbn [Lerp.at_ nth]. split.
  - intro H. apply andb_true_iff in H as [H1 H2].
    apply geb_iff in H1. apply leb_iff in H2. split; lra.
  - intro H. apply andb_true_iff. split; [apply geb_iff | apply leb_iff]; lra.
Qed.

(** ** What a result holds *)

Lemma resolveMtow_too_light c res d tv m res1 :
  resolveMtow c res d tv = Ok (m, res1) ->
  error res <> E.TooLight ->
  error res1 = E.TooLight ->
  exists correctionFactors mtowFactors minCorrectedWeight,
    contaminatedTables (runwayCondition (inputs res))
    = Some (correctionFactors, mtowFactors, minCorrectedWeight)
    /\ (d - Lerp.get (correctionFactors c) (adjustedTora (params res))
        <? minCorrectedWeight c) = true.
Proof.
  unfold resolveMtow. intros H Hn He.
  destruct (runwayCondition (inputs res)); cbn [contaminatedTables] in *;
    try (inversion H; subst; congruence);
    match type of H with
    | Ok (_, if ?b then _ else _) = _ =>
        destruct b eqn:Eb; inversion H; subst; [|congruence]
    end;
    do 3 eexists; (split; [reflexivity | exact Eb]).
Qed.

Section Results.

Variable pow : num -> num -> num.

(** Every result carries the inputs of the call and the parameters derived
  from them, and a stabiliser trim exactly when a CG was given, whatever
  its error. *)
Theorem result_echoes_inputs i r :
calculateTakeoffPerformance pow i = Ok r ->
inputs r = i
/\ numbers (params r) = numbers (calculateParams pow i)
/\ stabTrim r = option_map calculateStabTrim (cg i).
Proof.
intro Hrun. unfold calculateTakeoffPerformance in Hrun.
destruct (with_run pow _ i r Hrun) as [[Hn ->]|(Hok & c & r0 & Ec & Hp & Er)].
- repeat split.
- destruct (passed_run pow _ i r Hrun Hok) as (c' & m & res1 & _ & _ & Hfr & _).
  unfold frame in Hfr. cbn in Hfr. subst r.
  repeat split; cbn in *; congruence.
Qed.

(** When validation fails the result holds the error of [checkInputs] and
  no limits, limiting factors, T-VMCG, MTOW or dry speeds; when it passes
  they are all assigned from the weight limits, also for a result that
  is TooHeavy. *)
Theorem products_follow_validation i r :
calculateTakeoffPerformance pow i = Ok r ->
let res := initialResult pow i in
(checkInputs i (calculateParams pow i) <> E.None ->
 error r = checkInputs i (calculateParams pow i)
 /\ limits r = None /\ oatLimitingFactor r = None /\ tRefLimitingFactor r = None
 /\ tMaxLimitingFactor r = None /\ tFlexMaxLimitingFactor r = None
 /\ tvmcg r = None /\ mtow r = None /\ intermediateSpeeds r = None)
/\ (checkInputs i (calculateParams pow i) = E.None ->
    exists c m,
      confOf (conf i) = Some c
      /\ limits r = Some (allWeightLimits c res)
      /\ oatLimitingFactor r = Some (limitingFactorAt KeyOatLimit (allWeightLimits c res))
      /\ tRefLimitingFactor r = Some (limitingFactorAt KeyTRefLimit (allWeightLimits c res))
      /\ tMaxLimitingFactor r = Some (limitingFactorAt KeyTMaxLimit (allWeightLimits c res))
      /\ tFlexMaxLimitingFactor r
         = Some (limitingFactorAt KeyTFlexMaxLimit (allWeightLimits c res))
      /\ tvmcg r = Some (calculateTvmcg c (calculateParams pow i))
      /\ mtow r = Some m).
Proof.
intro Hrun. unfold calculateTakeoffPerformance in Hrun. cbv zeta. split.
- intro Hbad.
  destruct (with_run pow _ i r Hrun) as [[Hn ->]|(Hok & _)]; [|congruence].
  repeat split.
- intro Hok.
  destruct (passed_run pow _ i r Hrun Hok) as (c & m & res1 & Ec & _ & Hfr & _).
  exists c, m. split; [exact Ec|].
  unfold frame in Hfr. cbn in Hfr.
  repeat split; congruence.
Qed.

(** Without the forward-CG flag, a validated input gives the error TooHeavy
  exactly when the MTOW of the result is not at or above the takeoff
  weight, an MTOW that is not a number included. *)
Theorem too_heavy_iff_mtow_below_tow i r :
calculateTakeoffPerformance pow i = Ok r ->
checkInputs i (calculateParams pow i) = E.None ->
forwardCg i = false ->
exists m, mtow r = Some m /\ (error r = E.TooHeavy <-> (m >=? tow i) = false).
Proof.
intros Hrun Hok Hcg. unfold calculateTakeoffPerformance in Hrun.
destruct (passed_run pow _ i r Hrun Hok) as (c & m & res1 & _ & _ & Hfr & Hcase).
cbv zeta in Hcase. rewrite Hcg in Hcase. cbn [andb forwardCgMtow] in Hcase.
exists m. split.
- apply frame_fields in Hfr as (_ & _ & _ & _ & _ & _ & _ & _ & Hm). exact Hm.
- destruct Hcase as [(Hb & He & _)|(Hb & He & _)].
  + tauto.
  + split; [|congruence]. intro Hh. rewrite Hh in He. unfold speedError in He.
    destruct He as [He|[He|[He|He]]]; discriminate He.
Qed.

(** The error TooLight is reported on a contaminated runway only, and only
  when the corrected weight (the dry MTOW less the weight correction of
  the runway condition) is below the minimum of the condition for the
  configuration. *)
Theorem too_light_only_below_minimum i r :
calculateTakeoffPerformance pow i = Ok r ->
error r = E.TooLight ->
isContaminated (runwayCondition i) = true
/\ exists c correctionFactors mtowFactors minCorrectedWeight,
     confOf (conf i) = Some c
     /\ contaminatedTables (runwayCondition i)
        = Some (correctionFactors, mtowFactors, minCorrectedWeight)
     /\ (dryMtowOf c (initialResult pow i)
         - Lerp.get (correctionFactors c) (adjustedTora (calculateParams pow i))
         <? minCorrectedWeight c) = true.
Proof.
intros Hrun He. unfold calculateTakeoffPerformance in Hrun.
destruct (with_run pow _ i r Hrun) as [[Hn Er]|(Hok & c & r0 & Ec & Hp & Er)].
- subst r. cbn in He.
  destruct (validationError_spec i (calculateParams pow i)) as [H|H]; [congruence|].
  rewrite He in H. destruct H.
- subst r. cbn [error setStabTrim] in He.
  apply performance_run in Hp. cbv zeta in Hp.
  destruct Hp as (m & res1 & Eres & [(_ & ->)|(_ & Hstage)]); [discriminate He|].
  apply stage_facts in Hstage as (_ & [Herr|Hsp] & _).
  2: { unfold speedError in Hsp. rewrite He in Hsp. destruct Hsp; discriminate. }
  rewrite He in Herr. cbn [error setMtow] in Herr. symmetry in Herr.
  assert (Hnot : error (weighed c (initialResult pow i)) <> E.TooLight).
  { cbn. rewrite Hok. discriminate. }
  destruct (resolveMtow_too_light _ _ _ _ _ _ Eres Hnot Herr)
    as (cf & mf & mw & Et & Hlt).
  cbn [inputs weighed setTvmcg setLimitingFactors setLimits initialResult] in Et.
  split.
  + destruct (runwayCondition i); try reflexivity; discriminate Et.
  + exists c, cf, mf, mw. repeat split; assumption.
Qed.

(** With forced TOGA, when the evaluation of the same inputs at 15 kt of
  tailwind and without forced TOGA ends with the error None, a result
  that passed validation and is not TooHeavy has the speeds and the dry
  speeds of that evaluation, and no flex temperature. *)
Theorem toga_speeds_from_tailwind_run i r tw :
calculateTakeoffPerformance pow i = Ok r ->
forceToga i = true ->
checkInputs i (calculateParams pow i) = E.None ->
error r <> E.TooHeavy ->
calculateTakeoffPerformance pow (tailwindInputs i) = Ok tw ->
error tw = E.None ->
v1 r = v1 tw /\ vR r = vR tw /\ v2 r = v2 tw
/\ intermediateSpeeds r = intermediateSpeeds tw
/\ flex r = None.
Proof.
intros Hrun Htoga Hok Hnh Htw Hetw.
rewrite calculateTakeoffPerformance_unfold in Hrun.
destruct (with_run pow _ i r Hrun) as [[Hn _]|(_ & c & r0 & Ec & Hp & ->)]; [congruence|].
cbn [error setStabTrim] in Hnh.
apply performance_run in Hp. cbv zeta in Hp.
destruct Hp as (m & res1 & Eres & [(_ & ->)|(_ & Hstage)]); [cbn in Hnh; congruence|].
assert (Hi : inputs (setMtow m res1) = i).
{ destruct (resolveMtow_spec c (weighed c (initialResult pow i))
              (dryMtowOf c (initialResult pow i))
              (calculateTvmcg c (params (initialResult pow i))))
    as (m' & res1' & Eres' & [Hr|[Hr _]] & _);
    rewrite Eres in Eres'; inversion Eres'; subst; reflexivity. }
destruct Hstage as [tw' Ht Etw' Hn' | tw' r' Ht Etw' Hn' Hv | fx r' Ht Hc Hf Hv | r' Ht Hc Hv];
  rewrite Hi in *.
- rewrite Htw in Etw'. inversion Etw'; subst tw'. cbn. repeat split.
- rewrite Htw in Etw'. inversion Etw'; subst tw'. congruence.
- congruence.
- congruence.
Qed.

End Results.

(** ** The flex temperature *)

Lemma calculateFlexTemp_pair c res tv fx :
  calculateFlexTemp c res tv = Ok fx ->
  fx = (None, None)
  \/ exists t lf,
       fx = (Some (adjustFlexTemp c res tv t), Some lf)
       /\ (adjustFlexTemp c res tv t >? oat (inputs res)) = true.
Proof.
  unfold calculateFlexTemp.
  destruct (limits res) as [l|]; [|discriminate].
  destruct (tRefLimitingFactor res) as [tRefLF|]; [|discriminate].
  destruct (tMaxLimitingFactor res) as [tMaxLF|]; [|discriminate].
  destruct (tFlexMaxLimitingFactor res) as [tFlexMaxLF|]; [|discriminate].
  destruct (tow (inputs res) <? tRefLimit (limitOf l tRefLF)).
  2: { intro H. inversion H. left. reflexivity. }
  destruct (flexInterval res l _ _ _) as [[[iterFrom iterTo] fromLF] toLF].
  destruct (flexLoop _ _ _ _ _) as [[flexTemp flexLF]|].
  2: { intro H. inversion H. left. reflexivity. }
  destruct (adjustFlexTemp c res tv flexTemp >? oat (inputs res)) eqn:Eo.
  2: { intro H. inversion H. left. reflexivity. }
  intro H. inversion H. right. exists flexTemp, flexLF. auto.
Qed.

Lemma Qceiling_negative (x : Q) : (x < 0)%Q -> (Qceiling x <= 0)%Z.
Proof.
  intro H. rewrite <- (Qceiling_Z 0). apply Qceiling_resp_le.
  change (inject_Z 0) with 0%Q. lra.
Qed.

(** Truncation gives an integer, at most any bound that is not negative
    and not below the number. *)
Lemma trunc_below (x q : Q) :
  (x <= q)%Q -> (0 <= q)%Q ->
  (inject_Z (if Qle_bool 0 x then Qfloor x else Qceiling x) <= q)%Q.
Proof.
  intros Hx Hq. destruct (Qle_bool 0 x) eqn:E.
  - eapply Qle_trans; [apply Qfloor_le|exact Hx].
  - assert (Hn : (x < 0)%Q).
    { apply Qnot_le_lt. intro H. apply Qle_bool_iff in H. congruence. }
    apply Qceiling_negative in Hn. rewrite Zle_Qle in Hn.
    change (inject_Z 0) with 0%Q in Hn. lra.
Qed.

Lemma adjustFlexTemp_dry c res tv t :
  runwayCondition (inputs res) = RC.Dry ->
  Num.finite (adjustFlexTemp c res tv t) ->
  Num.integer (adjustFlexTemp c res tv t)
  /\ ((0 <=? tFlexMax (params res)) = true ->
      (adjustFlexTemp c res tv t <=? tFlexMax (params res)) = true).
Proof.
  unfold adjustFlexTemp. intros -> Hfin.
  set (y := if packs (inputs res) then _ else _) in *.
  destruct y as [|y]; [destruct Hfin|].
  destruct (tFlexMax (params res)) as [|q]; [destruct Hfin|].
  cbn [Math.min Math.trunc Num.lift1 Num.lift2] in *. split.
  - eexists. reflexivity.
  - intro H0. apply leb_iff in H0. apply leb_iff.
    apply trunc_below; [apply Q.le_min_r|exact H0].
Qed.

Section Flex.

Variable pow : num -> num -> num.

(** The ways through [calculateTakeoffPerformance]. *)
Lemma run_cases i r :
calculateTakeoffPerformance pow i = Ok r ->
let trim := option_map calculateStabTrim (cg i) in
(checkInputs i (calculateParams pow i) <> E.None
 /\ r = setStabTrim trim (initialResult pow i))
\/ exists c m res1,
     confOf (conf i) = Some c
     /\ checkInputs i (calculateParams pow i) = E.None
     /\ inputs (setMtow m res1) = i
     /\ params (setMtow m res1) = calculateParams pow i
     /\ limits (setMtow m res1) = Some (allWeightLimits c (initialResult pow i))
     /\ oatLimitingFactor (setMtow m res1)
        = Some (limitingFactorAt KeyOatLimit (allWeightLimits c (initialResult pow i)))
     /\ flex (setMtow m res1) = None
     /\ (v1 (setMtow m res1) = None /\ vR (setMtow m res1) = None
         /\ v2 (setMtow m res1) = None /\ intermediateSpeeds (setMtow m res1) = None)
     /\ (r = setStabTrim trim (setError E.TooHeavy (setMtow m res1))
         \/ exists a r0,
              SpeedStage (calculateTakeoffPerformance pow) c (setMtow m res1) a
                (calculateTvmcg c (calculateParams pow i)) r0
              /\ r = setStabTrim trim r0).
Proof.
intro Hrun. cbv zeta. rewrite calculateTakeoffPerformance_unfold in Hrun.
destruct (with_run pow _ i r Hrun) as [[Hn Er]|(Hok & c & r0 & Ec & Hp & Er)];
  [left; auto|right].
apply performance_run in Hp. cbv zeta in Hp.
destruct Hp as (m & res1 & Eres & Hcase).
exists c, m, res1. split; [exact Ec|]. split; [exact Hok|].
assert (Hres1 : res1 = weighed c (initialResult pow i)
                \/ res1 = setError E.TooLight (weighed c (initialResult pow i))).
{ destruct (resolveMtow_spec c (weighed c (initialResult pow i))
              (dryMtowOf c (initialResult pow i))
              (calculateTvmcg c (params (initialResult pow i))))
    as (m' & res1' & Eres' & [Hr|[Hr _]] & _);
    rewrite Eres in Eres'; inversion Eres'; subst; auto. }
split; [destruct Hres1 as [->| ->]; reflexivity|].
split; [destruct Hres1 as [->| ->]; reflexivity|].
split; [destruct Hres1 as [->| ->]; reflexivity|].
split; [destruct Hres1 as [->| ->]; reflexivity|].
split; [destruct Hres1 as [->| ->]; reflexivity|].
split; [destruct Hres1 as [->| ->]; repeat split|].
destruct Hcase as [(_ & ->)|(_ & Hstage)]; [left; exact Er|right].
eexists _, r0. split; [exact Hstage|exact Er].
Qed.

(** The flex temperature and the flex limiting factor of a stage. *)
Lemma stage_flex c r2 a tv r :
SpeedStage (calculateTakeoffPerformance pow) c r2 a tv r ->
flexLimitingFactor (params r2) = None ->
(flex r = None /\ flexLimitingFactor (params r) = None)
\/ (forceToga (inputs r2) = false
    /\ exists t lf,
         let res := setFlex None None r2 in
         flex r = Some (adjustFlexTemp c res tv t)
         /\ flexLimitingFactor (params r) = Some lf
         /\ (adjustFlexTemp c res tv t >? oat (inputs r2)) = true).
Proof.
intros H Hlf.
destruct H as [tw Ht Etw Hn | tw r Ht Etw Hn Hv | fx r Ht Hc Hf Hv | r Ht Hc Hv];
  rewrite Hlf in *.
- left. split; reflexivity.
- apply calculateVSpeeds_spec in Hv as (Hcore & _). unfold core in Hcore.
  left. split; [|replace (params r) with (params (setFlex None None r2))];
    cbn in *; congruence.
- apply calculateVSpeeds_spec in Hv as (Hcore & _). unfold core in Hcore.
  destruct (calculateFlexTemp_pair _ _ _ _ Hf) as [->|(t & lf & -> & Hgt)].
  + left. split; [|replace (params r) with (params (setFlex None None (setFlex None None r2)))];
      cbn in *; congruence.
  + right. split; [exact Ht|]. exists t, lf. cbv zeta.
    split; [cbn in *; congruence|]. split; [|exact Hgt].
    replace (params r)
      with (params (setFlex (Some (adjustFlexTemp c (setFlex None None r2) tv t)) (Some lf)
                      (setFlex None None r2))); [reflexivity|].
    cbn in *; congruence.
- apply calculateVSpeeds_spec in Hv as (Hcore & _). unfold core in Hcore.
  left. split; [|replace (params r) with (params (setFlex None None r2))];
    cbn in *; congruence.
Qed.

Lemma run_flex i r :
calculateTakeoffPerformance pow i = Ok r ->
(flex r = None /\ flexLimitingFactor (params r) = None)
\/ (forceToga i = false
    /\ exists c res tv t lf,
         inputs res = i /\ params res = calculateParams pow i
         /\ flex r = Some (adjustFlexTemp c res tv t)
         /\ flexLimitingFactor (params r) = Some lf
         /\ (adjustFlexTemp c res tv t >? oat i) = true).
Proof.
intro Hrun.
destruct (run_cases i r Hrun)
  as [[_ ->]|(c & m & res1 & _ & _ & Hi & Hp & _ & _ & Hfx & _
              & [->|(a & r0 & Hstage & ->)])].
- left. split; reflexivity.
- left. split; [exact Hfx|]. cbn [params setStabTrim setError]. rewrite Hp. reflexivity.
- assert (Hlf : flexLimitingFactor (params (setMtow m res1)) = None)
    by (rewrite Hp; reflexivity).
  destruct (stage_flex _ _ _ _ _ Hstage Hlf) as [[H1 H2]|(Ht & t & lf & H1 & H2 & H3)].
  + left. split; assumption.
  + right. rewrite Hi in Ht, H3. split; [exact Ht|].
    exists c, (setFlex None None (setMtow m res1)), (calculateTvmcg c (calculateParams pow i)),
      t, lf.
    cbv zeta in *. cbn [inputs setFlex]. rewrite Hi.
    split; [reflexivity|]. split; [|auto].
    cbn [params setFlex]. rewrite Hp. reflexivity.
Qed.

(** A result has a flex limiting factor exactly when it has a flex
  temperature. *)
Theorem flex_with_its_limiting_factor i r :
calculateTakeoffPerformance pow i = Ok r ->
(flex r = None <-> flexLimitingFactor (params r) = None).
Proof.
intro Hrun.
destruct (run_flex i r Hrun) as [[H1 H2]|(_ & c & res & tv & t & lf & _ & _ & H1 & H2 & _)].
- tauto.
- rewrite H1, H2. split; discriminate.
Qed.

(** On a dry runway a flex temperature is a whole number of degrees and,
  where Tflexmax is not negative, at most Tflexmax. *)
Theorem dry_flex_whole_and_within_tflexmax i r f :
calculateTakeoffPerformance pow i = Ok r ->
runwayCondition i = RC.Dry ->
flex r = Some f ->
Num.integer f
/\ ((0 <=? tFlexMax (calculateParams pow i)) = true ->
    (f <=? tFlexMax (calculateParams pow i)) = true).
Proof.
intros Hrun Hdry Hf.
destruct (run_flex i r Hrun)
  as [[H1 _]|(_ & c & res & tv & t & lf & Hi & Hp & H1 & _ & Hgt)]; [congruence|].
rewrite H1 in Hf. inversion Hf; subst f. rewrite <- Hp.
apply adjustFlexTemp_dry.
- rewrite Hi. exact Hdry.
- revert Hgt. destruct (adjustFlexTemp c res tv t); [discriminate|intros _; exact I].
Qed.

End Flex.

(** ** The floors of the speeds *)

Lemma minimumVrVmc_get (pa : Q) :
  exists mR, Lerp.get minimumVrVmc (Fin pa) = Fin mR /\ (Qceiling mR <= 123)%Z.
Proof.
  unfold minimumVrVmc. cbn [Lerp.get]. eexists. split; [reflexivity|].
  rewrite <- (Qceiling_Z 123). apply Qceiling_resp_le.
  apply from_le; [unfold Qle; cbn; lia|].
  repeat (apply Forall_cons; [unfold Qle; cbn; lia|]). apply Forall_nil.
Qed.

Lemma leb_inject (a b : Z) : (Fin (inject_Z a) <=? Fin (inject_Z b)) = (a <=? b)%Z.
Proof.
  destruct (Z.leb_spec a b) as [H|H].
  - apply leb_iff. rewrite <- Zle_Qle. exact H.
  - apply not_true_iff_false. rewrite leb_iff, <- Zle_Qle. lia.
Qed.

Lemma round_max_floor (q : Q) (k : Z) : (k <= Qfloor (Qmax q (inject_Z k) + 0.5))%Z.
Proof.
  rewrite <- (Qfloor_Z k) at 1. apply Qfloor_resp_le.
  pose proof (Q.le_max_r q (inject_Z k)). lra.
Qed.

(** After [reconcileVSpeeds], for a pressure altitude and raw speeds that
    are numbers, V2 is at or above its two floors and, unless the result
    is flagged VmcgVmcaLimits, V1 and VR are at or above theirs. *)
Theorem reconciled_speeds_respect_floors (c : Conf) (r : TakeoffPerformanceResult)
    (v1 vR v2 : num) :
  Num.finite (pressureAlt (params r)) ->
  Num.finite v1 -> Num.finite vR -> Num.finite v2 ->
  let out := reconcileVSpeeds c r v1 vR v2 in
  let v1' := fst (fst (snd out)) in
  let vR' := snd (fst (snd out)) in
  let v2' := snd (snd out) in
  (minV2VmcOf c r <=? v2') = true
  /\ (minV2VmuOf c r <=? v2') = true
  /\ (error (fst out) <> E.VmcgVmcaLimits ->
      (minV1VmcOf r <=? v1') = true /\ (minVrVmcOf r <=? vR') = true).
Proof.
  intros Hpa F1 FR F2.
  destruct (finite_Fin _ Hpa) as [pa Epa].
  destruct (finite_Fin _ F1) as [q1 ->], (finite_Fin _ FR) as [qR ->],
    (finite_Fin _ F2) as [q2 ->].
  unfold reconcileVSpeeds, minV1VmcOf, minVrVmcOf, minV2VmcOf, minV2VmuOf.
  rewrite Epa.
  destruct (minimumV1Vmc_get pa) as (m1 & -> & Hm1).
  destruct (minimumVrVmc_get pa) as (mR & -> & HmR).
  destruct (get_finite (minimumV2Vmc c) pa (minimumV2Vmc_nonempty c)) as [m2 ->].
  destruct (get2_finite (minimumV2Vmu c) pa (tow (inputs r)) (minimumV2Vmu_nonempty c))
    as [mu ->].
  cbn [Math.ceil Math.round Math.max Math.max3 Math.min Num.lift1 Num.lift2].
  pose proof (round_max_floor q1 (Qceiling m1)) as G1.
  pose proof (round_max_floor qR (Qceiling mR)) as GR.
  pose proof (round_max_floor (Qmax q2 (inject_Z (Qceiling m2))) (Qceiling mu)) as Gu.
  assert (G2 : (Qceiling m2
                <= Qfloor (Qmax (Qmax q2 (inject_Z (Qceiling m2))) (inject_Z (Qceiling mu))
                           + 0.5))%Z).
  { rewrite <- (Qfloor_Z (Qceiling m2)) at 1. apply Qfloor_resp_le.
    pose proof (Q.le_max_r q2 (inject_Z (Qceiling m2))).
    pose proof (Q.le_max_l (Qmax q2 (inject_Z (Qceiling m2))) (inject_Z (Qceiling mu))).
    lra. }
  set (z1 := Qfloor (Qmax q1 (inject_Z (Qceiling m1)) + 0.5)) in *.
  set (zR := Qfloor (Qmax qR (inject_Z (Qceiling mR)) + 0.5)) in *.
  set (z2 := Qfloor (Qmax (Qmax q2 (inject_Z (Qceiling m2))) (inject_Z (Qceiling mu)) + 0.5))
    in *.
  rewrite !trunc_tire.
  change (Fin 195) with (Fin (inject_Z 195)).
  repeat (rewrite ?gtb_inject, ?ltb_inject;
          match goal with
          | |- context [(?a <? ?b)%Z] => destruct (Z.ltb_spec a b); cbn [fst snd]
          end);
    rewrite ?leb_inject;
    (split; [apply Z.leb_le; lia|]); (split; [apply Z.leb_le; lia|]);
    cbn [error setError]; intro Hne; try congruence;
    split; apply Z.leb_le; lia.
Qed.

(** ** Corrections of the weight limits *)

Lemma dropSameSign_sign (weightDelta wind : num) :
  Num.finite (dropSameSign weightDelta wind) ->
  ((wind >? 0) = true -> (dropSameSign weightDelta wind <=? 0) = true)
  /\ ((wind <? 0) = true -> (dropSameSign weightDelta wind >=? 0) = true).
Proof.
  unfold dropSameSign.
  destruct weightDelta as [|d]; [intros []|]. destruct wind as [|w].
  { intros _. split; discriminate. }
  cbn [Math.sign Num.lift1 Num.eqb Num.cmp].
  destruct (Num.Qlt_bool d 0) eqn:Ed; destruct (Num.Qlt_bool w 0) eqn:Ew;
    destruct (Qeq_bool d 0) eqn:Ed0; destruct (Qeq_bool w 0) eqn:Ew0;
    cbn -[Num.leb Num.geb Num.gtb Num.ltb]; intros _;
    repeat match goal with
      | H : Num.Qlt_bool _ _ = true |- _ => apply Qlt_bool_iff in H
      | H : Num.Qlt_bool _ _ = false |- _ =>
          apply not_true_iff_false in H; rewrite Qlt_bool_iff in H
      | H : Qeq_bool _ _ = true |- _ => apply Qeq_bool_iff in H
      | H : Qeq_bool _ _ = false |- _ => apply Qeq_bool_neq in H
      end;
    split; intro Hw;
    first [apply gtb_iff in Hw | apply ltb_iff in Hw];
    first [apply leb_iff | apply geb_iff]; lra.
Qed.

Lemma windDelta4_sign windFactors temp tRef tMax runwayLength wind :
  let d := windDelta4 windFactors temp tRef tMax runwayLength wind in
  Num.finite d ->
  ((wind >? 0) = true -> (d <=? 0) = true) /\ ((wind <? 0) = true -> (d >=? 0) = true).
Proof.
  unfold windDelta4. destruct windFactors as [[[w0 w1] w2] w3]. cbv zeta.
  apply dropSameSign_sign.
Qed.

Lemma windDeltaFunc_sign f temp c isaTemp tRef tMax tFlexMax runwayLength wind :
  let d := windDeltaFunc f temp c isaTemp tRef tMax tFlexMax runwayLength wind in
  Num.finite d ->
  ((wind >? 0) = true -> (d <=? 0) = true) /\ ((wind <? 0) = true -> (d >=? 0) = true).
Proof.
  destruct f; cbn [windDeltaFunc];
    unfold calculateRunwayWindDelta, calculateSecondSegmentWindDelta,
      calculateBrakeEnergyWindDelta, calculateVmcgWindDelta;
    cbv zeta; destruct (temp >? tFlexMax); try (intros []);
    first [apply windDelta4_sign | apply dropSameSign_sign].
Qed.

(** In the limits of each limiting factor, at each of the four
    temperatures, a wind correction that is a number is never positive
    with a headwind and never negative with a tailwind: the correction is
    subtracted, so that a headwind never lowers the weight limit and a
    tailwind never raises it. *)
Theorem wind_correction_sign (f : LF.t) (c : Conf) (r : TakeoffPerformanceResult)
    (temp : LimitKey) :
  let w := calculateWeightLimits f c r in
  weightNoBleedAt temp w = altLimit w - deltaTempAt temp w - deltaWindAt temp w
  /\ (Num.finite (deltaWindAt temp w) ->
      ((headwind (params r) >? 0) = true -> (deltaWindAt temp w <=? 0) = true)
      /\ ((headwind (params r) <? 0) = true -> (deltaWindAt temp w >=? 0) = true))
  /\ (Num.finite (weightNoBleedAt temp w) ->
      ((headwind (params r) >? 0) = true ->
       (altLimit w - deltaTempAt temp w <=? weightNoBleedAt temp w) = true)
      /\ ((headwind (params r) <? 0) = true ->
          (weightNoBleedAt temp w <=? altLimit w - deltaTempAt temp w) = true)).
Proof.
  cbv zeta.
  assert (Hw : exists t,
             deltaWindAt temp (calculateWeightLimits f c r)
             = windDeltaFunc f t c (isaTemp (params r)) (tRef (params r)) (tMax (params r))
                 (tFlexMax (params r)) (adjustedTora (params r)) (headwind (params r))).
  { destruct temp; eexists; unfold calculateWeightLimits;
      destruct (altFactors f c); reflexivity. }
  destruct Hw as [t Hw].
  assert (Heq : weightNoBleedAt temp (calculateWeightLimits f c r)
                = altLimit (calculateWeightLimits f c r)
                  - deltaTempAt temp (calculateWeightLimits f c r)
                  - deltaWindAt temp (calculateWeightLimits f c r)).
  { destruct temp; unfold calculateWeightLimits; destruct (altFactors f c); reflexivity. }
  split; [exact Heq|].
  pose proof (windDeltaFunc_sign f t c (isaTemp (params r)) (tRef (params r))
                (tMax (params r)) (tFlexMax (params r)) (adjustedTora (params r))
                (headwind (params r))) as Hs.
  cbv zeta in Hs. rewrite <- Hw in Hs. split; [exact Hs|].
  rewrite Heq.
  set (a := altLimit _ - deltaTempAt _ _) in *.
  set (d := deltaWindAt _ _) in *.
  intro Hfin. destruct a as [|a]; [destruct Hfin|]. destruct d as [|d]; [destruct Hfin|].
  destruct (Hs I) as [Hh Ht].
  split; intro Hwnd; [specialize (Hh Hwnd) | specialize (Ht Hwnd)];
    [apply leb_iff in Hh | apply geb_iff in Ht]; apply leb_iff;
    cbn [Num.sub Num.lift2]; lra.
Qed.

Lemma slopeFactors_positive (f : LF.t) (c : Conf) : (0 < slopeFactors f c)%Q.
Proof. destruct f, c; reflexivity. Qed.

(** For a runway length that is not negative, the slope correction of each
    limiting factor has the sign of the slope: downhill, the weight limit
    after the slope correction is at least the base limit and uphill it is
    at most the base limit. *)
Theorem slope_correction_sign (f : LF.t) (c : Conf) (r : TakeoffPerformanceResult) :
  let w := calculateWeightLimits f c r in
  (0 <=? adjustedTora (params r)) = true ->
  Num.finite (baseLimit w) ->
  ((slope (inputs r) <= 0)%Q ->
   (deltaSlope w <=? 0) = true /\ (baseLimit w <=? slopeLimit w) = true)
  /\ ((0 <= slope (inputs r))%Q ->
      (0 <=? deltaSlope w) = true /\ (slopeLimit w <=? baseLimit w) = true).
Proof.
  cbv zeta. intros Hlen Hbase.
  assert (Hd : deltaSlope (calculateWeightLimits f c r)
               = 1000 * slopeFactors f c * adjustedTora (params r) * slope (inputs r)).
  { unfold calculateWeightLimits. destruct (altFactors f c). reflexivity. }
  assert (Hs : slopeLimit (calculateWeightLimits f c r)
               = baseLimit (calculateWeightLimits f c r)
                 - deltaSlope (calculateWeightLimits f c r)).
  { unfold calculateWeightLimits. destruct (altFactors f c). reflexivity. }
  rewrite Hs, Hd.
  destruct (baseLimit (calculateWeightLimits f c r)) as [|b]; [destruct Hbase|].
  destruct (adjustedTora (params r)) as [|len]; [discriminate Hlen|].
  apply leb_iff in Hlen. pose proof (slopeFactors_positive f c) as Hk.
  cbn [Num.mul Num.sub Num.lift2].
  set (k := slopeFactors f c) in *. set (s := slope (inputs r)).
  assert (Hp : (0 <= 1000 * k * len)%Q) by nra.
  set (p := (1000 * k * len)%Q) in *.
  split; intro Hsl; split; apply leb_iff; nra.
Qed.

(** ** The limiting factor among ceilings that are not all numbers *)

Lemma limiting_fold (W : LF.t -> num) :
  let f :=
    snd (fold_left
           (fun st g => if belowLimiting (W g) (fst st) then (Some (W g), g) else st)
           LF.values (None, LF.Runway)) in
  ((forall g, ~ Num.finite (W g)) -> f = LF.Runway)
  /\ (forall g, Num.finite (W g) ->
        Num.finite (W f)
        /\ (W f <=? W g) = true
        /\ ((LF.index g < LF.index f)%nat -> (W f <? W g) = true)).
Proof.
  cbn [fold_left LF.values]. cbv zeta.
  destruct (W LF.Runway) as [|a] eqn:Ea; destruct (W LF.SecondSegment) as [|b] eqn:Eb;
    destruct (W LF.BrakeEnergy) as [|d] eqn:Ed; destruct (W LF.Vmcg) as [|v] eqn:Ev;
    cbn [belowLimiting fst snd Num.isFinite Num.ltb Num.cmp];
    repeat match goal with
      | |- context [if Num.Qlt_bool ?x ?y then _ else _] =>
          let C := fresh "C" in
          destruct (Num.Qlt_bool x y) eqn:C;
          [apply Qlt_bool_iff in C
          | apply not_true_iff_false in C; rewrite Qlt_bool_iff in C];
          cbn [belowLimiting fst snd Num.isFinite Num.ltb Num.cmp]
      end;
    (split;
     [intro Hnone;
      first [reflexivity
            |exfalso; apply (Hnone LF.Runway); rewrite Ea; exact I
            |exfalso; apply (Hnone LF.SecondSegment); rewrite Eb; exact I
            |exfalso; apply (Hnone LF.BrakeEnergy); rewrite Ed; exact I
            |exfalso; apply (Hnone LF.Vmcg); rewrite Ev; exact I]
     |intros g Hg; rewrite ?Ea, ?Eb, ?Ed, ?Ev;
      destruct g;
      repeat match goal with
        | E : W _ = _ |- _ => rewrite E in *; clear E
        end;
      cbn [Num.finite LF.index] in *;
      first [exfalso; exact Hg
            |split; [exact I|];
             split; [apply leb_iff; lra|];
             intro Hlt; first [lia | apply ltb_iff; lra]]]).
Qed.

(** [getLimitingFactor] throws on a result without limits.  Otherwise it
    passes over the ceilings that are not numbers: if one of the four
    ceilings at the key is a number, the ceiling of the factor returned is
    a number, at most every ceiling that is a number and strictly below
    those of the factors before it; if none is, Runway is returned. *)
Theorem getLimitingFactor_skips_nan (temp : LimitKey) (result : TakeoffPerformanceResult) :
  match limits result with
  | None => getLimitingFactor temp result = Throw "Invalid result object!"
  | Some l =>
      let W g := weightAt temp (limitOf l g) in
      exists f,
        getLimitingFactor temp result = Ok f
        /\ ((forall g, ~ Num.finite (W g)) -> f = LF.Runway)
        /\ (forall g, Num.finite (W g) ->
              Num.finite (W f)
              /\ (W f <=? W g) = true
              /\ ((LF.index g < LF.index f)%nat -> (W f <? W g) = true))
  end.
Proof.
  unfold getLimitingFactor. destruct (limits result) as [l|]; [|reflexivity].
  exists (limitingFactorAt temp l). split; [reflexivity|].
  exact (limiting_fold (fun g => weightAt temp (limitOf l g))).
Qed.

(** ** The loop of the flex temperature *)

Lemma scanned_value (t : Q) (k : nat) :
  exists q, scanned (Fin t) k = Fin q /\ (q == t + inject_Z (Z.of_nat k))%Q.
Proof.
  induction k as [|k (q & E & Hq)].
  - exists t. split; [reflexivity|]. change (inject_Z (Z.of_nat 0)) with 0%Q. lra.
  - exists (q + 1)%Q.
    change (scanned (Fin t) (S k)) with (scanned (Fin t) k + 1). rewrite E.
    split; [reflexivity|].
    rewrite Nat2Z.inj_succ. unfold Z.succ. rewrite inject_Z_plus.
    change (inject_Z 1) with 1%Q. lra.
Qed.

Lemma scanned_shift (t : Q) (k : nat) : scanned (Fin (t + 1)) k = scanned (Fin t) (S k).
Proof.
  change (Fin (t + 1)) with (Fin t + 1)%num.
  unfold scanned. rewrite Nat.iter_succ_r. reflexivity.
Qed.

Lemma scanned_beyond (t b : Q) (k : nat) :
  (b < t)%Q -> (scanned (Fin t) k <=? Fin b) = false.
Proof.
  intro H. destruct (scanned_value t k) as (q & -> & Hq).
  apply not_true_iff_false. rewrite leb_iff.
  assert (0 <= inject_Z (Z.of_nat k))%Q.
  { change 0%Q with (inject_Z 0). rewrite <- Zle_Qle. lia. }
  lra.
Qed.

(** The state after the loop, for a body that sets the state where a test
    holds: the last temperature scanned at which it holds. *)
Lemma flexLoop_last (P : num -> bool) (F : num -> LF.t) (b : Q) :
  let body t (state : option (num * LF.t)) := if P t then Some (t, F t) else state in
  forall (n : nat) (t : Q) state,
    n = Z.to_nat (Qfloor (b - t) + 1) ->
    let res := flexLoop n body (Fin t) (Fin b) state in
    (res = state
     /\ forall j, (scanned (Fin t) j <=? Fin b) = true -> P (scanned (Fin t) j) = false)
    \/ exists k,
         res = Some (scanned (Fin t) k, F (scanned (Fin t) k))
         /\ (scanned (Fin t) k <=? Fin b) = true
         /\ P (scanned (Fin t) k) = true
         /\ forall j, (k < j)%nat -> (scanned (Fin t) j <=? Fin b) = true ->
                      P (scanned (Fin t) j) = false.
Proof.
  intro body. induction n as [|n IH]; intros t state Hn; cbv zeta.
  - left. split; [reflexivity|]. intros j Hj.
    rewrite scanned_beyond in Hj; [discriminate|].
    apply Qnot_le_lt. intro Hle.
    assert (Hk : (inject_Z 0 <= b - t)%Q) by (change (inject_Z 0) with 0%Q; lra).
    apply Qfloor_resp_le in Hk. rewrite Qfloor_Z in Hk. lia.
  - cbn [flexLoop].
    assert (Hle : (Fin t <=? Fin b) = true).
    { apply leb_iff. apply Qnot_lt_le. intro Hlt.
      assert (Hk : (b - t < inject_Z 0)%Q) by (change (inject_Z 0) with 0%Q; lra).
      assert (Hf : (Qfloor (b - t) < 0)%Z).
      { rewrite Zlt_Qlt. eapply Qle_lt_trans; [apply Qfloor_le|exact Hk]. }
      lia. }
    rewrite Hle. change (Fin t + 1)%num with (Fin (t + 1)).
    assert (Hn' : n = Z.to_nat (Qfloor (b - (t + 1)) + 1)).
    { assert (E : (b - (t + 1) == b - t - 1)%Q) by lra.
      rewrite E, Qfloor_minus_one. lia. }
    specialize (IH (t + 1)%Q (body (Fin t) state) Hn'). cbv zeta in IH.
    destruct IH as [[Eres Hnone]|(k & Eres & Hk & HP & Hlater)].
    + assert (Est : body (Fin t) state
                    = if P (Fin t) then Some (Fin t, F (Fin t)) else state) by reflexivity.
      rewrite Eres, Est. clear Eres Est. destruct (P (Fin t)) eqn:EP.
      * right. exists 0%nat. cbn [scanned Nat.iter].
        split; [reflexivity|]. split; [exact Hle|]. split; [exact EP|].
        intros j Hj Hb. destruct j as [|j]; [lia|].
        rewrite <- scanned_shift in *. apply Hnone. exact Hb.
      * left. split; [reflexivity|]. intros j Hb.
        destruct j as [|j]; [exact EP|].
        rewrite <- scanned_shift in *. apply Hnone. exact Hb.
    + right. exists (S k). rewrite <- !scanned_shift.
      split; [exact Eres|]. split; [exact Hk|]. split; [exact HP|].
      intros j Hj Hb. destruct j as [|j]; [lia|].
      rewrite <- scanned_shift in *. apply Hlater; [lia|exact Hb].
Qed.

Lemma scanned_nan (k : nat) : scanned NaN k = NaN.
Proof.
  induction k as [|k IH]; [reflexivity|].
  change (scanned NaN (S k)) with (scanned NaN k + 1). rewrite IH. reflexivity.
Qed.

(** The loop of [calculateFlexTemp] keeps the highest of the temperatures
    [iterFrom], [iterFrom + 1], ... up to [iterTo] at which the takeoff
    weight is at most the limit weights of the two ends, with the end whose
    limit weight is lower there ([fromLimitingFactor] on a tie); it keeps
    none when the weight is above them at every such temperature. *)
Theorem flex_loop_keeps_highest (c : Conf) (result : TakeoffPerformanceResult)
    (fromLimitingFactor toLimitingFactor : LF.t)
    (fromLimitingWeights toLimitingWeights : LimitWeight) (iterFrom iterTo : num) :
  let allowed :=
    flexAllowed c result fromLimitingFactor fromLimitingWeights
      toLimitingFactor toLimitingWeights in
  let found :=
    flexLoop (flexRounds iterFrom iterTo)
      (flexStep c result fromLimitingFactor fromLimitingWeights
         toLimitingFactor toLimitingWeights)
      iterFrom iterTo None in
  (found = None
   /\ forall j, (scanned iterFrom j <=? iterTo) = true -> allowed (scanned iterFrom j) = false)
  \/ exists k,
       let t := scanned iterFrom k in
       found
       = Some (t,
               if calculateFlexTow c result fromLimitingFactor fromLimitingWeights t
                  <=? calculateFlexTow c result toLimitingFactor toLimitingWeights t
               then fromLimitingFactor else toLimitingFactor)
       /\ (t <=? iterTo) = true
       /\ allowed t = true
       /\ forall j, (k < j)%nat -> (scanned iterFrom j <=? iterTo) = true ->
                    allowed (scanned iterFrom j) = false.
Proof.
  cbv zeta.
  destruct iterFrom as [|a].
  { left. split; [reflexivity|]. intros j. rewrite scanned_nan. discriminate. }
  destruct iterTo as [|b].
  { left. split; [reflexivity|]. intros j.
    destruct (scanned a j); discriminate. }
  cbn [flexRounds].
  exact (flexLoop_last
           (flexAllowed c result fromLimitingFactor fromLimitingWeights
              toLimitingFactor toLimitingWeights)
           (fun t =>
              if calculateFlexTow c result fromLimitingFactor fromLimitingWeights t
                 <=? calculateFlexTow c result toLimitingFactor toLimitingWeights t
              then fromLimitingFactor else toLimitingFactor)
           b _ a None eq_refl).
Qed.

(** ** A runway with 30 mm of wet snow *)

Lemma calculateVSpeeds_wet_snow_30mm c r a t :
  runwayCondition (inputs r) = RC.Contaminated30mmWetSnow ->
  calculateVSpeeds c r a t = Throw "Invalid runway condition".
Proof. intro H. unfold calculateVSpeeds. rewrite H. reflexivity. Qed.

Lemma performance_wet_snow_30mm self c res :
  runwayCondition (inputs res) = RC.Contaminated30mmWetSnow ->
  (forceToga (inputs res) = true -> snowOutcome (self (tailwindInputs (inputs res)))) ->
  snowOutcome (performance self c res).
Proof.
  intros Hrc Hself. unfold performance. cbn [getLimitingFactor setLimits limits bind].
  fold (weighed c res). fold (dryMtowOf c res).
  cbn [params setLimits setLimitingFactors].
  destruct (resolveMtow_spec c (weighed c res) (dryMtowOf c res) (calculateTvmcg c (params res)))
    as (m & res1 & Eres & Hres1 & _).
  cbv zeta.
  change (resolveMtow c _ _ _)
    with (resolveMtow c (weighed c res) (dryMtowOf c res) (calculateTvmcg c (params res))).
  rewrite Eres. cbn [bind].
  assert (Hi : inputs (setMtow m res1) = inputs res).
  { destruct Hres1 as [->|[-> _]]; reflexivity. }
  fold (isRunwayOrVmcg (limitingFactorAt KeyOatLimit (allWeightLimits c res))).
  fold (forwardCgMtow c
          (forwardCg (inputs res)
           && isRunwayOrVmcg (limitingFactorAt KeyOatLimit (allWeightLimits c res))) m).
  destruct (forwardCgMtow c _ m >=? tow (inputs res)).
  2: { right. eexists. split; [reflexivity|]. right. reflexivity. }
  assert (Hv : forall a t f lf,
             calculateVSpeeds c (setFlex f lf (setMtow m res1)) a t
             = Throw "Invalid runway condition").
  { intros. apply calculateVSpeeds_wet_snow_30mm. cbn [inputs setFlex]. rewrite Hi. exact Hrc. }
  left.
  destruct (forceToga (inputs res)) eqn:Et.
  - destruct (Hself eq_refl) as [->|(tw & -> & Htw)]; cbn [bind]; [reflexivity|].
    assert (Hne : E.eqb (error tw) E.None = false).
    { destruct (error tw); try reflexivity. destruct Htw as [[]|Htw]; discriminate Htw. }
    rewrite Hne. apply Hv.
  - rewrite Hrc. cbn [isContaminated negb]. apply Hv.
Qed.

Section WetSnow.

Variable pow : num -> num -> num.

Lemma with_wet_snow_30mm self i :
runwayCondition i = RC.Contaminated30mmWetSnow ->
(forceToga i = true -> snowOutcome (self (tailwindInputs i))) ->
snowOutcome (calculateTakeoffPerformanceWith pow self i).
Proof.
intros Hrc Hself. unfold calculateTakeoffPerformanceWith. cbv zeta.
change (error (initialResult pow i)) with (checkInputs i (calculateParams pow i)).
destruct (E.eqb (checkInputs i (calculateParams pow i)) E.None) eqn:Ee.
- apply E_eqb_eq in Ee. destruct (checkInputs_conf _ _ Ee) as [c ->].
  destruct (performance_wet_snow_30mm self c (initialResult pow i) Hrc Hself)
    as [->|(r & -> & Hr)]; cbn [bind].
  + left. reflexivity.
  + right. eexists. split; [reflexivity|]. exact Hr.
- cbn [bind]. right. eexists. split; [reflexivity|]. left. cbn [error setStabTrim initialResult].
  destruct (validationError_spec i (calculateParams pow i)) as [H|H]; [|exact H].
  rewrite H in Ee. discriminate Ee.
Qed.

(** With 30 mm of wet snow, a runway condition that [calculateVSpeeds] has
  no case for, the call never returns speeds: it returns a result only
  with a validation error or TooHeavy, and otherwise ends with the
  exception 'Invalid runway condition'. *)
Theorem wet_snow_30mm_throws_or_rejects i :
runwayCondition i = RC.Contaminated30mmWetSnow ->
calculateTakeoffPerformance pow i = Throw "Invalid runway condition"
\/ exists r,
     calculateTakeoffPerformance pow i = Ok r
     /\ (validationError (error r) \/ error r = E.TooHeavy)
     /\ v1 r = None /\ vR r = None /\ v2 r = None /\ flex r = None.
Proof.
intro Hrc.
assert (H : snowOutcome (calculateTakeoffPerformance pow i)).
{ unfold calculateTakeoffPerformance. apply with_wet_snow_30mm; [exact Hrc|].
  intros _. apply with_wet_snow_30mm; [exact Hrc|]. cbn. discriminate. }
destruct H as [H|(r & Hr & He)]; [left; exact H|right].
exists r. split; [exact Hr|]. split; [exact He|].
unfold calculateTakeoffPerformance in Hr.
destruct (with_run pow _ i r Hr) as [[Hn ->]|(Hok & _)]; [cbn; tauto|].
destruct (passed_run pow _ i r Hr Hok) as (c & m & res1 & _ & _ & _ & Hcase).
cbv zeta in Hcase.
destruct Hcase as [(_ & _ & H1 & HR & H2 & Hf)|(_ & Herr & _)]; [tauto|].
exfalso. unfold speedError in Herr.
destruct He as [He|He].
- destruct Herr as [Hx|[Hx|[Hx|Hx]]]; rewrite Hx in He; exact He.
- rewrite He in Herr. destruct Herr as [Hx|[Hx|[Hx|Hx]]]; discriminate Hx.
Qed.

End WetSnow.

(** ** The speeds of a result *)

Section Speeds.

Variable pow : num -> num -> num.

(** When the pressure altitude is a number, every result that passed
  validation and is not TooHeavy carries speeds that are integers with
  V1 <= VR <= V2, also when it is flagged TooLight, VmcgVmcaLimits or
  MaximumTireSpeed. *)
Theorem speeds_ordered_unless_rejected i r :
Num.finite (calculatePressureAltitude pow (elevation i) (qnh i)) ->
calculateTakeoffPerformance pow i = Ok r ->
checkInputs i (calculateParams pow i) = E.None ->
error r <> E.TooHeavy ->
speedsReconciled r.
Proof.
intros Hpa Hrun Hok Hnh. unfold calculateTakeoffPerformance in Hrun.
destruct (passed_run pow _ i r Hrun Hok) as (c & m & res1 & _ & _ & _ & Hcase).
cbv zeta in Hcase.
destruct Hcase as [(_ & He & _)|(_ & _ & _ & Hs)]; [congruence|].
apply Hs; [exact Hpa|].
intros tw Htw Hetw. exact (tailwind_run_speeds pow i tw Hpa Htw Hetw).
Qed.

End Speeds.

Lemma reconcile_v2 c r a b d : snd (snd (reconcileVSpeeds c r a b d)) = correctedV2 c r d.
Proof.
  unfold reconcileVSpeeds, correctedV2. cbv zeta.
  repeat match goal with
    | |- context [if ?x then _ else _] => destruct x
    end; reflexivity.
Qed.

Lemma correctedV2_above (c : Conf) (r : TakeoffPerformanceResult) (q : Q) (z : Z) :
  Num.finite (pressureAlt (params r)) ->
  (inject_Z z <= q)%Q ->
  exists u : Z, correctedV2 c r (Fin q) = Fin (inject_Z u) /\ (z <= u)%Z.
Proof.
  intros Hpa Hq. destruct (finite_Fin _ Hpa) as [pa Epa].
  unfold correctedV2. rewrite Epa.
  destruct (get_finite (minimumV2Vmc c) pa (minimumV2Vmc_nonempty c)) as [m2 ->].
  destruct (get2_finite (minimumV2Vmu c) pa (tow (inputs r)) (minimumV2Vmu_nonempty c))
    as [mu ->].
  cbn [Math.ceil Math.round Math.max Math.max3 Num.lift1 Num.lift2].
  eexists. split; [reflexivity|].
  rewrite <- (Qfloor_Z z) at 1. apply Qfloor_resp_le.
  pose proof (Q.le_max_l q (inject_Z (Qceiling m2))).
  pose proof (Q.le_max_l (Qmax q (inject_Z (Qceiling m2))) (inject_Z (Qceiling mu))).
  lra.
Qed.

(** On a wet runway, for parameters that are numbers, the V2 that
    [calculateVSpeeds] assigns is never below the dry V2 that it keeps in
    the intermediate speeds. *)
Theorem wet_v2_not_below_dry_v2 c r a t r' :
  runwayCondition (inputs r) = RC.Wet ->
  speedParamsFinite (params r) ->
  calculateVSpeeds c r a t = Ok r' ->
  exists speeds x2,
    intermediateSpeeds r' = Some speeds
    /\ v2 r' = Some x2
    /\ (dryV2 speeds <=? x2) = true.
Proof.
  intros Hrc Hp. unfold calculateVSpeeds. rewrite Hrc.
  pose proof (calculateDryVSpeeds_spec c r a) as Hdry. cbv zeta in Hdry.
  destruct Hdry as (Hc & _ & _ & _ & _ & x1 & xR & x2 & Ei & Hz).
  rewrite Ei.
  set (r0 := calculateDryVSpeeds c r a) in *.
  assert (Hp0 : params r0 = params r) by (inversion Hc; reflexivity).
  match goal with
  | |- context [reconcileVSpeeds c r0 ?a ?b ?d] =>
      set (w1 := a); set (wR := b); set (w2 := d)
  end.
  pose proof (reconcile_frame c r0 w1 wR w2) as (_ & _ & _ & _ & _ & Hint).
  pose proof (reconcile_v2 c r0 w1 wR w2) as Hv2.
  destruct (reconcileVSpeeds c r0 w1 wR w2) as [r1 [[u1 uR] u2]]. cbn [fst snd] in *.
  intro H. inversion H; subst r'; clear H.
  exists {| dryV1 := x1; dryVR := xR; dryV2 := x2 |}, u2.
  split; [cbn; congruence|]. split; [reflexivity|].
  destruct (Hz Hp) as (z1 & zR & z2 & _ & _ & -> & _). cbn [dryV2] in *.
  assert (Hl : Num.finite (lengthAltCoef (params r0)))
    by (rewrite Hp0; apply lengthAltCoef_finite; exact Hp).
  destruct Hp as (_ & Hpa & Hhw).
  destruct (finite_Fin _ Hhw) as [hw Ehw].
  rewrite <- Hp0 in Ehw, Hpa.
  assert (Hw2 : exists q, w2 = Fin q /\ (inject_Z z2 <= q)%Q).
  { subst w2. wet_tables.
    destruct (oat (inputs r0) >? t).
    - eexists. split; [reflexivity|]. lra.
    - pose proof (wetAdjustment_finite (lengthAltCoef (params r0)) Hl) as Hf.
      pose proof (wetAdjustment_nonpositive _ _ Hf) as Hn.
      destruct (finite_Fin _ Hf) as [adj Eadj]. rewrite Eadj in Hn |- *.
      apply leb_iff in Hn. eexists. split; [reflexivity|]. lra. }
  destruct Hw2 as (q & Ew & Hq). rewrite Ew in Hv2.
  destruct (correctedV2_above c r0 q z2 Hpa Hq) as (u & Eu & Hu).
  rewrite Hv2, Eu. rewrite leb_inject. apply Z.leb_le. exact Hu.
Qed.

(** ** Temperatures above Tflexmax *)

Lemma sub_nan_r (a : num) : a - NaN = NaN.
Proof. destruct a; reflexivity. Qed.

Lemma sub_nan_l (a : num) : NaN - a = NaN.
Proof. reflexivity. Qed.

Lemma tempDeltaFunc_beyond f temp c tRef tMax tFlexMax runwayLength pressureAlt isaTemp :
  (temp >? tFlexMax) = true ->
  tempDeltaFunc f temp c tRef tMax tFlexMax runwayLength pressureAlt isaTemp = NaN.
Proof.
  intro H. destruct f; cbn [tempDeltaFunc];
    unfold calculateRunwayTempDelta, calculateSecondSegmentTempDelta,
      calculateBrakeEnergyTempDelta, calculateVmcgTempDelta;
    rewrite H; reflexivity.
Qed.

Lemma windDeltaFunc_beyond f temp c isaTemp tRef tMax tFlexMax runwayLength wind :
  (temp >? tFlexMax) = true ->
  windDeltaFunc f temp c isaTemp tRef tMax tFlexMax runwayLength wind = NaN.
Proof.
  intro H. destruct f; cbn [windDeltaFunc];
    unfold calculateRunwayWindDelta, calculateSecondSegmentWindDelta,
      calculateBrakeEnergyWindDelta, calculateVmcgWindDelta;
    rewrite H; reflexivity.
Qed.

(** At a temperature above Tflexmax the temperature and wind corrections
    of every limiting factor are not numbers, and neither are the weight
    limits at that temperature, with or without bleed; the key Tflexmax
    itself is never in that case. *)
Theorem limits_nan_beyond_tflexmax (f : LF.t) (c : Conf) (r : TakeoffPerformanceResult)
    (temp : LimitKey) :
  let w := calculateWeightLimits f c r in
  ((temperatureAt temp r >? tFlexMax (params r)) = true ->
   deltaTempAt temp w = NaN /\ deltaWindAt temp w = NaN
   /\ weightNoBleedAt temp w = NaN /\ weightAt temp w = NaN)
  /\ (temperatureAt KeyTFlexMaxLimit r >? tFlexMax (params r)) = false.
Proof.
  cbv zeta. split.
  - intro H.
    assert (Ht : deltaTempAt temp (calculateWeightLimits f c r) = NaN).
    { destruct temp; unfold calculateWeightLimits; destruct (altFactors f c);
        cbn [deltaTempAt oatDeltaTemp tRefDeltaTemp tMaxDeltaTemp tFlexMaxDeltaTemp];
        apply tempDeltaFunc_beyond; exact H. }
    assert (Hn : weightNoBleedAt temp (calculateWeightLimits f c r)
                 = altLimit (calculateWeightLimits f c r)
                   - deltaTempAt temp (calculateWeightLimits f c r)
                   - deltaWindAt temp (calculateWeightLimits f c r)).
    { destruct temp; unfold calculateWeightLimits; destruct (altFactors f c); reflexivity. }
    assert (Hb : weightAt temp (calculateWeightLimits f c r)
                 = weightNoBleedAt temp (calculateWeightLimits f c r) - deltaBleed (inputs r)).
    { destruct temp; unfold calculateWeightLimits; destruct (altFactors f c); reflexivity. }
    split; [exact Ht|]. split.
    + destruct temp; unfold calculateWeightLimits; destruct (altFactors f c);
        cbn [deltaWindAt oatDeltaWind tRefDeltaWind tMaxDeltaWind tFlexMaxDeltaWind];
        apply windDeltaFunc_beyond; exact H.
    + rewrite Hb, Hn, Ht, sub_nan_r. split; reflexivity.
  - cbn [temperatureAt]. destruct (tFlexMax (params r)) as [|q]; [reflexivity|].
    apply not_true_iff_false. rewrite gtb_iff. lra.
Qed.

Lemma calculateFlexTow_finite c r f w t :
  Num.finite (calculateFlexTow c r f w t) -> (t >? tFlexMax (params r)) = false.
Proof.
  unfold calculateFlexTow. intro H.
  destruct (t >? tFlexMax (params r)) eqn:E; [|reflexivity].
  rewrite (tempDeltaFunc_beyond f t c _ _ _ _ _ _ E), sub_nan_r in H. destruct H.
Qed.

Lemma flexAllowed_within c r fromLF fromW toLF toW t :
  flexAllowed c r fromLF fromW toLF toW t = true ->
  (t >? tFlexMax (params r)) = false.
Proof.
  unfold flexAllowed. intro H.
  apply (calculateFlexTow_finite c r fromLF fromW).
  destruct (calculateFlexTow c r fromLF fromW t); [|exact I].
  discriminate H.
Qed.

(** The loop of [calculateFlexTemp] never keeps a temperature above
    Tflexmax, where the limit weights are not numbers: of the interval from
    Tflexmax to Tflexmax + 8 that it scans for the lightest aircraft, it can
    keep Tflexmax only. *)
Theorem flex_loop_within_tflexmax (c : Conf) (result : TakeoffPerformanceResult)
    (fromLimitingFactor toLimitingFactor : LF.t)
    (fromLimitingWeights toLimitingWeights : LimitWeight) (iterFrom iterTo t : num)
    (lf : LF.t) :
  flexLoop (flexRounds iterFrom iterTo)
    (flexStep c result fromLimitingFactor fromLimitingWeights
       toLimitingFactor toLimitingWeights)
    iterFrom iterTo None = Some (t, lf) ->
  (t >? tFlexMax (params result)) = false
  /\ (t <=? iterTo) = true
  /\ (lf = fromLimitingFactor \/ lf = toLimitingFactor)
  /\ ((iterFrom === tFlexMax (params result)) = true -> (t === iterFrom) = true).
Proof.
  destruct iterFrom as [|a]; [discriminate|]. destruct iterTo as [|b]; [discriminate|].
  cbn [flexRounds].
  pose proof (flexLoop_last
                (flexAllowed c result fromLimitingFactor fromLimitingWeights
                   toLimitingFactor toLimitingWeights)
                (fun t =>
                   if calculateFlexTow c result fromLimitingFactor fromLimitingWeights t
                      <=? calculateFlexTow c result toLimitingFactor toLimitingWeights t
                   then fromLimitingFactor else toLimitingFactor)
                b _ a None eq_refl) as H.
  cbv zeta in H.
  unfold flexAllowed in H. unfold flexStep. cbv zeta.
  intro Hfound. rewrite Hfound in H.
  destruct H as [[H _]|(k & H & Hle & Hal & _)]; [discriminate H|].
  inversion H as [[Et Elf]]. rewrite <- Et in *.
  pose proof (flexAllowed_within c result fromLimitingFactor fromLimitingWeights
                toLimitingFactor toLimitingWeights _ Hal) as Hin.
  split; [exact Hin|]. split; [exact Hle|]. split.
  - destruct (_ <=? _); auto.
  - intro Hs. rewrite Et in Hin, Hle |- *.
    destruct (scanned_value a k) as (q & Eq & Hq). rewrite Eq in *.
    destruct (tFlexMax (params result)) as [|fm]; [discriminate Hs|].
    apply Qeq_bool_iff in Hs.
    apply not_true_iff_false in Hin. rewrite gtb_iff in Hin.
    assert (Hk : (Z.of_nat k <= 0)%Z).
    { rewrite Zle_Qle. change (inject_Z 0) with 0%Q. lra. }
    assert (k = 0%nat) by lia. subst k.
    apply Qeq_bool_iff. change (inject_Z (Z.of_nat 0)) with 0%Q in Hq. lra.
Qed.

(** ** The speeds on a dry runway *)

Lemma calculateVSpeeds_dry c r a t r' :
  runwayCondition (inputs r) = RC.Dry ->
  calculateVSpeeds c r a t = Ok r' ->
  drySpeedsKept r'.
Proof.
  intros Hrc. unfold calculateVSpeeds. rewrite Hrc. intro H. inversion H.
  unfold drySpeedsKept. cbn. auto.
Qed.

Section DrySpeeds.

Variable pow : num -> num -> num.

Lemma dry_speeds_kept_own i r :
calculateTakeoffPerformance pow i = Ok r ->
runwayCondition i = RC.Dry ->
(forall tw, calculateTakeoffPerformance pow (tailwindInputs i) = Ok tw -> drySpeedsKept tw) ->
drySpeedsKept r.
Proof.
intros Hrun Hdry Htail.
destruct (run_cases pow i r Hrun)
  as [[_ ->]|(c & m & res1 & _ & _ & Hi & _ & _ & _ & _ & (B1 & BR & B2 & Bi)
              & [->|(a & r0 & Hstage & ->)])].
- repeat split.
- unfold drySpeedsKept. cbn [v1 vR v2 intermediateSpeeds setStabTrim setError].
  rewrite B1, BR, B2, Bi. repeat split.
- assert (Hv : forall f lf r',
             calculateVSpeeds c (setFlex f lf (setMtow m res1)) a
               (calculateTvmcg c (calculateParams pow i)) = Ok r' ->
             drySpeedsKept (setStabTrim (option_map calculateStabTrim (cg i)) r')).
  { intros f lf r' H. apply calculateVSpeeds_dry in H; [exact H|].
    cbn [inputs setFlex]. rewrite Hi. exact Hdry. }
  destruct Hstage as [tw Ht Etw Hn | tw r' Ht Etw Hn Hv' | fx r' Ht Hc Hf Hv' | r' Ht Hc Hv'];
    try (eapply Hv; eassumption).
  rewrite Hi in Etw. destruct (Htail tw Etw) as (T1 & TR & T2).
  unfold drySpeedsKept. cbn. auto.
Qed.

(** On a dry runway the speeds of a result are the dry speeds kept in its
  intermediate speeds, also when they come from the evaluation with
  tailwind of a forced TOGA takeoff, and both are absent together. *)
Theorem dry_runway_speeds_are_dry_speeds i r :
calculateTakeoffPerformance pow i = Ok r ->
runwayCondition i = RC.Dry ->
drySpeedsKept r.
Proof.
intros Hrun Hdry. apply (dry_speeds_kept_own i r Hrun Hdry).
intros tw Htw. apply (dry_speeds_kept_own (tailwindInputs i) tw Htw Hdry).
intros tw' Htw'.
destruct (run_cases pow _ _ Htw')
  as [[_ ->]|(c & m & res1 & _ & _ & Hi & _ & _ & _ & _ & (B1 & BR & B2 & Bi)
              & [->|(a & r0 & Hstage & ->)])].
- repeat split.
- unfold drySpeedsKept. cbn [v1 vR v2 intermediateSpeeds setStabTrim setError].
  rewrite B1, BR, B2, Bi. repeat split.
- assert (Hv : forall f lf r',
             calculateVSpeeds c (setFlex f lf (setMtow m res1)) a
               (calculateTvmcg c (calculateParams pow (tailwindInputs (tailwindInputs i))))
             = Ok r' ->
             drySpeedsKept
               (setStabTrim (option_map calculateStabTrim (cg (tailwindInputs (tailwindInputs i))))
                  r')).
  { intros f lf r' H. apply calculateVSpeeds_dry in H; [exact H|].
    cbn [inputs setFlex]. rewrite Hi. exact Hdry. }
  destruct Hstage as [tw2 Ht Etw Hn | tw2 r' Ht Etw Hn Hv' | fx r' Ht Hc Hf Hv' | r' Ht Hc Hv'];
    try (eapply Hv; eassumption).
  rewrite Hi in Ht. discriminate Ht.
Qed.

End DrySpeeds.

(** ** The derived parameters *)

Lemma from_ge (m : Q) (rest : LerpLookupTable) :
  forall v0 k0 x,
    (m <= v0)%Q -> Forall (fun p => m <= fst p)%Q rest -> (m <= Lerp.from v0 k0 rest x)%Q.
Proof.
  induction rest as [|[v1 k1] rest IH]; intros v0 k0 x H0 Hall; cbn [Lerp.from].
  - exact H0.
  - apply Forall_cons_iff in Hall as [H1 Hall]. cbn [fst] in H1.
    destruct (Qle_bool x k0) eqn:E0; [exact H0|].
    destruct (Qle_bool k1 x) eqn:E1; [apply IH; assumption|].
    assert (L0 : (k0 < x)%Q).
    { apply Qnot_le_lt. intro H. apply Qle_bool_iff in H. congruence. }
    assert (L1 : (x < k1)%Q).
    { apply Qnot_le_lt. intro H. apply Qle_bool_iff in H. congruence. }
    set (w := ((x - k0) / (k1 - k0))%Q).
    assert (W0 : (0 <= w)%Q) by (unfold w; apply Qle_shift_div_l; lra).
    assert (W1 : (w <= 1)%Q) by (unfold w; apply Qle_shift_div_r; lra).
    nra.
Qed.

Ltac table_bound :=
  first [apply from_le | apply from_ge];
  [unfold Qle; cbn; lia
  |repeat (apply Forall_cons; [unfold Qle; cbn; lia|]); apply Forall_nil].

Section Parameters.

Variable pow : num -> num -> num.

(** The parameters derived from the inputs: the headwind credit is the wind
  up to 45 kt; the runway length loses the line-up distance, at most 41
  m; Tflexmax is 59 degrees above ISA; Tref lies between 13.5 and 48
  degrees and, where the pressure altitude is a number, Tmax between 38
  and 55 degrees. *)
Theorem calculateParams_ranges (i : TakeoffPerformanceInputs) :
let p := calculateParams pow i in
headwind p = Fin (Qmin 45 (wind i))
/\ (exists d, adjustedTora p = Fin (tora i - d) /\ (0 <= d <= 41)%Q)
/\ (exists isa, isaTemp p = Fin isa /\ tFlexMax p = Fin (isa + 59))
/\ (exists t, tRef p = Fin t /\ (13.5 <= t <= 48)%Q)
/\ (Num.finite (pressureAlt p) -> exists t, tMax p = Fin t /\ (38 <= t <= 55)%Q).
Proof.
cbv zeta. unfold calculateParams. cbn [headwind adjustedTora isaTemp tFlexMax tRef tMax pressureAlt].
split; [reflexivity|]. split.
{ exists (lineUpDistances (lineupAngle i)). split; [reflexivity|].
  destruct (lineupAngle i); cbn; split; lra. }
split.
{ eexists. split; reflexivity. }
split.
{ unfold calculateTref, tRefTable. cbn [Lerp.get]. eexists. split; [reflexivity|].
  split; table_bound. }
intro Hpa. destruct (finite_Fin _ Hpa) as [pa ->].
unfold calculateTmax, tMaxTable. cbn [Lerp.get]. eexists. split; [reflexivity|].
split; table_bound.
Qed.

End Parameters.

(** ** The tables of the wet runway *)

(** The rows of the eight tables of the wet runway are made by
    [VecNMath.create(a, b, c, d)], the vector of [a] components: none, for
    the values of the tables.  A lookup in any of them hence gives back the
    buffer as it was, for every buffer and key; the wet adjustment of the
    takeoff weight is computed from the four zeros of [vec4Cache], and it
    is zero when adjustedTORA - pressureAlt / 20 is a number and [NaN]
    otherwise. *)
Theorem wet_tables_give_no_adjustment (c : Conf) (result : TakeoffPerformanceResult)
    (tvmcg : num) (x : Q) :
  Forall (fun t => forall out key, Lerp.getInto out (t c) key = out) wetTables
  /\ vec4Cache = [Fin 0; Fin 0; Fin 0; Fin 0]
  /\ wetMtowAdjustment c result tvmcg
     = wetAdjustment vec4Cache (lengthAltCoef (params result))
  /\ (wetAdjustment vec4Cache x === 0) = true
  /\ wetAdjustment vec4Cache NaN = NaN.
Proof.
  split.
  { unfold wetTables.
    repeat (apply Forall_cons; [intros out key; apply getInto_empty|]);
      [..|apply Forall_nil];
      auto using width_wetTowAbove, width_wetTowBelow, width_wetFlexAbove,
        width_wetFlexBelow, width_wetV1Above, width_wetV1Below, width_wetVRBelow,
        width_wetV2Below. }
  split; [reflexivity|]. split.
  { unfold wetMtowAdjustment. wet_tables. reflexivity. }
  split.
  - destruct (wetAdjustment_zero (Fin x) I) as (a & -> & Ha).
    apply Qeq_bool_iff. exact Ha.
  - unfold wetAdjustment. rewrite vec4Cache_zeros. reflexivity.
Qed.

(** ** Further runs on a standard day *)

Lemma calculateStabTrim_monotone_witness :
  (calculateStabTrim 30 <=? calculateStabTrim 20) = true.
Proof. apply (calculateStabTrim_monotone 20 30). apply Qle_bool_iff. reflexivity. Defined.

Lemma result_echoes_inputs_witness :
  let i := standardDay 300000 3000 0 1 RC.Dry false false in
  exists r,
    calculateTakeoffPerformance powAtOne i = Ok r
    /\ inputs r = i
    /\ numbers (params r) = numbers (calculateParams powAtOne i)
    /\ stabTrim r = option_map calculateStabTrim (cg i).
Proof.
  intro i. eexists. split; [run|]. apply (result_echoes_inputs powAtOne i). run.
Defined.

Lemma products_follow_validation_witness :
  let i := standardDay 300000 3000 0 1 RC.Dry false false in
  exists r,
    calculateTakeoffPerformance powAtOne i = Ok r
    /\ let res := initialResult powAtOne i in
       (checkInputs i (calculateParams powAtOne i) <> E.None ->
        error r = checkInputs i (calculateParams powAtOne i)
        /\ limits r = None /\ oatLimitingFactor r = None /\ tRefLimitingFactor r = None
        /\ tMaxLimitingFactor r = None /\ tFlexMaxLimitingFactor r = None
        /\ tvmcg r = None /\ mtow r = None /\ intermediateSpeeds r = None)
       /\ (checkInputs i (calculateParams powAtOne i) = E.None ->
           exists c m,
             confOf (conf i) = Some c
             /\ limits r = Some (allWeightLimits c res)
             /\ oatLimitingFactor r
                = Some (limitingFactorAt KeyOatLimit (allWeightLimits c res))
             /\ tRefLimitingFactor r
                = Some (limitingFactorAt KeyTRefLimit (allWeightLimits c res))
             /\ tMaxLimitingFactor r
                = Some (limitingFactorAt KeyTMaxLimit (allWeightLimits c res))
             /\ tFlexMaxLimitingFactor r
                = Some (limitingFactorAt KeyTFlexMaxLimit (allWeightLimits c res))
             /\ tvmcg r = Some (calculateTvmcg c (calculateParams powAtOne i))
             /\ mtow r = Some m).
Proof.
  intro i. eexists. split; [run|]. apply (products_follow_validation powAtOne i). run.
Defined.

Lemma too_heavy_iff_mtow_below_tow_witness :
  let i := standardDay 300000 3000 0 1 RC.Dry false false in
  exists r,
    calculateTakeoffPerformance powAtOne i = Ok r
    /\ exists m, mtow r = Some m /\ (error r = E.TooHeavy <-> (m >=? tow i) = false).
Proof.
  intro i. eexists. split; [run|]. apply (too_heavy_iff_mtow_below_tow powAtOne i); run.
Defined.

Lemma too_light_only_below_minimum_witness :
  let i := standardDay 300000 3000 0 1 RC.Contaminated6mmWater false false in
  exists r,
    calculateTakeoffPerformance powAtOne i = Ok r
    /\ error r = E.TooLight
    /\ isContaminated (runwayCondition i) = true
    /\ exists c correctionFactors mtowFactors minCorrectedWeight,
         confOf (conf i) = Some c
         /\ contaminatedTables (runwayCondition i)
            = Some (correctionFactors, mtowFactors, minCorrectedWeight)
         /\ (dryMtowOf c (initialResult powAtOne i)
             - Lerp.get (correctionFactors c) (adjustedTora (calculateParams powAtOne i))
             <? minCorrectedWeight c) = true.
Proof.
  intro i. eexists. split; [run|]. split; [run|].
  eapply (too_light_only_below_minimum powAtOne i); run.
Defined.

Lemma toga_speeds_from_tailwind_run_witness :
  let i := standardDay 300000 100000 0 1 RC.Contaminated6mmWater true false in
  exists r tw,
    calculateTakeoffPerformance powAtOne i = Ok r
    /\ calculateTakeoffPerformance powAtOne (tailwindInputs i) = Ok tw
    /\ error tw = E.None
    /\ v1 r = v1 tw /\ vR r = vR tw /\ v2 r = v2 tw
    /\ intermediateSpeeds r = intermediateSpeeds tw
    /\ flex r = None.
Proof.
  intro i. do 2 eexists. split; [run|]. split; [run|]. split; [run|].
  apply (toga_speeds_from_tailwind_run powAtOne i); try run.
  vm_compute. discriminate.
Defined.

Lemma flex_with_its_limiting_factor_witness :
  let i := standardDay 300000 60000 0 2 RC.Dry false false in
  exists r,
    calculateTakeoffPerformance powAtOne i = Ok r
    /\ (flex r = None <-> flexLimitingFactor (params r) = None).
Proof.
  intro i. eexists. split; [run|]. apply (flex_with_its_limiting_factor powAtOne i). run.
Defined.

Lemma dry_flex_whole_and_within_tflexmax_witness :
  let i := standardDay 300000 60000 0 2 RC.Dry false false in
  exists r f,
    calculateTakeoffPerformance powAtOne i = Ok r
    /\ flex r = Some f
    /\ Num.integer f
    /\ ((0 <=? tFlexMax (calculateParams powAtOne i)) = true ->
        (f <=? tFlexMax (calculateParams powAtOne i)) = true).
Proof.
  intro i. do 2 eexists. split; [run|]. split; [run|].
  eapply (dry_flex_whole_and_within_tflexmax powAtOne i); run.
Defined.

Lemma reconciled_speeds_respect_floors_witness :
  let r := initialResult powAtOne (standardDay 300000 3000 0 1 RC.Dry false false) in
  let out := reconcileVSpeeds Conf1 r 100 110 120 in
  let v1' := fst (fst (snd out)) in
  let vR' := snd (fst (snd out)) in
  let v2' := snd (snd out) in
  (minV2VmcOf Conf1 r <=? v2') = true
  /\ (minV2VmuOf Conf1 r <=? v2') = true
  /\ (error (fst out) <> E.VmcgVmcaLimits ->
      (minV1VmcOf r <=? v1') = true /\ (minVrVmcOf r <=? vR') = true).
Proof.
  intro r. apply (reconciled_speeds_respect_floors Conf1 r 100 110 120); vm_compute; exact I.
Defined.

Lemma slope_correction_sign_witness :
  let r := initialResult powAtOne (standardDay 300000 3000 0 1 RC.Dry false false) in
  let w := calculateWeightLimits LF.Runway Conf1 r in
  ((slope (inputs r) <= 0)%Q ->
   (deltaSlope w <=? 0) = true /\ (baseLimit w <=? slopeLimit w) = true)
  /\ ((0 <= slope (inputs r))%Q ->
      (0 <=? deltaSlope w) = true /\ (slopeLimit w <=? baseLimit w) = true).
Proof.
  intro r. apply (slope_correction_sign LF.Runway Conf1 r); [run|vm_compute; exact I].
Defined.

Lemma wet_snow_30mm_throws_or_rejects_witness :
  let i := standardDay 300000 3000 0 1 RC.Contaminated30mmWetSnow false false in
  calculateTakeoffPerformance powAtOne i = Throw "Invalid runway condition"
  \/ exists r,
       calculateTakeoffPerformance powAtOne i = Ok r
       /\ (validationError (error r) \/ error r = E.TooHeavy)
       /\ v1 r = None /\ vR r = None /\ v2 r = None /\ flex r = None.
Proof.
  intro i. apply (wet_snow_30mm_throws_or_rejects powAtOne i). reflexivity.
Defined.

Lemma speeds_ordered_unless_rejected_witness :
  let i := standardDay 300000 3000 0 1 RC.Contaminated6mmWater false false in
  exists r,
    calculateTakeoffPerformance powAtOne i = Ok r
    /\ error r = E.TooLight
    /\ speedsReconciled r.
Proof.
  intro i. eexists. split; [run|]. split; [run|].
  apply (speeds_ordered_unless_rejected powAtOne i);
    [vm_compute; exact I | run | run | vm_compute; discriminate].
Defined.

Lemma wet_v2_not_below_dry_v2_witness :
  let r := weighed Conf1 (initialResult powAtOne (standardDay 300000 3000 0 1 RC.Wet false false)) in
  exists r',
    calculateVSpeeds Conf1 r false 0 = Ok r'
    /\ exists speeds x2,
         intermediateSpeeds r' = Some speeds
         /\ v2 r' = Some x2
         /\ (dryV2 speeds <=? x2) = true.
Proof.
  intro r. eexists. split; [run|].
  apply (wet_v2_not_below_dry_v2 Conf1 r false 0);
    [reflexivity | vm_compute; repeat split | run].
Defined.

Lemma flex_loop_within_tflexmax_witness :
  let res := weighed Conf2 (initialResult powAtOne (standardDay 300000 60000 0 2 RC.Dry false false)) in
  let l := allWeightLimits Conf2 res in
  exists t lf,
    flexLoop (flexRounds 44 55)
      (flexStep Conf2 res LF.SecondSegment (limitOf l LF.SecondSegment)
         LF.SecondSegment (limitOf l LF.SecondSegment))
      44 55 None = Some (t, lf)
    /\ (t >? tFlexMax (params res)) = false
    /\ (t <=? 55) = true
    /\ (lf = LF.SecondSegment \/ lf = LF.SecondSegment)
    /\ ((44 === tFlexMax (params res)) = true -> (t === 44) = true).
Proof.
  intros res l. do 2 eexists. split; [run|].
  apply (flex_loop_within_tflexmax Conf2 res LF.SecondSegment LF.SecondSegment
           (limitOf l LF.SecondSegment) (limitOf l LF.SecondSegment) 44 55).
  run.
Defined.

Lemma dry_runway_speeds_are_dry_speeds_witness :
  let i := standardDay 300000 60000 0 2 RC.Dry false false in
  exists r, calculateTakeoffPerformance powAtOne i = Ok r /\ drySpeedsKept r.
Proof.
  intro i. eexists. split; [run|].
  apply (dry_runway_speeds_are_dry_speeds powAtOne i); run.
Defined.
